(** * Turn handling of [evennia/contrib/turnbattle/tb_items.py]

    A shallow embedding of the combat functions ([combat_cleanup],
    [is_in_combat], [is_turn], [spend_action], [apply_damage]) and of the
    [TBItemsTurnHandler] script, followed by the properties of the turn
    scheduler.

    Game objects live in a store indexed by object identity; the roster of
    the turn handler holds identities, so that two roster slots naming the
    same object share its attributes exactly as the Python references do.
    Every operation is a computation in a state-and-exception monad: a
    Python exception leaves the store as it was when it was raised. *)

From stdpp Require Import gmap strings list fin_maps sorting.
From Stdlib Require Import ZArith Ascii.

Local Open Scope Z_scope.

(** ** Values stored in attributes *)

(** The Python values the combat attributes hold: [None], integers,
    strings, and the reference to the turn handler script. *)
Inductive value : Type :=
| VNone
| VInt (z : Z)
| VStr (s : string)
| VScript.

Global Instance value_eq_dec : EqDecision value.
Proof. solve_decision. Defined.

(** Python truthiness, as used by [if x:] and [bool(x)]. *)
Definition truthy (v : value) : bool :=
  match v with
  | VNone => false
  | VInt z => negb (z =? 0)
  | VStr s => negb (String.eqb s EmptyString)
  | VScript => true
  end.

(** Python [==] between the values above. *)
Definition py_eq (a b : value) : bool := bool_decide (a = b).

(** ** The attribute store *)

Definition ascii_lower (c : ascii) : ascii :=
  let n := N_of_ascii c in
  if ((65 <=? n) && (n <=? 90))%N then ascii_of_N (n + 32) else c.

Fixpoint lower (s : string) : string :=
  match s with
  | EmptyString => EmptyString
  | String c s' => String (ascii_lower c) (lower s')
  end.

(** Modelled from the spec: the attribute store behind [obj.db] and
    [obj.attributes] belongs to the framework, not to this module.  The
    participant store of the spec has one health field per participant,
    and the framework stores attribute names lower-cased: the source
    reads that one field as [db.hp] in [at_script_creation] and
    [apply_damage] and as [db.HP] in [next_turn], and [CmdFight] tests
    [thing.db.HP] for the very objects [at_script_creation] collects with
    [thing.db.hp].  A missing attribute reads as [None]. *)
Definition attr_key (k : string) : string := lower k.
Global Arguments attr_key : simpl never.

Definition db_get (a : gmap string value) (k : string) : value :=
  default VNone (a !! attr_key k).

Definition db_set (a : gmap string value) (k : string) (v : value)
  : gmap string value :=
  <[attr_key k := v]> a.

(** [attr.key[:7] == "combat_"] *)
Definition is_combat_attr (k : string) : bool :=
  String.eqb (String.substring 0 7 k) "combat_".

(** ** Messages *)

Definition obj_id := nat.

Inductive message : Type :=
| MsgTurnOrder (order : list obj_id)
| MsgYourTurn (hp : Z)
| MsgTimedOut (c : obj_id)
| MsgTimeoutWarning
| MsgAllDisengaged
| MsgOnlyRemains (c : obj_id)
| MsgTurnChange (old new : obj_id)
| MsgDefeated (c : obj_id)
| MsgMisses (attacker defender : obj_id)
| MsgHits (attacker defender : obj_id) (damage : Z).

Inductive event : Type :=
| ToRoom (m : message)
| ToChar (c : obj_id) (m : message).

(** ** The world *)

(** The [db] of the turn handler script, its repeat interval, and whether
    the script is still running. *)
Record script : Type := Script {
  fighters : list obj_id;
  turn : Z;
  timer : Z;
  timeout_warning_given : bool;
  interval : Z;
  running : bool
}.

Record world : Type := World {
  objs : gmap obj_id (gmap string value);
  room_db : gmap string value;
  room_contents : list obj_id;
  handler : script;
  next_repeat : Z;
  sent : list event
}.

(** ** Python exceptions and the monad *)

Inductive exn : Type :=
| AttributeError (name : string)
| TypeError
| IndexError
| UnboundLocalError.

Definition M (A : Type) : Type := world -> (exn + A) * world.

Global Instance M_ret : MRet M := fun A x w => (inr x, w).

Global Instance M_bind : MBind M := fun A B f m w =>
  match m w with
  | (inl e, w') => (inl e, w')
  | (inr x, w') => f x w'
  end.

Definition raise {A} (e : exn) : M A := fun w => (inl e, w).
Definition gets {A} (f : world -> A) : M A := fun w => (inr (f w), w).
Definition modify (f : world -> world) : M unit := fun w => (inr tt, f w).

(** [for x in l: body x] *)
Fixpoint for_each {A} (l : list A) (body : A -> M unit) : M unit :=
  match l with
  | [] => mret tt
  | x :: l' => body x ;; for_each l' body
  end.

(** ** Python list operations *)

(** [l[i]], negative indices counting from the end. *)
Definition py_index {A} (l : list A) (i : Z) : option A :=
  let n := Z.of_nat (length l) in
  if 0 <=? i then l !! Z.to_nat i
  else if - n <=? i then l !! Z.to_nat (n + i)
  else None.

(** [l.insert(i, x)]: the index is clamped to the list. *)
Definition py_insert {A} (l : list A) (i : Z) (x : A) : list A :=
  let n := Z.of_nat (length l) in
  let j := if i <? 0 then Z.max 0 (i + n) else Z.min i n in
  take (Z.to_nat j) l ++ x :: drop (Z.to_nat j) l.

(** ** Access to the world *)

Definition obj_attrs (w : world) (c : obj_id) : gmap string value :=
  default ∅ (objs w !! c).

(** [c.db.<k>] read in world [w]. *)
Definition attr (w : world) (c : obj_id) (k : string) : value :=
  db_get (obj_attrs w c) k.

Definition with_objs (f : gmap obj_id (gmap string value) -> gmap obj_id (gmap string value))
  (w : world) : world :=
  World (f (objs w)) (room_db w) (room_contents w) (handler w) (next_repeat w) (sent w).

Definition with_room_db (f : gmap string value -> gmap string value) (w : world) : world :=
  World (objs w) (f (room_db w)) (room_contents w) (handler w) (next_repeat w) (sent w).

Definition with_handler (f : script -> script) (w : world) : world :=
  World (objs w) (room_db w) (room_contents w) (f (handler w)) (next_repeat w) (sent w).

Definition with_sent (f : list event -> list event) (w : world) : world :=
  World (objs w) (room_db w) (room_contents w) (handler w) (next_repeat w) (f (sent w)).

Definition set_fighters (l : list obj_id) (h : script) : script :=
  Script l (turn h) (timer h) (timeout_warning_given h) (interval h) (running h).

Definition set_turn (t : Z) (h : script) : script :=
  Script (fighters h) t (timer h) (timeout_warning_given h) (interval h) (running h).

Definition set_timer (t : Z) (h : script) : script :=
  Script (fighters h) (turn h) t (timeout_warning_given h) (interval h) (running h).

Definition set_timeout_warning_given (b : bool) (h : script) : script :=
  Script (fighters h) (turn h) (timer h) b (interval h) (running h).

Definition set_running (b : bool) (h : script) : script :=
  Script (fighters h) (turn h) (timer h) (timeout_warning_given h) (interval h) b.

Definition get_attr (c : obj_id) (k : string) : M value :=
  gets (fun w => attr w c k).

Definition set_attr (c : obj_id) (k : string) (v : value) : M unit :=
  modify (fun w => with_objs <[c := db_set (obj_attrs w c) k v]> w).

(** [self.obj.msg_contents(...)] *)
Definition msg_contents (m : message) : M unit :=
  modify (with_sent (fun l => l ++ [ToRoom m])).

(** [character.msg(...)] *)
Definition msg (c : obj_id) (m : message) : M unit :=
  modify (with_sent (fun l => l ++ [ToChar c m])).

(** [l[i]] raising [IndexError] out of range. *)
Definition index (l : list obj_id) (i : Z) : M obj_id :=
  match py_index l i with
  | Some x => mret x
  | None => raise IndexError
  end.

(** ** Options *)

Definition TURN_TIMEOUT : Z := 30.
Definition ACTIONS_PER_TURN : Z := 1.

(** ** Combat functions *)

Definition apply_damage (defender : obj_id) (damage : Z) : M unit :=
  hp ← get_attr defender "hp";
  match hp with
  | VInt h =>
      set_attr defender "hp" (VInt (h - damage)) ;;
      if h - damage <=? 0 then set_attr defender "hp" (VInt 0) else mret tt
  | _ => raise TypeError
  end.

Definition at_defeat (defeated : obj_id) : M unit :=
  msg_contents (MsgDefeated defeated).

Definition combat_cleanup (character : obj_id) : M unit :=
  modify (fun w =>
    with_objs
      <[character :=
          filter (fun kv => is_combat_attr kv.1 = false) (obj_attrs w character)]> w).

Definition is_in_combat (character : obj_id) : M bool :=
  th ← get_attr character "combat_turnhandler";
  mret (truthy th).

Definition is_turn (character : obj_id) : M bool :=
  turnhandler ← get_attr character "combat_turnhandler";
  match turnhandler with
  | VScript =>
      h ← gets handler;
      currentchar ← index (fighters h) (turn h);
      mret (bool_decide (character = currentchar))
  | _ => raise (AttributeError "db")
  end.

(** ** The turn handler script *)

Definition at_stop : M unit :=
  fs ← gets (fun w => fighters (handler w));
  for_each fs combat_cleanup ;;
  modify (with_room_db (fun d => db_set d "combat_turnhandler" VNone)).

(** Modelled from the spec: [stop] is the script method of the framework,
    not defined in this module.  At the transition to ENDED the scheduler
    stops itself: the [at_stop] hook runs and the script no longer runs. *)
Definition stop : M unit :=
  at_stop ;;
  modify (with_handler (set_running false)).

Definition initialize_for_combat (character : obj_id) : M unit :=
  combat_cleanup character ;;
  set_attr character "combat_actionsleft" (VInt 0) ;;
  set_attr character "combat_turnhandler" VScript ;;
  set_attr character "combat_lastaction" (VStr "null").

Definition start_turn (character : obj_id) : M unit :=
  set_attr character "combat_actionsleft" (VInt ACTIONS_PER_TURN) ;;
  hp ← get_attr character "hp";
  match hp with
  | VInt h => msg character (MsgYourTurn h)
  | _ => raise TypeError
  end.

(** The first loop of [next_turn]: no fighter has a last action other
    than "disengage". *)
Definition disengage_check (w : world) : bool :=
  forallb (fun fighter => py_eq (attr w fighter "combat_lastaction") (VStr "disengage"))
          (fighters (handler w)).

(** The second loop: the number of fighters with [db.HP == 0]. *)
Definition defeated_characters (w : world) : Z :=
  Z.of_nat (length (List.filter (fun fighter => py_eq (attr w fighter "HP") (VInt 0))
                                (fighters (handler w)))).

(** The third loop: the last fighter with [db.HP != 0], if there is one. *)
Definition LastStanding (w : world) : option obj_id :=
  last (List.filter (fun fighter => negb (py_eq (attr w fighter "HP") (VInt 0)))
                    (fighters (handler w))).

(** Modelled from the spec: [time_until_next_repeat] is the script method
    of the framework; it reports the time left until the periodic timer
    fires next, which the world carries as [next_repeat]. *)
Definition time_until_next_repeat : M Z := gets next_repeat.

Definition next_turn : M unit :=
  all_disengaged ← gets disengage_check;
  if all_disengaged : bool then
    msg_contents MsgAllDisengaged ;;
    stop
  else
    defeated ← gets defeated_characters;
    fs ← gets (fun w => fighters (handler w));
    if defeated =? Z.of_nat (length fs) - 1 then
      standing ← gets LastStanding;
      match standing with
      | Some c => msg_contents (MsgOnlyRemains c) ;; stop
      | None => raise UnboundLocalError
      end
    else
      t ← gets (fun w => turn (handler w));
      currentchar ← index fs t;
      modify (with_handler (set_turn (t + 1))) ;;
      (if t + 1 >? Z.of_nat (length fs) - 1
       then modify (with_handler (set_turn 0)) else mret tt) ;;
      t' ← gets (fun w => turn (handler w));
      newchar ← index fs t';
      r ← time_until_next_repeat;
      modify (with_handler (set_timer (TURN_TIMEOUT + r))) ;;
      modify (with_handler (set_timeout_warning_given false)) ;;
      msg_contents (MsgTurnChange currentchar newchar) ;;
      start_turn newchar.

Definition turn_end_check (character : obj_id) : M unit :=
  left ← get_attr character "combat_actionsleft";
  if truthy left then mret tt else next_turn.

Inductive amount : Type :=
| All
| Amount (n : Z).

Definition spend_action (character : obj_id) (actions : amount)
  (action_name : option string) : M unit :=
  (match action_name with
   | Some name =>
       if truthy (VStr name)
       then set_attr character "combat_lastaction" (VStr name)
       else mret tt
   | None => mret tt
   end) ;;
  (match actions with
   | All => set_attr character "combat_actionsleft" (VInt 0)
   | Amount n =>
       left ← get_attr character "combat_actionsleft";
       match left with
       | VInt a =>
           set_attr character "combat_actionsleft" (VInt (a - n)) ;;
           if a - n <? 0
           then set_attr character "combat_actionsleft" (VInt 0)
           else mret tt
       | _ => raise TypeError
       end
   end) ;;
  turnhandler ← get_attr character "combat_turnhandler";
  match turnhandler with
  | VScript => turn_end_check character
  | _ => raise (AttributeError "turn_end_check")
  end.

Definition at_repeat : M unit :=
  h ← gets handler;
  currentchar ← index (fighters h) (turn h);
  modify (with_handler (set_timer (timer h - interval h))) ;;
  t ← gets (fun w => timer (handler w));
  if t <=? 0 then
    msg_contents (MsgTimedOut currentchar) ;;
    spend_action currentchar All (Some "disengage")
  else if (t <=? 10) && negb (timeout_warning_given h) then
    msg currentchar MsgTimeoutWarning ;;
    modify (with_handler (set_timeout_warning_given true))
  else mret tt.

Definition join_fight (character : obj_id) : M unit :=
  h ← gets handler;
  modify (with_handler (set_fighters (py_insert (fighters h) (turn h) character))) ;;
  modify (with_handler (set_turn (turn h + 1))) ;;
  initialize_for_combat character.

(** *** Initiative *)

(** [sorted(l, key=roll_init, reverse=True)]: the key function is called
    once per element in list order, [roll i] being the result of the
    [i]-th call; the sort is stable, also under [reverse=True].  The
    result of a stable sort is determined by the keys, whichever
    algorithm computes it; this one inserts from the right. *)
Definition decorate (roll : nat -> Z) (l : list obj_id) : list (Z * obj_id) :=
  imap (fun i x => (roll i, x)) l.

Fixpoint insert_desc (x : Z * obj_id) (l : list (Z * obj_id)) : list (Z * obj_id) :=
  match l with
  | [] => [x]
  | y :: l' => if y.1 <=? x.1 then x :: y :: l' else y :: insert_desc x l'
  end.

Definition sort_desc (l : list (Z * obj_id)) : list (Z * obj_id) :=
  foldr insert_desc [] l.

Definition sorted_by_roll (roll : nat -> Z) (l : list obj_id) : list obj_id :=
  (sort_desc (decorate roll l)).*2.

Definition at_script_creation (roll : nat -> Z) : M unit :=
  (* a script just created has no attribute of its own yet *)
  modify (with_handler (fun _ => Script [] 0 0 false 5 true)) ;;
  things ← gets room_contents;
  for_each things (fun thing =>
    hp ← get_attr thing "hp";
    if truthy hp
    then modify (with_handler (fun h => set_fighters (fighters h ++ [thing]) h))
    else mret tt) ;;
  fs ← gets (fun w => fighters (handler w));
  for_each fs initialize_for_combat ;;
  modify (with_room_db (fun d => db_set d "combat_turnhandler" VScript)) ;;
  modify (with_handler (set_fighters (sorted_by_roll roll fs))) ;;
  ordered ← gets (fun w => fighters (handler w));
  msg_contents (MsgTurnOrder ordered) ;;
  first ← index ordered 0;
  start_turn first ;;
  modify (with_handler (set_turn 0)) ;;
  modify (with_handler (set_timer TURN_TIMEOUT)).

(** ** Vocabulary of the statements *)

(** What [combat_cleanup] leaves of an attribute store. *)
Definition cleaned (a : gmap string value) : gmap string value :=
  filter (fun kv => is_combat_attr kv.1 = false) a.

(** The roster and the cursor of the fight in [w]. *)
Definition roster (w : world) : list obj_id := fighters (handler w).
Definition cursor (w : world) : Z := turn (handler w).

(** The participant whose turn it is. *)
Definition current (w : world) : option obj_id := py_index (roster w) (cursor w).

(** The scheduler is in state ENDED. *)
Definition ended (w : world) : Prop := running (handler w) = false.

(** The three transient combat fields of a participant are cleared. *)
Definition transient_cleared (w : world) (c : obj_id) : Prop :=
  attr w c "combat_actionsleft" = VNone /\
  attr w c "combat_lastaction" = VNone /\
  attr w c "combat_turnhandler" = VNone.

(** The transient fields as [initialize_for_combat] sets them. *)
Definition transient_initialized (w : world) (c : obj_id) : Prop :=
  attr w c "combat_actionsleft" = VInt 0 /\
  attr w c "combat_lastaction" = VStr "null" /\
  attr w c "combat_turnhandler" = VScript.

(** Message [m] is sent to the room between [w] and [w']. *)
Definition announced (w w' : world) (m : message) : Prop :=
  exists new, sent w' = sent w ++ new /\ ToRoom m ∈ new.

(** The cursor after a rotation: one further, back to 0 past the end. *)
Definition next_cursor (w : world) : Z :=
  if cursor w + 1 >? Z.of_nat (length (roster w)) - 1 then 0 else cursor w + 1.


Definition eligible (w : world) (c : obj_id) : bool := truthy (attr w c "hp").

(** The value [initialize_for_combat] leaves in attribute [k], given its
    value before. *)
Definition init_attr (old : value) (k : string) : value :=
  if decide (attr_key "combat_lastaction" = attr_key k) then VStr "null"
  else if decide (attr_key "combat_turnhandler" = attr_key k) then VScript
  else if decide (attr_key "combat_actionsleft" = attr_key k) then VInt 0
  else if is_combat_attr (attr_key k) then VNone
  else old.



Definition bystander : gmap string value := {[ "desc" := VStr "a rock" ]}.

Definition fighter (hp : Z) : gmap string value :=
  {[ "hp" := VInt hp; "max_hp" := VInt 100 ]}.

(** A room before any fight: objects 1 and 2 at full health, and 3, which
    has no health at all. *)
Definition quiet_room : world :=
  World {[ 1%nat := fighter 100; 2%nat := fighter 100; 3%nat := bystander ]}
        ∅ [1%nat; 2%nat; 3%nat] (Script [] 0 0 false 0 false) 0 [].

(** The value [combat_cleanup] leaves in attribute [k]. *)
Definition clean_attr (old : value) (k : string) : value :=
  if is_combat_attr (attr_key k) then VNone else old.

(** The first statement of [spend_action]: the label is written when
    one is given. *)
Definition write_label (p : obj_id) (action_name : option string) (w : world) : world :=
  match action_name with
  | Some name =>
      if truthy (VStr name)
      then with_objs <[p := db_set (obj_attrs w p) "combat_lastaction" (VStr name)]> w
      else w
  | None => w
  end.

Definition write_actions (p : obj_id) (z : Z) (w : world) : world :=
  with_objs <[p := db_set (obj_attrs w p) "combat_actionsleft" (VInt z)]> w.

(** The last statement of [spend_action]. *)
Definition signal_end_of_turn (p : obj_id) : M unit :=
  turnhandler ← get_attr p "combat_turnhandler";
  match turnhandler with
  | VScript => turn_end_check p
  | _ => raise (AttributeError "turn_end_check")
  end.

(** The actions left after spending, from [a]. *)
Definition spent (a : Z) (actions : amount) : Z :=
  match actions with
  | All => 0
  | Amount n => Z.max (a - n) 0
  end.

(** The attributes of a character in a fight. *)
Definition in_combat (hp actions : Z) (last : string) : gmap string value :=
  {[ "hp" := VInt hp; "max_hp" := VInt 100;
     "combat_actionsleft" := VInt actions;
     "combat_turnhandler" := VScript;
     "combat_lastaction" := VStr last ]}.

(** The fight [at_script_creation] starts in [quiet_room] when object 2
    rolls higher than object 1: it is the turn of 2. *)
Definition duel : world :=
  World {[ 1%nat := in_combat 100 0 "null"; 2%nat := in_combat 100 1 "null";
           3%nat := bystander ]}
        {[ "combat_turnhandler" := VScript ]}
        [1%nat; 2%nat; 3%nat]
        (Script [2%nat; 1%nat] 0 30 false 5 true) 0
        [ToRoom (MsgTurnOrder [2%nat; 1%nat]); ToChar 2%nat (MsgYourTurn 100)].

(** A fight in progress: the characters with their attributes, the
    roster, the cursor, and the time left until the next tick. *)
Definition arena (chars : list (obj_id * gmap string value)) (order : list obj_id)
  (cursor : Z) (until_tick : Z) : world :=
  World (list_to_map chars) {[ "combat_turnhandler" := VScript ]} (chars.*1)
        (Script order cursor TURN_TIMEOUT false 5 true) until_tick [].

(** Three fighters; 1 has just struck down the last of the other two. *)
Definition last_blow : world :=
  arena [(1%nat, in_combat 60 0 "attack"); (2%nat, in_combat 0 0 "pass");
         (3%nat, in_combat 0 1 "attack")]
        [1%nat; 2%nat; 3%nat] 0 0.

(** Two fighters who both disengaged; 2 was struck down after that. *)
Definition truce : world :=
  arena [(1%nat, in_combat 60 0 "disengage"); (2%nat, in_combat 0 0 "disengage")]
        [1%nat; 2%nat] 0 0.

(** Two fighters on their feet who have both disengaged, and 3, struck
    down after an attack of its own. *)
Definition fallen_attacker : world :=
  arena [(1%nat, in_combat 50 0 "disengage"); (2%nat, in_combat 50 0 "disengage");
         (3%nat, in_combat 0 0 "attack")]
        [1%nat; 2%nat; 3%nat] 1 0.

(** The fight of [duel]: 2 has acted, 3 seconds before the next tick. *)
Definition duel_between_ticks : world :=
  arena [(1%nat, in_combat 100 0 "null"); (2%nat, in_combat 100 0 "attack")]
        [2%nat; 1%nat] 0 3.

(** The fight of [duel_between_ticks] in the turn of 1, begun by a
    rotation 3 seconds before a tick: the countdown is 33. *)
Definition duel_second_turn : world :=
  with_handler (set_timer (TURN_TIMEOUT + 3))
    (arena [(1%nat, in_combat 100 1 "null"); (2%nat, in_combat 100 0 "attack")]
           [2%nat; 1%nat] 1 3).

(** The world after the countdown of one tick. *)
Definition counted_down (w : world) : world :=
  with_handler (set_timer (timer (handler w) - interval (handler w))) w.

(** [n] ticks of the periodic timer in a row. *)
Fixpoint ticks (n : nat) : M unit :=
  match n with
  | O => mret tt
  | S n' => at_repeat ;; ticks n'
  end.

(** The fight of [duel], over: the handler stopped, the transient fields
    gone. *)
Definition aftermath : world :=
  World {[ 1%nat := fighter 100; 2%nat := fighter 100; 3%nat := bystander ]}
        {[ "combat_turnhandler" := VNone ]}
        [1%nat; 2%nat; 3%nat]
        (Script [2%nat; 1%nat] 0 30 false 5 false) 0
        [ToRoom (MsgTurnOrder [2%nat; 1%nat]); ToChar 2%nat (MsgYourTurn 100)].

(** The world in which [next_turn] runs when the turn of [cur] times out:
    the countdown done, the timeout announced, and all actions of [cur]
    spent on "disengage". *)
Definition timed_out (cur : obj_id) (w : world) : world :=
  write_actions cur 0
    (write_label cur (Some "disengage")
       (with_sent (fun l => l ++ [ToRoom (MsgTimedOut cur)]) (counted_down w))).

(** The fight of [duel] with 5 seconds left on the countdown. *)
Definition duel_running_out : world := with_handler (set_timer 5) duel.

(** The fight of [duel] after both fighters have spent their turn on
    "disengage": the state in which the second of them ends the turn. *)
Definition duel_truce : world :=
  World {[ 1%nat := in_combat 100 0 "disengage"; 2%nat := in_combat 100 0 "disengage";
           3%nat := bystander ]}
        {[ "combat_turnhandler" := VScript ]}
        [1%nat; 2%nat; 3%nat]
        (Script [2%nat; 1%nat] 1 30 false 5 true) 0
        [ToRoom (MsgTurnOrder [2%nat; 1%nat]); ToChar 2%nat (MsgYourTurn 100);
         ToRoom (MsgTurnChange 2%nat 1%nat); ToChar 1%nat (MsgYourTurn 100)].

(** Three fighters, two of them weak; it is the turn of 1. *)
Definition melee : world :=
  arena [(1%nat, in_combat 100 1 "null"); (2%nat, in_combat 20 0 "null");
         (3%nat, in_combat 20 0 "null")]
        [1%nat; 2%nat; 3%nat] 0 0.

(** 1 strikes down 2, the others pass, 1 strikes down 3: each blow as
    [resolve_attack] lands it on a hit, each action spent as the commands
    spend it. *)
Definition melee_run : M unit :=
  apply_damage 2%nat 25 ;; at_defeat 2%nat ;;
  spend_action 1%nat (Amount 1) (Some "attack") ;;
  spend_action 2%nat All (Some "pass") ;;
  spend_action 3%nat All (Some "pass") ;;
  apply_damage 3%nat 25 ;; at_defeat 3%nat ;;
  spend_action 1%nat (Amount 1) (Some "attack").

(** ** More of the module: attacks, commands, items *)

(** What the random source yields for the rolls of one attack:
    [randint(1, 100)] of [get_attack] and [randint(15, 25)] of
    [get_damage], each used only if the roll is made. *)
Record dice : Type := Dice { attack_roll : Z; damage_roll : Z }.

Definition get_attack (d : dice) (attacker defender : obj_id) : Z := attack_roll d.

Definition get_defense (attacker defender : obj_id) : Z := 50.

Definition get_damage (d : dice) (attacker defender : obj_id) : Z := damage_roll d.

(** [if not v: v = fallback] for an optional number [v]: [None] and 0
    are both falsy. *)
Definition or_else (v : option Z) (fallback : Z) : Z :=
  match v with
  | Some z => if truthy (VInt z) then z else fallback
  | None => fallback
  end.

Definition resolve_attack (d : dice) (attacker defender : obj_id)
  (attack_value defense_value damage_value : option Z) : M unit :=
  let attack_value := or_else attack_value (get_attack d attacker defender) in
  let defense_value := or_else defense_value (get_defense attacker defender) in
  if attack_value <? defense_value then
    msg_contents (MsgMisses attacker defender)
  else
    let damage_value := or_else damage_value (get_damage d attacker defender) in
    msg_contents (MsgHits attacker defender damage_value) ;;
    apply_damage defender damage_value ;;
    hp ← get_attr defender "hp";
    match hp with
    | VInt h => if h <=? 0 then at_defeat defender else mret tt
    | _ => raise TypeError
    end.

(** The value an attack works with: the one the caller supplied, unless
    that is missing or 0, in which case it is the fallback. *)
Definition effective (supplied : option Z) (fallback value : Z) : Prop :=
  (supplied = Some value /\ value <> 0) \/
  ((supplied = None \/ supplied = Some 0) /\ value = fallback).

(** [k] ends of turn in a row. *)
Fixpoint rotations (k : nat) : M unit :=
  match k with
  | O => mret tt
  | S k' => next_turn ;; rotations k'
  end.

(** A fight that goes on: the cursor is a roster index, not every fighter
    has disengaged, more than one fighter is standing or none is, and the
    health of every fighter is a number. *)
Definition goes_on (w : world) : Prop :=
  0 <= cursor w < Z.of_nat (length (roster w)) /\
  disengage_check w = false /\
  defeated_characters w <> Z.of_nat (length (roster w)) - 1 /\
  (forall f, f ∈ roster w -> exists h, attr w f "hp" = VInt h).

(** The cursor is an index of the roster. *)
Definition live (w : world) : Prop :=
  0 <= cursor w < Z.of_nat (length (roster w)).

(** *** The commands *)

(** The texts of the commands, by their content. *)
Inductive notice : Type :=
| CantStartDefeated
| AlreadyInFight
| NobodyToFight
| JoinsFight (c : obj_id)
| StartsFight (c : obj_id)
| OnlyInCombat
| OnlyOnYourTurn
| CantAttackDefeated
| CantFightThat
| CantAttackYourself
| PassesTurn (c : obj_id)
| Disengages (c : obj_id)
| CantRestInCombat
| Rests (c : obj_id).

Inductive said : Type :=
| RoomHears (n : notice)
| CallerHears (c : obj_id) (n : notice).

(** A command runs in the world; what it says itself through
    [self.caller.msg] and [msg_contents] is kept in [heard], each text
    with the number of messages of the combat functions sent before it,
    which fixes the order of all messages. *)
Record session : Type := Session {
  state : world;
  heard : list (nat * said)
}.

(** [NameError] is what the evaluation of a name bound nowhere raises;
    the combat functions raise the exceptions of [exn]. *)
Inductive error : Type :=
| Raised (e : exn)
| NameError (name : string).

Definition Cmd (A : Type) : Type := session -> (error + A) * session.

Global Instance Cmd_ret : MRet Cmd := fun A x s => (inr x, s).

Global Instance Cmd_bind : MBind Cmd := fun A B f m s =>
  match m s with
  | (inl e, s') => (inl e, s')
  | (inr x, s') => f x s'
  end.

(** A call of a combat function from a command. *)
Definition lift {A} (m : M A) : Cmd A := fun s =>
  match m (state s) with
  | (inl e, w') => (inl (Raised e), Session w' (heard s))
  | (inr x, w') => (inr x, Session w' (heard s))
  end.

Definition throw {A} (e : error) : Cmd A := fun s => (inl e, s).

Definition hear (what : said) : Cmd unit := fun s =>
  (inr tt, Session (state s) (heard s ++ [(length (sent (state s)), what)])).

(** [self.caller.msg(...)] *)
Definition caller_msg (caller : obj_id) (n : notice) : Cmd unit :=
  hear (CallerHears caller n).

(** [self.caller.location.msg_contents(...)] *)
Definition location_msg_contents (n : notice) : Cmd unit :=
  hear (RoomHears n).

(** Modelled from the spec: [scripts.add] is the framework's; it is the
    [start_combat] call of the command layer.  The framework creates the
    turn handler of the room, which runs [at_script_creation], and
    starts it; the handler sets no start delay, so that the periodic
    timer fires once as the script starts and the first [at_repeat] has
    run when [scripts.add] returns.  [roll] is what the random source
    yields for the initiative rolls. *)
Definition scripts_add (roll : nat -> Z) : M unit :=
  at_script_creation roll ;;
  at_repeat.

Definition CmdFight (roll : nat -> Z) (caller : obj_id) : Cmd unit :=
  hp ← lift (get_attr caller "hp");
  if negb (truthy hp) then caller_msg caller CantStartDefeated
  else
    fighting ← lift (is_in_combat caller);
    if fighting : bool then caller_msg caller AlreadyInFight
    else
      fs ← lift (gets (fun w =>
              List.filter (fun thing => truthy (attr w thing "HP")) (room_contents w)));
      if Z.of_nat (length fs) <=? 1 then caller_msg caller NobodyToFight
      else
        th ← lift (gets (fun w => db_get (room_db w) "combat_turnhandler"));
        if truthy th then
          location_msg_contents (JoinsFight caller) ;;
          match th with
          | VScript => lift (join_fight caller)
          | _ => throw (Raised (AttributeError "join_fight"))
          end
        else
          location_msg_contents (StartsFight caller) ;;
          lift (scripts_add roll).

(** [defender] is what the framework's [self.caller.search(self.args)]
    found: an object, or nothing. *)
Definition CmdAttack (d : dice) (caller : obj_id) (defender : option obj_id) : Cmd unit :=
  fighting ← lift (is_in_combat caller);
  if negb fighting then caller_msg caller OnlyInCombat
  else
    my_turn ← lift (is_turn caller);
    if negb my_turn then caller_msg caller OnlyOnYourTurn
    else
      hp ← lift (get_attr caller "hp");
      if negb (truthy hp) then caller_msg caller CantAttackDefeated
      else
        match defender with
        | None => mret tt
        | Some defender =>
            dhp ← lift (get_attr defender "hp");
            if negb (truthy dhp) then caller_msg caller CantFightThat
            else if bool_decide (caller = defender)
            then caller_msg caller CantAttackYourself
            else
              lift (resolve_attack d caller defender None None None) ;;
              lift (spend_action caller (Amount 1) (Some "attack"))
        end.

Definition CmdPass (caller : obj_id) : Cmd unit :=
  fighting ← lift (is_in_combat caller);
  if negb fighting then caller_msg caller OnlyInCombat
  else
    my_turn ← lift (is_turn caller);
    if negb my_turn then caller_msg caller OnlyOnYourTurn
    else
      location_msg_contents (PassesTurn caller) ;;
      lift (spend_action caller All (Some "pass")).

Definition CmdDisengage (caller : obj_id) : Cmd unit :=
  fighting ← lift (is_in_combat caller);
  if negb fighting then caller_msg caller OnlyInCombat
  else
    my_turn ← lift (is_turn caller);
    if negb my_turn then caller_msg caller OnlyOnYourTurn
    else
      location_msg_contents (Disengages caller) ;;
      lift (spend_action caller All (Some "disengage")).

Definition CmdRest (caller : obj_id) : Cmd unit :=
  fighting ← lift (is_in_combat caller);
  if fighting : bool then caller_msg caller CantRestInCombat
  else
    max_hp ← lift (get_attr caller "max_hp");
    lift (set_attr caller "hp" max_hp) ;;
    location_msg_contents (Rests caller).

(** The session after a command that only tells [caller] the text [n]. *)
Definition told (s : session) (caller : obj_id) (n : notice) : session :=
  Session (state s)
          (heard s ++ [(length (sent (state s)), CallerHears caller n)]).

(** The three commands that act in a fight. *)
Definition turn_commands (d : dice) (defender : option obj_id) (caller : obj_id)
  : list (Cmd unit) :=
  [CmdAttack d caller defender; CmdPass caller; CmdDisengage caller].

(** The world in which the end-of-turn check runs after [p] has spent
    every action on [name]. *)
Definition acted (p : obj_id) (name : string) (w : world) : world :=
  write_actions p 0 (write_label p (Some name) w).

(** Three fighters, 2 struck down already and 3 weak; it is the turn of 1. *)
Definition showdown : world :=
  arena [(1%nat, in_combat 100 1 "null"); (2%nat, in_combat 0 0 "pass");
         (3%nat, in_combat 20 0 "pass")]
        [1%nat; 2%nat; 3%nat] 0 0.

(** The refusal of [CmdFight], if it refuses: by the health of the
    caller, by the fight the caller is in, by the able fighters in the
    room. *)
Definition fight_refusal (w : world) (caller : obj_id) : option notice :=
  if negb (truthy (attr w caller "hp")) then Some CantStartDefeated
  else if truthy (attr w caller "combat_turnhandler") then Some AlreadyInFight
  else if (length (List.filter (eligible w) (room_contents w)) <=? 1)%nat
       then Some NobodyToFight
       else None.

(** The roster is without repetition and each of its fighters refers to
    the turn handler. *)
Definition enrolled (w : world) : Prop :=
  NoDup (roster w) /\
  forall f, f ∈ roster w -> attr w f "combat_turnhandler" = VScript.

(** Three able characters in a room, 2 and 1 in a fight and 3 looking on. *)
Definition duel_watched : world :=
  World {[ 1%nat := in_combat 100 0 "null"; 2%nat := in_combat 100 1 "null";
           3%nat := fighter 100 ]}
        {[ "combat_turnhandler" := VScript ]}
        [1%nat; 2%nat; 3%nat]
        (Script [2%nat; 1%nat] 0 30 false 5 true) 0 [].

(** The calls of [spend_item_use] into the framework, left open: the
    first object [spawn] makes of the prototype named by a value (or the
    exception it raises), the move of the residue to the location of the
    item, and the deletion of an object. *)
Class Framework : Type := {
  spawn_first : value -> Cmd obj_id;
  move_to_location_of : obj_id -> obj_id -> Cmd unit;
  delete_object : obj_id -> Cmd unit
}.

(** [self.caller.msg(...)] in a function of the module: the module binds
    no name [self] and the function has no such parameter, so that the
    evaluation of [self] raises [NameError] before any argument is
    looked at. *)
Definition self_caller_msg : Cmd unit := throw (NameError "self").

(** [True] is the integer 1 to [==] and to truth, and an attribute
    holding it is read here as that number. *)
Definition spend_item_use `{Framework} (item : obj_id) : Cmd unit :=
  uses ← lift (get_attr item "item_uses");
  if truthy uses then
    match uses with
    | VInt n =>
        lift (set_attr item "item_uses" (VInt (n - 1))) ;;
        if n - 1 >? 0 then self_caller_msg
        else
          consumable ← lift (get_attr item "item_consumable");
          if negb (truthy consumable) then self_caller_msg
          else if py_eq consumable (VInt 1) then
            self_caller_msg ;;
            delete_object item
          else
            residue ← spawn_first consumable;
            move_to_location_of residue item ;;
            self_caller_msg ;;
            delete_object item
    | _ => throw (Raised TypeError)
    end
  else mret tt.

(** A framework in which every prototype yields object 9. *)
Definition plain_framework : Framework :=
  {| spawn_first := fun _ => mret 9%nat;
     move_to_location_of := fun _ _ => mret tt;
     delete_object := fun c => lift (modify (with_objs (base.delete c))) |}.

(** A character at full health carrying a medical kit, object 7, with
    three uses. *)
Definition with_medkit : world :=
  World {[ 1%nat := fighter 100;
           7%nat := {[ "item_func" := VStr "heal"; "item_uses" := VInt 3;
                       "item_consumable" := VInt 1 ]} ]}
        ∅ [1%nat] (Script [] 0 0 false 0 false) 0 [].

(** Fighter 1 with three actions in hand, in a fight with 2. *)
Definition flurry : world :=
  arena [(1%nat, in_combat 100 3 "null"); (2%nat, in_combat 100 0 "null")]
        [1%nat; 2%nat] 0 0.

(** ** Basic facts *)

Lemma obj_attrs_insert (w : world) (c c' : obj_id) (a : gmap string value) :
  obj_attrs (with_objs <[c := a]> w) c' = if decide (c = c') then a else obj_attrs w c'.
Proof.
  unfold obj_attrs, with_objs; simpl.
  rewrite lookup_insert. by destruct (decide (c = c')).
Qed.

Lemma db_get_set (a : gmap string value) (k k' : string) (v : value) :
  db_get (db_set a k v) k' = if decide (attr_key k = attr_key k') then v else db_get a k'.
Proof.
  unfold db_get, db_set. rewrite lookup_insert.
  by destruct (decide (attr_key k = attr_key k')).
Qed.

Lemma db_get_cleaned (a : gmap string value) (k : string) :
  db_get (cleaned a) k = if is_combat_attr (attr_key k) then VNone else db_get a k.
Proof.
  unfold db_get, cleaned.
  destruct (is_combat_attr (attr_key k)) eqn:E.
  - rewrite (proj2 (map_lookup_filter_None _ a (attr_key k))); [done|].
    right. intros x _. simpl. congruence.
  - destruct (a !! attr_key k) as [x|] eqn:L.
    + by rewrite (proj2 (map_lookup_filter_Some _ a (attr_key k) x)).
    + rewrite (proj2 (map_lookup_filter_None _ a (attr_key k))); [done|]. by left.
Qed.

Lemma cleaned_idemp (a : gmap string value) : cleaned (cleaned a) = cleaned a.
Proof.
  apply map_eq. intros k. unfold cleaned.
  apply option_eq. intros x.
  rewrite !map_lookup_filter_Some. naive_solver.
Qed.

Lemma attr_set_attr (w : world) (c c' : obj_id) (k k' : string) (v : value) :
  attr (with_objs <[c := db_set (obj_attrs w c) k v]> w) c' k' =
  if decide (c = c' /\ attr_key k = attr_key k') then v else attr w c' k'.
Proof.
  unfold attr. rewrite obj_attrs_insert.
  destruct (decide (c = c')) as [->|N].
  - rewrite db_get_set. destruct (decide (attr_key k = attr_key k'));
      destruct (decide _); naive_solver.
  - destruct (decide _); naive_solver.
Qed.

(** The effect of the cleanup loop of [at_stop]. *)
Lemma for_each_combat_cleanup (l : list obj_id) (w : world) :
  exists w',
    for_each l combat_cleanup w = (inr tt, w') /\
    room_db w' = room_db w /\ room_contents w' = room_contents w /\
    handler w' = handler w /\ next_repeat w' = next_repeat w /\
    sent w' = sent w /\
    forall c, obj_attrs w' c =
              if decide (c ∈ l) then cleaned (obj_attrs w c) else obj_attrs w c.
Proof.
  revert w. induction l as [|x l IH]; intros w.
  - exists w. repeat split; done.
  - destruct (IH (with_objs <[x := cleaned (obj_attrs w x)]> w))
      as (w' & Hrun & Hr & Hc & Hh & Hn & Hs & Ha).
    exists w'. split; [|repeat split; try done].
    + exact Hrun.
    + intros c. rewrite Ha, obj_attrs_insert.
      repeat destruct (decide _); subst; rewrite ?cleaned_idemp; try done; set_solver.
Qed.

(** *** Monad laws used as rewriting rules *)

Lemma bind_gets {A B} (f : world -> A) (k : A -> M B) (w : world) :
  (gets f ≫= k) w = k (f w) w.
Proof. reflexivity. Qed.

Lemma bind_modify {B} (f : world -> world) (k : unit -> M B) (w : world) :
  (modify f ≫= k) w = k tt (f w).
Proof. reflexivity. Qed.

Lemma bind_ret {A B} (x : A) (k : A -> M B) (w : world) :
  (mret x ≫= k) w = k x w.
Proof. reflexivity. Qed.

Lemma bind_raise {A B} (e : exn) (k : A -> M B) (w : world) :
  (raise e ≫= k) w = (inl e, w).
Proof. reflexivity. Qed.

Lemma bind_returns {A B} (m : M A) (k : A -> M B) (w w' : world) (x : A) :
  m w = (inr x, w') -> (m ≫= k) w = k x w'.
Proof. intros H. unfold mbind, M_bind. by rewrite H. Qed.

Lemma bind_raises {A B} (m : M A) (k : A -> M B) (w w' : world) (e : exn) :
  m w = (inl e, w') -> (m ≫= k) w = (inl e, w').
Proof. intros H. unfold mbind, M_bind. by rewrite H. Qed.

Lemma bind_assoc {A B C} (m : M A) (k : A -> M B) (k' : B -> M C) (w : world) :
  ((m ≫= k) ≫= k') w = (m ≫= (fun x => k x ≫= k')) w.
Proof. unfold mbind, M_bind. by destruct (m w) as [[e|x] w']. Qed.

(** *** The ENDED transition *)

Lemma stop_spec (w : world) :
  exists w',
    stop w = (inr tt, w') /\
    handler w' = set_running false (handler w) /\
    room_db w' = db_set (room_db w) "combat_turnhandler" VNone /\
    room_contents w' = room_contents w /\
    next_repeat w' = next_repeat w /\
    sent w' = sent w /\
    forall c, obj_attrs w' c =
              if decide (c ∈ roster w) then cleaned (obj_attrs w c) else obj_attrs w c.
Proof.
  destruct (for_each_combat_cleanup (roster w) w)
    as (w1 & Hrun & Hr & Hc & Hh & Hn & Hs & Ha).
  eexists. split.
  - unfold stop, at_stop. rewrite bind_assoc, bind_gets, bind_assoc.
    fold (roster w). rewrite (bind_returns _ _ _ _ _ Hrun). reflexivity.
  - simpl. rewrite Hh, Hr, Hc, Hn, Hs. repeat split; try done.
Qed.

Lemma filter_split_length {A} (f : A -> bool) (l : list A) :
  (length (List.filter f l) + length (List.filter (fun x => negb (f x)) l) = length l)%nat.
Proof. induction l as [|x l IH]; simpl; [done|]. destruct (f x); simpl; lia. Qed.

Lemma length_one_inv {A} (l : list A) : length l = 1%nat -> exists x, l = [x].
Proof. destruct l as [|x [|y l]]; simpl; intros H; try lia. by exists x. Qed.

(** With all but one fighter at [HP == 0] the third loop of [next_turn]
    finds exactly one fighter, the only one whose HP differs from 0. *)
Lemma sole_survivor (w : world) :
  defeated_characters w = Z.of_nat (length (roster w)) - 1 ->
  exists c,
    List.filter (fun f => negb (py_eq (attr w f "HP") (VInt 0))) (roster w) = [c] /\
    LastStanding w = Some c.
Proof.
  unfold defeated_characters, LastStanding, roster. intros H.
  pose proof (filter_split_length
    (fun f => py_eq (attr w f "HP") (VInt 0)) (fighters (handler w))) as L.
  destruct (length_one_inv
    (List.filter (fun f => negb (py_eq (attr w f "HP") (VInt 0))) (fighters (handler w))))
    as [c Hc]; [lia|].
  exists c. by rewrite Hc.
Qed.

Lemma index_Some (l : list obj_id) (i : Z) (x : obj_id) :
  py_index l i = Some x -> index l i = mret x.
Proof. unfold index. by intros ->. Qed.

Lemma index_None (l : list obj_id) (i : Z) :
  py_index l i = None -> index l i = raise IndexError.
Proof. unfold index. by intros ->. Qed.

Lemma attr_with_handler (f : script -> script) (w : world) (c : obj_id) (k : string) :
  attr (with_handler f w) c k = attr w c k.
Proof. reflexivity. Qed.

Lemma attr_with_sent (f : list event -> list event) (w : world) (c : obj_id) (k : string) :
  attr (with_sent f w) c k = attr w c k.
Proof. reflexivity. Qed.

Lemma attr_with_room_db (f : gmap string value -> gmap string value) (w : world)
  (c : obj_id) (k : string) :
  attr (with_room_db f w) c k = attr w c k.
Proof. reflexivity. Qed.

Ltac mstep :=
  repeat (first [ rewrite bind_assoc | rewrite bind_gets | rewrite bind_modify
                | rewrite bind_ret | rewrite bind_raise ]; cbv beta).

Lemma start_turn_spec (w : world) (c : obj_id) (h : Z) :
  attr w c "hp" = VInt h ->
  start_turn c w =
  (inr tt, with_sent (fun l => l ++ [ToChar c (MsgYourTurn h)])
             (with_objs <[c := db_set (obj_attrs w c) "combat_actionsleft"
                                      (VInt ACTIONS_PER_TURN)]> w)).
Proof.
  intros H. unfold start_turn, set_attr, get_attr. mstep.
  rewrite attr_set_attr. destruct (decide _) as [[_ ?]|]; [done|].
  by rewrite H.
Qed.

(** *** The three outcomes of [next_turn] *)

Lemma next_turn_all_disengaged (w : world) :
  disengage_check w = true ->
  next_turn w = (msg_contents MsgAllDisengaged ;; stop) w.
Proof. intros H. unfold next_turn. by rewrite bind_gets, H. Qed.

Lemma next_turn_last_standing (w : world) (c : obj_id) :
  disengage_check w = false ->
  defeated_characters w = Z.of_nat (length (roster w)) - 1 ->
  LastStanding w = Some c ->
  next_turn w = (msg_contents (MsgOnlyRemains c) ;; stop) w.
Proof.
  intros H1 H2 H3. unfold next_turn.
  rewrite bind_gets, H1, bind_gets, bind_gets. fold (roster w).
  rewrite H2, Z.eqb_refl, bind_gets, H3. reflexivity.
Qed.

Lemma next_turn_rotates (w : world) (cur new : obj_id) (h : Z) :
  disengage_check w = false ->
  defeated_characters w <> Z.of_nat (length (roster w)) - 1 ->
  current w = Some cur ->
  py_index (roster w) (next_cursor w) = Some new ->
  attr w new "hp" = VInt h ->
  exists w',
    next_turn w = (inr tt, w') /\
    handler w' = Script (roster w) (next_cursor w) (TURN_TIMEOUT + next_repeat w)
                        false (interval (handler w)) (running (handler w)) /\
    sent w' = sent w ++ [ToRoom (MsgTurnChange cur new); ToChar new (MsgYourTurn h)] /\
    room_db w' = room_db w /\ room_contents w' = room_contents w /\
    next_repeat w' = next_repeat w /\
    forall c k, attr w' c k =
                if decide (new = c /\ attr_key "combat_actionsleft" = attr_key k)
                then VInt ACTIONS_PER_TURN else attr w c k.
Proof.
  intros H1 H2 H3 H4 H5. unfold next_turn.
  rewrite bind_gets, H1, bind_gets, bind_gets. fold (roster w).
  apply Z.eqb_neq in H2. rewrite H2, bind_gets. cbv beta.
  unfold current, cursor in H3. rewrite (index_Some _ _ _ H3), bind_ret, bind_modify.
  unfold next_cursor, cursor in *.
  destruct (turn (handler w) + 1 >? Z.of_nat (length (roster w)) - 1) eqn:E.
  - mstep. simpl turn. rewrite (index_Some _ _ _ H4). mstep.
    unfold time_until_next_repeat, msg_contents. mstep.
    rewrite (start_turn_spec _ _ h) by exact H5.
    eexists; split; [reflexivity|]. simpl.
    repeat split; [by rewrite <- app_assoc | intros c k; rewrite attr_with_sent, attr_set_attr; reflexivity].
  - mstep. simpl turn. rewrite (index_Some _ _ _ H4). mstep.
    unfold time_until_next_repeat, msg_contents. mstep.
    rewrite (start_turn_spec _ _ h) by exact H5.
    eexists; split; [reflexivity|]. simpl.
    repeat split; [by rewrite <- app_assoc | intros c k; rewrite attr_with_sent, attr_set_attr; reflexivity].
Qed.

(** *** The initiative sort *)

Lemma insert_desc_Permutation (x : Z * obj_id) (l : list (Z * obj_id)) :
  insert_desc x l ≡ₚ x :: l.
Proof.
  induction l as [|y l IH]; simpl; [done|].
  destruct (y.1 <=? x.1); [done|].
  rewrite IH. apply Permutation_swap.
Qed.

Lemma sort_desc_Permutation (l : list (Z * obj_id)) : sort_desc l ≡ₚ l.
Proof.
  induction l as [|x l IH]; simpl; [done|].
  by rewrite insert_desc_Permutation, IH.
Qed.





Lemma decorate_snd (roll : nat -> Z) (l : list obj_id) : (decorate roll l).*2 = l.
Proof.
  unfold decorate. revert roll. induction l as [|x l IH]; intros roll; [done|].
  rewrite imap_cons, fmap_cons. simpl. f_equal. apply IH.
Qed.

Lemma sorted_by_roll_Permutation (roll : nat -> Z) (l : list obj_id) :
  sorted_by_roll roll l ≡ₚ l.
Proof.
  unfold sorted_by_roll. rewrite sort_desc_Permutation. by rewrite decorate_snd.
Qed.

(** *** Creation of the turn handler *)

Lemma collect_fighters (l : list obj_id) (w : world) :
  for_each l (fun thing =>
    hp ← get_attr thing "hp";
    if truthy hp
    then modify (with_handler (fun h => set_fighters (fighters h ++ [thing]) h))
    else mret tt) w =
  (inr tt, with_handler
             (fun h => set_fighters (fighters h ++ List.filter (eligible w) l) h) w).
Proof.
  set (body := fun thing : obj_id => _).
  assert (Hbody : forall x w, body x w =
    (inr tt, if eligible w x
             then with_handler (fun h => set_fighters (fighters h ++ [x]) h) w
             else w)).
  { intros x w0. unfold body, get_attr. mstep. fold (eligible w0 x).
    by destruct (eligible w0 x). }
  revert w. induction l as [|x l IH]; intros w.
  - simpl. unfold mret, M_ret, with_handler, set_fighters. rewrite app_nil_r.
    by destruct w as [? ? ? [] ? ?].
  - change (for_each (x :: l) body w) with ((body x ;; for_each l body) w).
    rewrite (bind_returns _ _ _ _ _ (Hbody x w)), IH.
    simpl List.filter. destruct (eligible w x) eqn:E; [|done].
    f_equal. unfold with_handler, set_fighters; simpl. by rewrite <- app_assoc.
Qed.

Lemma initialize_for_combat_spec (c : obj_id) (w : world) :
  exists w',
    initialize_for_combat c w = (inr tt, w') /\
    room_db w' = room_db w /\ room_contents w' = room_contents w /\
    handler w' = handler w /\ next_repeat w' = next_repeat w /\
    sent w' = sent w /\
    forall c' k, attr w' c' k = if decide (c = c') then init_attr (attr w c' k) k
                                else attr w c' k.
Proof.
  eexists. split; [reflexivity|]. simpl. repeat split.
  intros c' k. rewrite !attr_set_attr. unfold init_attr.
  assert (Hc : attr (with_objs <[c := cleaned (obj_attrs w c)]> w) c' k =
               if decide (c = c')
               then (if is_combat_attr (attr_key k) then VNone else attr w c' k)
               else attr w c' k).
  { unfold attr. rewrite obj_attrs_insert.
    destruct (decide (c = c')) as [->|]; [apply db_get_cleaned|done]. }
  fold (cleaned (obj_attrs w c)). rewrite Hc.
  destruct (decide (c = c')) as [->|N]; repeat case_decide; naive_solver.
Qed.

Ltac attr_simpl :=
  repeat progress (rewrite ?attr_with_handler, ?attr_with_sent, ?attr_with_room_db).

Lemma init_attr_idemp (v : value) (k : string) :
  init_attr (init_attr v k) k = init_attr v k.
Proof. unfold init_attr. repeat case_decide; try done. by destruct (is_combat_attr _). Qed.

Lemma for_each_initialize (l : list obj_id) (w : world) :
  exists w',
    for_each l initialize_for_combat w = (inr tt, w') /\
    room_db w' = room_db w /\ room_contents w' = room_contents w /\
    handler w' = handler w /\ next_repeat w' = next_repeat w /\
    sent w' = sent w /\
    forall c k, attr w' c k = if decide (c ∈ l) then init_attr (attr w c k) k
                              else attr w c k.
Proof.
  revert w. induction l as [|x l IH]; intros w.
  - exists w. repeat split; done.
  - destruct (initialize_for_combat_spec x w)
      as (w1 & Hrun1 & Hr1 & Hc1 & Hh1 & Hn1 & Hs1 & Ha1).
    destruct (IH w1) as (w' & Hrun & Hr & Hc & Hh & Hn & Hs & Ha).
    exists w'. split; [|repeat split; try congruence].
    + change (for_each (x :: l) initialize_for_combat w)
        with ((initialize_for_combat x ;; for_each l initialize_for_combat) w).
      by rewrite (bind_returns _ _ _ _ _ Hrun1).
    + intros c k. rewrite Ha, Ha1.
      repeat destruct (decide _); subst; rewrite ?init_attr_idemp; try done; set_solver.
Qed.

Lemma py_index_0 {A} (l : list A) : py_index l 0 = head l.
Proof. unfold py_index. simpl. by destruct l. Qed.

(** [at_script_creation] in a room with at least one eligible object,
    the eligible ones having a number for [hp]. *)
Lemma at_script_creation_spec (roll : nat -> Z) (w : world) :
  let fs := List.filter (eligible w) (room_contents w) in
  fs <> [] ->
  (forall c, c ∈ fs -> exists h, attr w c "hp" = VInt h) ->
  exists w' first h,
    at_script_creation roll w = (inr tt, w') /\
    head (sorted_by_roll roll fs) = Some first /\
    attr w first "hp" = VInt h /\
    handler w' = Script (sorted_by_roll roll fs) 0 TURN_TIMEOUT false 5 true /\
    sent w' = sent w ++ [ToRoom (MsgTurnOrder (sorted_by_roll roll fs));
                         ToChar first (MsgYourTurn h)] /\
    room_db w' = db_set (room_db w) "combat_turnhandler" VScript /\
    room_contents w' = room_contents w /\
    next_repeat w' = next_repeat w /\
    forall c k, attr w' c k =
                if decide (first = c /\ attr_key "combat_actionsleft" = attr_key k)
                then VInt ACTIONS_PER_TURN
                else if decide (c ∈ fs) then init_attr (attr w c k) k
                else attr w c k.
Proof.
  intros fs Hne Hhp.
  assert (Hperm : sorted_by_roll roll fs ≡ₚ fs) by apply sorted_by_roll_Permutation.
  destruct (sorted_by_roll roll fs) as [|first rest] eqn:Es.
  { apply Permutation_nil_l in Hperm. congruence. }
  assert (Hin : first ∈ fs) by (rewrite <- Hperm; left).
  destruct (Hhp first Hin) as [h Hh].
  set (w0 := with_handler (fun _ => Script [] 0 0 false 5 true) w).
  destruct (for_each_initialize fs
    (with_handler (fun h => set_fighters (fighters h ++ List.filter (eligible w0)
                                             (room_contents w0)) h) w0))
    as (w1 & Hrun1 & Hr1 & Hc1 & Hh1 & Hn1 & Hs1 & Ha1).
  simpl in Hr1, Hc1, Hh1, Hn1, Hs1.
  eexists _, first, h. split.
  - unfold at_script_creation. rewrite bind_modify, bind_gets. fold w0.
    rewrite (bind_returns _ _ _ _ _ (collect_fighters _ w0)).
    rewrite bind_gets.
    change (fighters (handler (with_handler _ w0))) with fs.
    rewrite (bind_returns _ _ _ _ _ Hrun1).
    rewrite bind_modify, bind_modify, bind_gets.
    change (fighters (handler _)) with (sorted_by_roll roll fs) at 1 2.
    rewrite Es. unfold msg_contents. rewrite bind_modify.
    rewrite (index_Some _ _ first) by (by rewrite py_index_0).
    rewrite bind_ret.
    erewrite (bind_returns _ _ _ _ _ (start_turn_spec _ first h _)).
    rewrite bind_modify. reflexivity.
  - simpl. rewrite Hh1, Hr1, Hc1, Hn1, Hs1. simpl.
    repeat split; [exact Hh|by rewrite <- app_assoc|].
    intros c k. attr_simpl. rewrite attr_set_attr.
    destruct (decide _); [done|].
    attr_simpl. rewrite Ha1. reflexivity.
  Unshelve.
  attr_simpl. rewrite Ha1, decide_True by done. attr_simpl.
  change (attr w0 first "hp") with (attr w first "hp"). rewrite Hh. reflexivity.
Qed.

(** *** Initiative (C9) *)





(** *** All fighters disengaged (C6) *)

Lemma stop_attr (w : world) :
  exists w',
    stop w = (inr tt, w') /\
    handler w' = set_running false (handler w) /\
    room_db w' = db_set (room_db w) "combat_turnhandler" VNone /\
    room_contents w' = room_contents w /\
    next_repeat w' = next_repeat w /\
    sent w' = sent w /\
    forall c k, attr w' c k =
                if decide (c ∈ roster w) then clean_attr (attr w c k) k else attr w c k.
Proof.
  destruct (stop_spec w) as (w' & Hrun & Hh & Hr & Hc & Hn & Hs & Ha).
  exists w'. repeat split; try done.
  intros c k. unfold attr, clean_attr. rewrite Ha.
  destruct (decide (c ∈ roster w)); [apply db_get_cleaned|done].
Qed.

Lemma disengage_check_true (w : world) :
  disengage_check w = true <->
  forall f, f ∈ roster w -> attr w f "combat_lastaction" = VStr "disengage".
Proof.
  unfold disengage_check, roster. rewrite forallb_forall. unfold py_eq.
  split; intros H f Hf.
  - apply list_elem_of_In in Hf. specialize (H f Hf). by apply bool_decide_eq_true in H.
  - apply list_elem_of_In in Hf. apply bool_decide_eq_true. by apply H.
Qed.

Lemma transient_fields_cleaned (v1 v2 v3 : value) :
  clean_attr v1 "combat_actionsleft" = VNone /\
  clean_attr v2 "combat_lastaction" = VNone /\
  clean_attr v3 "combat_turnhandler" = VNone.
Proof. by vm_compute. Qed.

(** What the ENDED transition leaves, whatever announced it. *)
Lemma announce_and_stop (m : message) (w : world) :
  exists w',
    (msg_contents m ;; stop) w = (inr tt, w') /\
    sent w' = sent w ++ [ToRoom m] /\
    ended w' /\
    roster w' = roster w /\ cursor w' = cursor w /\
    timer (handler w') = timer (handler w) /\
    db_get (room_db w') "combat_turnhandler" = VNone /\
    (forall f, f ∈ roster w -> transient_cleared w' f) /\
    (forall f k, f ∈ roster w -> is_combat_attr (attr_key k) = true ->
                 attr w' f k = VNone) /\
    (forall c k, is_combat_attr (attr_key k) = false -> attr w' c k = attr w c k) /\
    (forall c k, attr w' c k =
                 if decide (c ∈ roster w) then clean_attr (attr w c k) k else attr w c k).
Proof.
  destruct (stop_attr (with_sent (fun l => l ++ [ToRoom m]) w))
    as (w' & Hrun & Hh & Hr & _ & _ & Hs & Ha).
  exists w'. split; [exact Hrun|].
  unfold ended, roster, cursor. rewrite Hh, Hr, Hs. simpl.
  do 5 (split; [done|]).
  split; [rewrite db_get_set; by destruct (decide _)|]. split; [|split].
  - intros f Hf. unfold transient_cleared.
    rewrite !Ha. destruct (decide _); [|done]. apply transient_fields_cleaned.
  - intros f k Hf Hk. rewrite Ha. destruct (decide _); [|done].
    unfold clean_attr. by rewrite Hk.
  - split; [|exact Ha].
    intros c k Hk. rewrite Ha. unfold clean_attr. rewrite Hk. by destruct (decide _).
Qed.

(** C6. All-disengaged termination with cleanup: when [next_turn] runs
    and the last action of every roster member is "disengage", the
    handler announces the end of combat and stops; on that transition
    the transient combat fields of every roster member (actions left,
    last action, turn handler reference, and any other "combat_"
    attribute) are cleared and the reference from the room is removed.
    Nothing else about the participants changes. *)
Theorem all_disengaged_termination (w : world) :
  (forall f, f ∈ roster w -> attr w f "combat_lastaction" = VStr "disengage") ->
  exists w',
    next_turn w = (inr tt, w') /\
    sent w' = sent w ++ [ToRoom MsgAllDisengaged] /\
    ended w' /\
    db_get (room_db w') "combat_turnhandler" = VNone /\
    (forall f, f ∈ roster w -> transient_cleared w' f) /\
    (forall f k, f ∈ roster w -> is_combat_attr (attr_key k) = true ->
                 attr w' f k = VNone) /\
    (forall c k, is_combat_attr (attr_key k) = false -> attr w' c k = attr w c k).
Proof.
  intros H. apply disengage_check_true in H.
  destruct (announce_and_stop MsgAllDisengaged w)
    as (w' & Hrun & Hs & He & _ & _ & _ & Hr & Hc & Hc' & Ho & _).
  exists w'. rewrite (next_turn_all_disengaged w H).
  do 6 (split; [assumption|]). assumption.
Qed.

(** *** The other outcomes of [next_turn] *)

(** [next_turn] when the all-disengaged check does not fire: whatever
    happens next, the roster stays, "all disengaged" is not announced,
    and the actions left to a character are kept, cleared, or replenished. *)
Lemma next_turn_otherwise (w w' : world) (o : exn + unit) :
  disengage_check w = false ->
  next_turn w = (o, w') ->
  roster w' = roster w /\
  (exists new, sent w' = sent w ++ new /\ ToRoom MsgAllDisengaged ∉ new) /\
  forall c, attr w' c "combat_actionsleft" = attr w c "combat_actionsleft" \/
            attr w' c "combat_actionsleft" = VNone \/
            attr w' c "combat_actionsleft" = VInt ACTIONS_PER_TURN.
Proof.
  intros Hd Hrun. unfold next_turn in Hrun.
  rewrite bind_gets, Hd, bind_gets, bind_gets in Hrun. cbv beta in Hrun.
  destruct (defeated_characters w =? _) eqn:Edef.
  - rewrite bind_gets in Hrun. destruct (LastStanding w) as [c0|].
    + destruct (announce_and_stop (MsgOnlyRemains c0) w)
        as (w1 & Hrun1 & Hs & _ & Hr & _ & _ & _ & Hc & _ & _ & Ha).
      rewrite Hrun1 in Hrun. injection Hrun as <- <-.
      split; [done|]. split.
      * exists [ToRoom (MsgOnlyRemains c0)]. split; [done|].
        intros Hin. apply list_elem_of_singleton in Hin. discriminate.
      * intros c. destruct (decide (c ∈ roster w)) as [Hin|Hin].
        -- right; left. apply (Hc c Hin).
        -- left. rewrite Ha. by rewrite decide_False.
    + injection Hrun as <- <-. split; [done|]. split; [|by left].
      exists []. split; [by rewrite app_nil_r|]. apply not_elem_of_nil.
  - rewrite bind_gets in Hrun. cbv beta in Hrun.
    destruct (py_index (fighters (handler w)) (turn (handler w))) as [cur|] eqn:Ecur.
    2:{ rewrite (index_None _ _ Ecur), bind_raise in Hrun. injection Hrun as <- <-.
        split; [done|]. split; [|by left].
        exists []. split; [by rewrite app_nil_r|]. apply not_elem_of_nil. }
    rewrite (index_Some _ _ _ Ecur), bind_ret, bind_modify in Hrun.
    set (w1 := with_handler (set_turn (turn (handler w) + 1)) w) in Hrun.
    set (w2 := if turn (handler w) + 1 >? Z.of_nat (length (fighters (handler w))) - 1
               then with_handler (set_turn 0) w1 else w1).
    assert (E2 : forall B (k : unit -> M B),
      ((if turn (handler w) + 1 >? Z.of_nat (length (fighters (handler w))) - 1
        then modify (with_handler (set_turn 0)) else mret tt) ≫= k) w1 = k tt w2).
    { intros B k. unfold w2. by destruct (_ >? _). }
    rewrite E2, bind_gets in Hrun. cbv beta in Hrun.
    assert (Hw2 : roster w2 = roster w /\ sent w2 = sent w /\
                  forall c k, attr w2 c k = attr w c k).
    { unfold w2. by destruct (_ >? _). }
    destruct Hw2 as (Hr2 & Hs2 & Ha2).
    destruct (py_index (fighters (handler w)) (turn (handler w2))) as [new|] eqn:Enew.
    2:{ rewrite (index_None _ _ Enew), bind_raise in Hrun. injection Hrun as <- <-.
        split; [done|]. split; [|by left; apply Ha2].
        exists []. split; [by rewrite app_nil_r, Hs2|]. apply not_elem_of_nil. }
    rewrite (index_Some _ _ _ Enew), bind_ret in Hrun.
    unfold time_until_next_repeat, msg_contents, start_turn, set_attr, get_attr in Hrun.
    repeat (first [rewrite bind_assoc in Hrun | rewrite bind_gets in Hrun
                  | rewrite bind_modify in Hrun]; cbv beta in Hrun).
    match type of Hrun with
    | match ?v with _ => _ end ?wf = _ =>
        set (wfin := wf) in Hrun;
        assert (Hfin : roster wfin = roster w /\
                       sent wfin = sent w ++ [ToRoom (MsgTurnChange cur new)] /\
                       forall c k, attr wfin c k =
                         if decide (new = c /\ attr_key "combat_actionsleft" = attr_key k)
                         then VInt ACTIONS_PER_TURN else attr w c k)
    end.
    { unfold wfin. simpl. split; [exact Hr2|]. split; [by rewrite Hs2|].
      intros c k. rewrite attr_set_attr. destruct (decide _); [done|].
      attr_simpl. apply Ha2. }
    destruct Hfin as (Hrf & Hsf & Haf).
    assert (Hact : forall c, attr wfin c "combat_actionsleft" = attr w c "combat_actionsleft" \/
            attr wfin c "combat_actionsleft" = VNone \/
            attr wfin c "combat_actionsleft" = VInt ACTIONS_PER_TURN).
    { intros c. rewrite Haf. destruct (decide _); auto. }
    clearbody wfin.
    destruct (attr wfin new "hp") as [ | h | | ];
      try (injection Hrun as <- <-; split; [done|]; split; [|done];
           exists [ToRoom (MsgTurnChange cur new)]; split; [done|];
           intros Hin; apply list_elem_of_singleton in Hin; discriminate).
    injection Hrun as <- <-. simpl. split; [done|]. split.
    + exists [ToRoom (MsgTurnChange cur new); ToChar new (MsgYourTurn h)].
      split; [by rewrite Hsf, <- app_assoc|].
      intros Hin. repeat (apply elem_of_cons in Hin as [Hin|Hin]; [discriminate|]).
      by apply elem_of_nil in Hin.
    + intros c. attr_simpl. apply Hact.
Qed.

(** *** Spending actions (C7) *)

Lemma bind_get_attr {B} (c : obj_id) (k : string) (f : value -> M B) (w : world) :
  (get_attr c k ≫= f) w = f (attr w c k) w.
Proof. reflexivity. Qed.

Lemma write_label_run (p : obj_id) (action_name : option string) (w : world) :
  match action_name with
  | Some name =>
      if truthy (VStr name)
      then set_attr p "combat_lastaction" (VStr name)
      else mret tt
  | None => mret tt
  end w = (inr tt, write_label p action_name w).
Proof. unfold write_label. destruct action_name as [name|]; [|done]. by destruct (truthy _). Qed.

Lemma spend_action_all (p : obj_id) (action_name : option string) (w : world) :
  spend_action p All action_name w =
  signal_end_of_turn p (write_actions p 0 (write_label p action_name w)).
Proof.
  unfold spend_action.
  rewrite (bind_returns _ _ _ _ _ (write_label_run p action_name w)).
  reflexivity.
Qed.

Lemma write_actions_twice (p : obj_id) (z z' : Z) (w : world) :
  write_actions p z' (write_actions p z w) = write_actions p z' w.
Proof.
  unfold write_actions. rewrite obj_attrs_insert, decide_True by done.
  unfold with_objs, db_set; simpl. by rewrite !insert_insert_eq.
Qed.

Lemma spend_action_amount (p : obj_id) (n a : Z) (action_name : option string) (w : world) :
  attr (write_label p action_name w) p "combat_actionsleft" = VInt a ->
  spend_action p (Amount n) action_name w =
  signal_end_of_turn p (write_actions p (spent a (Amount n)) (write_label p action_name w)).
Proof.
  intros Ha. unfold spend_action.
  rewrite (bind_returns _ _ _ _ _ (write_label_run p action_name w)).
  cbv beta. rewrite bind_assoc, bind_get_attr, Ha.
  unfold set_attr. rewrite !bind_assoc, bind_modify. simpl spent.
  fold (write_actions p (a - n) (write_label p action_name w)).
  destruct (Z.ltb_spec (a - n) 0).
  - rewrite bind_modify.
    fold (write_actions p 0 (write_actions p (a - n) (write_label p action_name w))).
    rewrite write_actions_twice. by rewrite Z.max_r by lia.
  - rewrite bind_ret. by rewrite Z.max_l by lia.
Qed.

Lemma spend_action_no_number (p : obj_id) (n : Z) (action_name : option string) (w : world) :
  (forall a, attr (write_label p action_name w) p "combat_actionsleft" <> VInt a) ->
  spend_action p (Amount n) action_name w = (inl TypeError, write_label p action_name w).
Proof.
  intros Ha. unfold spend_action.
  rewrite (bind_returns _ _ _ _ _ (write_label_run p action_name w)).
  cbv beta. rewrite bind_assoc, bind_get_attr.
  destruct (attr (write_label p action_name w) p "combat_actionsleft") eqn:E;
    try done. by destruct (Ha z).
Qed.

Lemma attr_write_label (p : obj_id) (action_name : option string) (w : world)
  (c : obj_id) (k : string) :
  attr (write_label p action_name w) c k =
  match action_name with
  | Some name =>
      if decide (name <> EmptyString /\ p = c /\ attr_key "combat_lastaction" = attr_key k)
      then VStr name else attr w c k
  | None => attr w c k
  end.
Proof.
  unfold write_label. destruct action_name as [name|]; [|done].
  unfold truthy. destruct (String.eqb_spec name EmptyString) as [->|Hn]; cbn [negb].
  - case_decide as H; [by destruct H as [? _]|done].
  - rewrite attr_set_attr. repeat case_decide; naive_solver.
Qed.

Lemma attr_write_actions (p : obj_id) (z : Z) (w : world) (c : obj_id) (k : string) :
  attr (write_actions p z w) c k =
  if decide (p = c /\ attr_key "combat_actionsleft" = attr_key k) then VInt z
  else attr w c k.
Proof. apply attr_set_attr. Qed.

Lemma turn_end_check_actions (p : obj_id) (w : world) (z : Z) :
  attr w p "combat_actionsleft" = VInt z ->
  turn_end_check p w = if z =? 0 then next_turn w else (inr tt, w).
Proof.
  intros H. unfold turn_end_check, get_attr. rewrite bind_gets, H. simpl.
  by destruct (z =? 0).
Qed.

(** Whatever [next_turn] does, the actions left to a character are kept,
    cleared, or replenished. *)
Lemma next_turn_actionsleft (w w' : world) (o : exn + unit) (c : obj_id) :
  next_turn w = (o, w') ->
  attr w' c "combat_actionsleft" = attr w c "combat_actionsleft" \/
  attr w' c "combat_actionsleft" = VNone \/
  attr w' c "combat_actionsleft" = VInt ACTIONS_PER_TURN.
Proof.
  intros Hrun. destruct (disengage_check w) eqn:Hd.
  - rewrite (next_turn_all_disengaged w Hd) in Hrun.
    destruct (announce_and_stop MsgAllDisengaged w)
      as (w1 & Hrun1 & _ & _ & _ & _ & _ & _ & _ & _ & _ & Ha).
    rewrite Hrun1 in Hrun. injection Hrun as <- <-.
    rewrite Ha. destruct (decide _); [right; left; by vm_compute|by left].
  - by destruct (next_turn_otherwise w w' o Hd Hrun) as (_ & _ & H).
Qed.

(** C7. [spend_action] for a participant [p] in combat with [a] actions
    left: it writes the label as [p]'s last action when a label is given,
    sets the actions left to 0 for 'all' and to [max (a - n) 0] for a
    number [n], touches nothing else, and then always runs the
    end-of-turn check on that state.  The actions left are not negative
    when the check starts, nor when the call is over (by then they are a
    number that is not negative, or cleared because the fight ended). *)
Theorem spend_action_semantics (w : world) (p : obj_id) (a : Z)
  (actions : amount) (action_name : option string) :
  attr w p "combat_turnhandler" = VScript ->
  attr w p "combat_actionsleft" = VInt a ->
  exists w1,
    spend_action p actions action_name w = turn_end_check p w1 /\
    attr w1 p "combat_actionsleft" = VInt (spent a actions) /\
    0 <= spent a actions /\
    (actions = All -> attr w1 p "combat_actionsleft" = VInt 0) /\
    (forall label, action_name = Some label -> label <> EmptyString ->
                   attr w1 p "combat_lastaction" = VStr label) /\
    (action_name = None ->
     attr w1 p "combat_lastaction" = attr w p "combat_lastaction") /\
    (forall c k, c <> p \/ (attr_key "combat_lastaction" <> attr_key k /\
                            attr_key "combat_actionsleft" <> attr_key k) ->
                 attr w1 c k = attr w c k) /\
    handler w1 = handler w /\ sent w1 = sent w /\ room_db w1 = room_db w /\
    (forall o w', spend_action p actions action_name w = (o, w') ->
       attr w' p "combat_actionsleft" = VNone \/
       exists z, 0 <= z /\ attr w' p "combat_actionsleft" = VInt z).
Proof.
  intros Hth Ha.
  set (wl := write_label p action_name w).
  set (w1 := write_actions p (spent a actions) wl).
  assert (Hal : attr wl p "combat_actionsleft" = VInt a).
  { unfold wl. rewrite attr_write_label. destruct action_name; [|done].
    case_decide as H; [|done]. by destruct H as (_ & _ & ?). }
  assert (Hth1 : attr w1 p "combat_turnhandler" = VScript).
  { unfold w1, wl. rewrite attr_write_actions, attr_write_label.
    case_decide as H; [by destruct H|].
    destruct action_name; [|done]. case_decide as H'; [|done]. by destruct H' as (_ & _ & ?). }
  assert (Hrun : spend_action p actions action_name w = turn_end_check p w1).
  { destruct actions as [|n].
    - rewrite spend_action_all. fold wl. change 0 with (spent a All). fold w1.
      unfold signal_end_of_turn. by rewrite bind_get_attr, Hth1.
    - rewrite (spend_action_amount p n a) by exact Hal. fold wl. fold w1.
      unfold signal_end_of_turn. by rewrite bind_get_attr, Hth1. }
  assert (Hact : attr w1 p "combat_actionsleft" = VInt (spent a actions)).
  { unfold w1. rewrite attr_write_actions. by rewrite decide_True. }
  assert (Hpos : 0 <= spent a actions) by (destruct actions; simpl; lia).
  exists w1. split; [exact Hrun|]. split; [exact Hact|]. split; [exact Hpos|].
  split; [by intros ->|].
  split.
  { intros label -> Hl. unfold w1, wl. rewrite attr_write_actions, attr_write_label.
    case_decide as H; [by destruct H|]. by rewrite decide_True. }
  split.
  { intros ->. unfold w1, wl. rewrite attr_write_actions.
    case_decide as H; [by destruct H|]. done. }
  split.
  { intros c k Hck. unfold w1, wl. rewrite attr_write_actions, attr_write_label.
    case_decide as H; [naive_solver|].
    destruct action_name; [|done]. case_decide as H'; [naive_solver|done]. }
  split; [by destruct action_name as [name|]; [unfold w1, wl, write_label; destruct (truthy _)|]|].
  split; [by destruct action_name as [name|]; [unfold w1, wl, write_label; destruct (truthy _)|]|].
  split; [by destruct action_name as [name|]; [unfold w1, wl, write_label; destruct (truthy _)|]|].
  intros o w'. rewrite Hrun, (turn_end_check_actions p w1 _ Hact).
  destruct (spent a actions =? 0) eqn:E.
  - intros Hn. destruct (next_turn_actionsleft w1 w' o p Hn) as [H|[H|H]].
    + right. exists (spent a actions). split; [done|]. by rewrite H.
    + by left.
    + right. exists ACTIONS_PER_TURN. split; [by vm_compute|done].
  - intros [= <- <-]. right. by exists (spent a actions).
Qed.

(** [duel] is the fight that creation computes from [quiet_room]. *)
Example quiet_room_to_duel :
  at_script_creation (fun i => nth i [300; 700] 1) quiet_room = (inr tt, duel).
Proof. vm_compute. reflexivity. Qed.

(** The two spellings of the health attribute read the same field. *)
Lemma attr_HP (w : world) (c : obj_id) : attr w c "HP" = attr w c "hp".
Proof. reflexivity. Qed.

(** The fighter whose turn it is attacks in [duel]. *)
Lemma spend_action_semantics_witness :
  attr duel 2%nat "combat_turnhandler" = VScript /\
  attr duel 2%nat "combat_actionsleft" = VInt 1 /\
  exists w1,
    spend_action 2%nat (Amount 1) (Some "attack") duel = turn_end_check 2%nat w1 /\
    attr w1 2%nat "combat_actionsleft" = VInt 0 /\
    attr w1 2%nat "combat_lastaction" = VStr "attack".
Proof.
  assert (H1 : attr duel 2%nat "combat_turnhandler" = VScript) by (vm_compute; reflexivity).
  assert (H2 : attr duel 2%nat "combat_actionsleft" = VInt 1) by (vm_compute; reflexivity).
  split; [exact H1|]. split; [exact H2|].
  destruct (spend_action_semantics duel 2%nat 1 (Amount 1) (Some "attack") H1 H2)
    as (w1 & Hrun & Hact & _ & _ & Hlab & _).
  exists w1. split; [exact Hrun|]. split; [exact Hact|].
  apply Hlab; [reflexivity|discriminate].
Defined.

(** *** Last fighter standing, the defeated, and the countdown (C1, C2, C4) *)

Lemma py_index_valid {A} (l : list A) (i : Z) :
  0 <= i < Z.of_nat (length l) -> exists x, py_index l i = Some x /\ x ∈ l.
Proof.
  intros H. unfold py_index. rewrite (proj2 (Z.leb_le 0 i)) by lia.
  destruct (lookup_lt_is_Some_2 l (Z.to_nat i)) as [x Hx]; [lia|].
  exists x. split; [done|]. by eapply list_elem_of_lookup_2.
Qed.

Lemma next_cursor_valid (w : world) :
  0 <= cursor w < Z.of_nat (length (roster w)) ->
  0 <= next_cursor w < Z.of_nat (length (roster w)) /\
  next_cursor w = (cursor w + 1) mod Z.of_nat (length (roster w)).
Proof.
  intros H. unfold next_cursor.
  destruct (Z.gtb_spec (cursor w + 1) (Z.of_nat (length (roster w)) - 1)).
  - assert (E : cursor w + 1 = Z.of_nat (length (roster w))) by lia.
    rewrite E, Z.mod_same by lia. lia.
  - rewrite Z.mod_small by lia. lia.
Qed.

Lemma announced_unique (w w' : world) (new : list event) (m : message) :
  sent w' = sent w ++ new -> announced w w' m <-> ToRoom m ∈ new.
Proof.
  intros H. unfold announced. split.
  - intros (new' & H' & Hin). rewrite H in H'. by apply app_inv_head in H' as ->.
  - intros Hin. by exists new.
Qed.

(** C1. Last-standing termination: when [next_turn] runs and
    exactly roster size - 1 roster members have health 0, the handler
    stops, clearing every participant; there is then exactly one roster
    member whose health is not 0, and that sole survivor is announced,
    unless the last action of every roster member is "disengage": the
    all-disengaged check comes first and announces the end of combat in
    its own words. *)
Theorem last_standing_termination (w : world) :
  defeated_characters w = Z.of_nat (length (roster w)) - 1 ->
  exists w' survivor,
    next_turn w = (inr tt, w') /\
    ended w' /\
    survivor ∈ roster w /\
    attr w survivor "HP" <> VInt 0 /\
    (forall f, f ∈ roster w -> attr w f "HP" <> VInt 0 -> f = survivor) /\
    (disengage_check w = false ->
     sent w' = sent w ++ [ToRoom (MsgOnlyRemains survivor)]) /\
    (disengage_check w = true ->
     sent w' = sent w ++ [ToRoom MsgAllDisengaged]) /\
    (forall f, f ∈ roster w -> transient_cleared w' f) /\
    db_get (room_db w') "combat_turnhandler" = VNone.
Proof.
  intros Hdef. destruct (sole_survivor w Hdef) as (c & Hfilter & Hlast).
  assert (Hc : forall f, f ∈ roster w /\ attr w f "HP" <> VInt 0 <-> f = c).
  { intros f. rewrite <- (list_elem_of_singleton f c), <- Hfilter.
    rewrite (list_elem_of_In (List.filter _ _) f), List.filter_In, <- list_elem_of_In.
    unfold py_eq. rewrite negb_true_iff, bool_decide_eq_false. done. }
  destruct (proj2 (Hc c) eq_refl) as [Hin Hhp].
  destruct (disengage_check w) eqn:Hd.
  - destruct (announce_and_stop MsgAllDisengaged w)
      as (w' & Hrun & Hs & He & _ & _ & _ & Hr & Hcl & _).
    exists w', c. rewrite (next_turn_all_disengaged w Hd).
    repeat (split; [done|]). split; [intros f ? ?; by apply Hc|]. done.
  - destruct (announce_and_stop (MsgOnlyRemains c) w)
      as (w' & Hrun & Hs & He & _ & _ & _ & Hr & Hcl & _).
    exists w', c. rewrite (next_turn_last_standing w c Hd Hdef Hlast).
    repeat (split; [done|]). split; [intros f ? ?; by apply Hc|]. done.
Qed.

(** C2. A defeated participant stays in the roster and is not
    skipped by the all-disengaged check: [next_turn] leaves the roster as
    it is, and announces that all fighters have disengaged exactly when
    the last action of every roster member, defeated or not, is
    "disengage".  So a roster member at health 0 whose last action is
    something else keeps the all-disengaged termination from firing. *)
Theorem defeated_not_skipped (w : world) :
  roster (next_turn w).2 = roster w /\
  (announced w (next_turn w).2 MsgAllDisengaged <->
   forall f, f ∈ roster w -> attr w f "combat_lastaction" = VStr "disengage") /\
  (forall d, d ∈ roster w -> attr w d "HP" = VInt 0 ->
             attr w d "combat_lastaction" <> VStr "disengage" ->
             d ∈ roster (next_turn w).2 /\
             ~ announced w (next_turn w).2 MsgAllDisengaged).
Proof.
  assert (H : roster (next_turn w).2 = roster w /\
    (announced w (next_turn w).2 MsgAllDisengaged <->
     forall f, f ∈ roster w -> attr w f "combat_lastaction" = VStr "disengage")).
  { rewrite <- disengage_check_true. destruct (disengage_check w) eqn:Hd.
    - destruct (announce_and_stop MsgAllDisengaged w)
        as (w' & Hrun & Hs & _ & Hr & _).
      rewrite (next_turn_all_disengaged w Hd), Hrun. simpl. split; [done|].
      rewrite (announced_unique _ _ _ _ Hs). split; [done|]. intros _. by left.
    - destruct (next_turn w) as [o w'] eqn:Hrun.
      destruct (next_turn_otherwise w w' o Hd Hrun) as (Hr & (new & Hs & Hnew) & _).
      simpl. split; [done|]. rewrite (announced_unique _ _ _ _ Hs). split; [done|].
      discriminate. }
  destruct H as [Hr Hiff]. split; [exact Hr|]. split; [exact Hiff|].
  intros d Hin _ Hlast. rewrite Hr. split; [done|].
  rewrite Hiff. intros Hall. by apply Hlast, Hall.
Qed.

(** C4. Countdown reset on rotation: when [next_turn] neither
    finds all fighters disengaged nor a last fighter standing, the cursor
    moves one slot further (cyclically), the turn of the participant there
    begins with [ACTIONS_PER_TURN] actions, the timeout warning flag is
    cleared, and the countdown is set to [TURN_TIMEOUT] plus the time left
    until the next tick; it is exactly [TURN_TIMEOUT], the value set at
    creation, when no time is left until the next tick. *)
Theorem rotation_resets_countdown (w : world) :
  0 <= cursor w < Z.of_nat (length (roster w)) ->
  (forall f, f ∈ roster w -> exists h, attr w f "hp" = VInt h) ->
  disengage_check w = false ->
  defeated_characters w <> Z.of_nat (length (roster w)) - 1 ->
  exists w' new,
    next_turn w = (inr tt, w') /\
    roster w' = roster w /\
    cursor w' = (cursor w + 1) mod Z.of_nat (length (roster w)) /\
    current w' = Some new /\
    attr w' new "combat_actionsleft" = VInt ACTIONS_PER_TURN /\
    timer (handler w') = TURN_TIMEOUT + next_repeat w /\
    (next_repeat w = 0 -> timer (handler w') = TURN_TIMEOUT) /\
    timeout_warning_given (handler w') = false /\
    running (handler w') = running (handler w).
Proof.
  intros Hcur Hhp Hd Hdef.
  destruct (py_index_valid (roster w) (cursor w) Hcur) as (cur & Hc & _).
  destruct (next_cursor_valid w Hcur) as [Hnext Hmod].
  destruct (py_index_valid (roster w) (next_cursor w) Hnext) as (new & Hn & Hin).
  destruct (Hhp new Hin) as [h Hh].
  destruct (next_turn_rotates w cur new h Hd Hdef Hc Hn Hh)
    as (w' & Hrun & Hh' & _ & _ & _ & _ & Ha).
  exists w', new. unfold current, roster, cursor in *. rewrite Hh'. simpl.
  split; [exact Hrun|]. split; [done|]. split; [exact Hmod|]. split; [exact Hn|].
  split; [by rewrite Ha, decide_True|]. split; [done|].
  split; [intros ->; lia|]. done.
Qed.

(** In [last_blow] fighter 1 is announced as the one who remains. *)
Lemma last_standing_termination_witness :
  defeated_characters last_blow = Z.of_nat (length (roster last_blow)) - 1 /\
  exists w',
    next_turn last_blow = (inr tt, w') /\ ended w' /\
    sent w' = [ToRoom (MsgOnlyRemains 1%nat)].
Proof.
  assert (H : defeated_characters last_blow = Z.of_nat (length (roster last_blow)) - 1)
    by (vm_compute; reflexivity).
  split; [exact H|].
  destruct (last_standing_termination last_blow H)
    as (w' & c & Hrun & He & Hin & Hhp & _ & Hs & _).
  exists w'. split; [exact Hrun|]. split; [exact He|].
  rewrite Hs by (vm_compute; reflexivity).
  assert (Hc : c = 1%nat).
  { change (roster last_blow) with [1%nat; 2%nat; 3%nat] in Hin.
    apply elem_of_cons in Hin as [->|Hin]; [reflexivity|].
    apply elem_of_cons in Hin as [->|Hin]; [exfalso; apply Hhp; vm_compute; reflexivity|].
    apply elem_of_cons in Hin as [->|Hin]; [exfalso; apply Hhp; vm_compute; reflexivity|].
    by apply elem_of_nil in Hin. }
  by rewrite Hc.
Defined.

(** In [truce] all but one are defeated, and the fight ends, but on the
    all-disengaged check: no survivor is announced. *)
Lemma last_standing_counterexample :
  defeated_characters truce = Z.of_nat (length (roster truce)) - 1 /\
  ended (next_turn truce).2 /\
  ~ exists c, announced truce (next_turn truce).2 (MsgOnlyRemains c).
Proof.
  split; [vm_compute; reflexivity|]. split; [vm_compute; reflexivity|].
  intros (c & Han).
  assert (E : sent (next_turn truce).2 = sent truce ++ [ToRoom MsgAllDisengaged])
    by (vm_compute; reflexivity).
  apply (announced_unique _ _ _ _ E), list_elem_of_singleton in Han. discriminate.
Qed.

(** In [fallen_attacker] the defeated 3 stays and blocks the
    all-disengaged ending. *)
Lemma defeated_not_skipped_witness :
  3%nat ∈ roster fallen_attacker /\
  attr fallen_attacker 3%nat "HP" = VInt 0 /\
  attr fallen_attacker 3%nat "combat_lastaction" <> VStr "disengage" /\
  3%nat ∈ roster (next_turn fallen_attacker).2 /\
  ~ announced fallen_attacker (next_turn fallen_attacker).2 MsgAllDisengaged.
Proof.
  assert (H1 : 3%nat ∈ roster fallen_attacker) by (vm_compute; set_solver).
  assert (H2 : attr fallen_attacker 3%nat "HP" = VInt 0) by (vm_compute; reflexivity).
  assert (H3 : attr fallen_attacker 3%nat "combat_lastaction" <> VStr "disengage")
    by (vm_compute; discriminate).
  split; [exact H1|]. split; [exact H2|]. split; [exact H3|].
  exact (proj2 (proj2 (defeated_not_skipped fallen_attacker)) 3%nat H1 H2 H3).
Defined.

(** In [fallen_attacker] every fighter still standing has disengaged, yet
    the fight goes on, and the turn passes to the defeated 3. *)
Lemma defeated_skipped_counterexample :
  (forall f, f ∈ roster fallen_attacker -> attr fallen_attacker f "HP" <> VInt 0 ->
             attr fallen_attacker f "combat_lastaction" = VStr "disengage") /\
  3%nat ∈ roster fallen_attacker /\
  attr fallen_attacker 3%nat "HP" = VInt 0 /\
  running (handler (next_turn fallen_attacker).2) = true /\
  sent (next_turn fallen_attacker).2 =
    [ToRoom (MsgTurnChange 2%nat 3%nat); ToChar 3%nat (MsgYourTurn 0)].
Proof.
  split.
  { intros f Hin Hhp. change (roster fallen_attacker) with [1%nat; 2%nat; 3%nat] in Hin.
    apply elem_of_cons in Hin as [->|Hin]; [vm_compute; reflexivity|].
    apply elem_of_cons in Hin as [->|Hin]; [vm_compute; reflexivity|].
    apply elem_of_cons in Hin as [->|Hin]; [exfalso; apply Hhp; vm_compute; reflexivity|].
    by apply elem_of_nil in Hin. }
  split; [vm_compute; set_solver|].
  repeat split; vm_compute; reflexivity.
Qed.

(** A rotation in [duel], on the tick: the countdown is [TURN_TIMEOUT]. *)
Lemma rotation_resets_countdown_witness :
  exists w', next_turn duel = (inr tt, w') /\ cursor w' = 1 /\
             timer (handler w') = TURN_TIMEOUT.
Proof.
  destruct (rotation_resets_countdown duel)
    as (w' & new & Hrun & _ & Hc & _ & _ & _ & Ht & _).
  - vm_compute. split; [discriminate|reflexivity].
  - intros f Hin. change (roster duel) with [2%nat; 1%nat] in Hin.
    apply elem_of_cons in Hin as [->|Hin]; [exists 100; vm_compute; reflexivity|].
    apply elem_of_cons in Hin as [->|Hin]; [exists 100; vm_compute; reflexivity|].
    by apply elem_of_nil in Hin.
  - vm_compute. reflexivity.
  - vm_compute. discriminate.
  - exists w'. split; [exact Hrun|]. split; [exact Hc|]. apply Ht. reflexivity.
Defined.

(** A rotation 3 seconds before the next tick: the countdown is 33. *)
Lemma countdown_reset_counterexample :
  exists w', next_turn duel_between_ticks = (inr tt, w') /\
             cursor w' = 1 /\
             timer (handler w') = 33 /\
             timer (handler w') <> TURN_TIMEOUT.
Proof.
  eexists. split; [vm_compute; reflexivity|].
  split; [reflexivity|]. split; [reflexivity|]. discriminate.
Qed.

(** *** Joining a fight in progress (C3) *)

Lemma py_insert_valid {A} (l : list A) (i : Z) (x : A) :
  0 <= i <= Z.of_nat (length l) ->
  py_insert l i x = take (Z.to_nat i) l ++ x :: drop (Z.to_nat i) l.
Proof.
  intros H. unfold py_insert.
  destruct (Z.ltb_spec i 0); [lia|]. by rewrite Z.min_l by lia.
Qed.

Lemma py_index_nonneg {A} (l : list A) (i : Z) :
  0 <= i -> py_index l i = l !! Z.to_nat i.
Proof. intros H. unfold py_index. by rewrite (proj2 (Z.leb_le 0 i)). Qed.

Lemma join_fight_spec (p : obj_id) (w : world) :
  exists w',
    join_fight p w = (inr tt, w') /\
    handler w' = set_turn (cursor w + 1)
                   (set_fighters (py_insert (roster w) (cursor w) p) (handler w)) /\
    room_db w' = room_db w /\ room_contents w' = room_contents w /\
    next_repeat w' = next_repeat w /\ sent w' = sent w /\
    forall c k, attr w' c k = if decide (p = c) then init_attr (attr w c k) k
                              else attr w c k.
Proof.
  destruct (initialize_for_combat_spec p
    (with_handler (set_turn (cursor w + 1))
       (with_handler (set_fighters (py_insert (roster w) (cursor w) p)) w)))
    as (w' & Hrun & Hr & Hc & Hh & Hn & Hs & Ha).
  exists w'. split; [|by repeat split].
  unfold join_fight. rewrite bind_gets, bind_modify, bind_modify. exact Hrun.
Qed.

(** C3. Mid-fight join: in a live fight (the cursor is a valid
    index), [join_fight p] inserts [p] into the roster at the cursor
    index, directly before the participant whose turn is in progress, and
    advances the cursor by one: afterwards the cursor still points at that
    same participant and [p] occupies the slot directly before it.  The
    transient fields of [p] are set as at creation (no actions left, last
    action "null", reference to the turn handler), and countdown, warning
    flag, messages and the other participants are untouched. *)
Theorem join_fight_position (w : world) (p : obj_id) :
  0 <= cursor w < Z.of_nat (length (roster w)) ->
  exists w',
    join_fight p w = (inr tt, w') /\
    roster w' = take (Z.to_nat (cursor w)) (roster w) ++
                p :: drop (Z.to_nat (cursor w)) (roster w) /\
    cursor w' = cursor w + 1 /\
    current w' = current w /\
    py_index (roster w') (cursor w' - 1) = Some p /\
    transient_initialized w' p /\
    timer (handler w') = timer (handler w) /\
    timeout_warning_given (handler w') = timeout_warning_given (handler w) /\
    running (handler w') = running (handler w) /\
    sent w' = sent w /\
    (forall c k, c <> p -> attr w' c k = attr w c k).
Proof.
  intros Hcur.
  destruct (join_fight_spec p w) as (w' & Hrun & Hh & _ & _ & _ & Hs & Ha).
  exists w'. split; [exact Hrun|].
  unfold current, roster, cursor in *. rewrite Hh. simpl.
  rewrite py_insert_valid by lia.
  set (t := turn (handler w)) in *. set (l := fighters (handler w)) in *.
  assert (Hlen : length (take (Z.to_nat t) l) = Z.to_nat t)
    by (rewrite length_take; lia).
  split; [done|]. split; [done|]. split.
  { rewrite !py_index_nonneg by lia.
    rewrite lookup_app_r by lia. rewrite Hlen.
    replace (Z.to_nat (t + 1) - Z.to_nat t)%nat with 1%nat by lia.
    simpl. rewrite lookup_drop. f_equal. lia. }
  split.
  { rewrite py_index_nonneg by lia.
    rewrite lookup_app_r by lia. rewrite Hlen.
    replace (Z.to_nat (t + 1 - 1) - Z.to_nat t)%nat with 0%nat by lia. done. }
  split.
  { unfold transient_initialized. rewrite !Ha, !decide_True by done. by vm_compute. }
  do 4 (split; [done|]).
  intros c k Hne. rewrite Ha. by rewrite decide_False.
Qed.

(** Object 3 joins [duel] during the turn of 2. *)
Lemma join_fight_position_witness :
  exists w', join_fight 3%nat duel = (inr tt, w') /\
             roster w' = [3%nat; 2%nat; 1%nat] /\ cursor w' = 1 /\
             current w' = Some 2%nat.
Proof.
  destruct (join_fight_position duel 3%nat) as (w' & Hrun & Hr & Hc & Hcur & _).
  - vm_compute. split; [discriminate|reflexivity].
  - exists w'. split; [exact Hrun|]. split; [exact Hr|]. split; [exact Hc|].
    rewrite Hcur. reflexivity.
Defined.

(** After 3 has joined [duel], the slot after the current participant
    holds 1; 3 is in the slot before. *)
Lemma join_fight_counterexample :
  exists w', join_fight 3%nat duel = (inr tt, w') /\
             current duel = Some 2%nat /\ current w' = Some 2%nat /\
             py_index (roster w') (cursor w' + 1) = Some 1%nat /\
             py_index (roster w') (cursor w' + 1) <> Some 3%nat /\
             py_index (roster w') (cursor w' - 1) = Some 3%nat.
Proof.
  eexists. split; [vm_compute; reflexivity|].
  repeat split; try reflexivity. discriminate.
Qed.

(** *** Ticks of the timer *)

(** [aftermath] is what stopping the handler of [duel] computes. *)
Example duel_to_aftermath : stop duel = (inr tt, aftermath).
Proof. vm_compute. reflexivity. Qed.

Lemma at_repeat_spec (w : world) (cur : obj_id) :
  current w = Some cur ->
  at_repeat w =
  if timer (handler w) - interval (handler w) <=? 0 then
    spend_action cur All (Some "disengage")
      (with_sent (fun l => l ++ [ToRoom (MsgTimedOut cur)]) (counted_down w))
  else if (timer (handler w) - interval (handler w) <=? 10)
          && negb (timeout_warning_given (handler w)) then
    (inr tt, with_handler (set_timeout_warning_given true)
               (with_sent (fun l => l ++ [ToChar cur MsgTimeoutWarning]) (counted_down w)))
  else (inr tt, counted_down w).
Proof.
  intros Hc. unfold at_repeat. rewrite bind_gets. cbv beta.
  unfold current, roster, cursor in Hc.
  rewrite (index_Some _ _ _ Hc), bind_ret, bind_modify, bind_gets. cbv beta.
  fold (counted_down w). simpl timer.
  destruct (_ <=? 0); [reflexivity|].
  destruct (_ && _); reflexivity.
Qed.

(** *** Characters out of combat (C10) *)

Lemma signal_not_in_combat (p : obj_id) (w : world) :
  attr w p "combat_turnhandler" <> VScript ->
  signal_end_of_turn p w = (inl (AttributeError "turn_end_check"), w).
Proof.
  intros H. unfold signal_end_of_turn. rewrite bind_get_attr.
  by destruct (attr w p "combat_turnhandler").
Qed.

Lemma write_label_frame (p : obj_id) (action_name : option string) (w : world) :
  handler (write_label p action_name w) = handler w /\
  sent (write_label p action_name w) = sent w /\
  room_db (write_label p action_name w) = room_db w.
Proof. unfold write_label. destruct action_name; [|done]. by destruct (truthy _). Qed.

Lemma turnhandler_after_writes (p : obj_id) (action_name : option string) (z : Z)
  (w : world) :
  attr (write_actions p z (write_label p action_name w)) p "combat_turnhandler" =
  attr w p "combat_turnhandler".
Proof.
  rewrite attr_write_actions, attr_write_label.
  case_decide as H; [by destruct H|].
  destruct action_name; [|done]. case_decide as H'; [|done]. by destruct H' as (_ & _ & ?).
Qed.

(** C10. Being in combat is a precondition of [is_turn] and
    [spend_action]: for a character whose turn handler reference is unset
    ([is_in_combat] returns False), [is_turn] raises by dereferencing the
    absent handler, leaving everything as it was; [spend_action] never
    returns normally either: with 'all', or with a number when the
    character still has a number of actions left, it writes the
    character's fields and then raises by dereferencing the absent
    handler; with a number when the character has no number of actions
    left it raises earlier, at the subtraction.  The state of the handler
    is as before in every case. *)
Theorem not_in_combat_raises (w : world) (c : obj_id) :
  is_in_combat c w = (inr false, w) ->
  is_turn c w = (inl (AttributeError "db"), w) /\
  (forall action_name, exists w',
     spend_action c All action_name w = (inl (AttributeError "turn_end_check"), w') /\
     attr w' c "combat_actionsleft" = VInt 0 /\ handler w' = handler w) /\
  (forall n a action_name,
     attr w c "combat_actionsleft" = VInt a ->
     exists w',
       spend_action c (Amount n) action_name w =
         (inl (AttributeError "turn_end_check"), w') /\
       attr w' c "combat_actionsleft" = VInt (Z.max (a - n) 0) /\
       handler w' = handler w) /\
  (forall n action_name,
     (forall a, attr w c "combat_actionsleft" <> VInt a) ->
     spend_action c (Amount n) action_name w =
       (inl TypeError, write_label c action_name w)) /\
  (forall actions action_name, exists e w',
     spend_action c actions action_name w = (inl e, w') /\ handler w' = handler w).
Proof.
  intros Hic. unfold is_in_combat in Hic. rewrite bind_get_attr in Hic.
  injection Hic as Hic.
  assert (Hth : attr w c "combat_turnhandler" <> VScript) by (by intros E; rewrite E in Hic).
  assert (Hal : forall action_name a,
    attr w c "combat_actionsleft" = VInt a ->
    attr (write_label c action_name w) c "combat_actionsleft" = VInt a).
  { intros action_name a Ha. rewrite attr_write_label. destruct action_name; [|done].
    case_decide as H; [|done]. by destruct H as (_ & _ & ?). }
  assert (Hnl : forall action_name,
    (forall a, attr w c "combat_actionsleft" <> VInt a) ->
    forall a, attr (write_label c action_name w) c "combat_actionsleft" <> VInt a).
  { intros action_name Ha a. rewrite attr_write_label. destruct action_name; [|done].
    case_decide as H; [|done]. by destruct H as (_ & _ & ?). }
  assert (Hall : forall action_name, exists w',
     spend_action c All action_name w = (inl (AttributeError "turn_end_check"), w') /\
     attr w' c "combat_actionsleft" = VInt 0 /\ handler w' = handler w).
  { intros action_name. eexists. rewrite spend_action_all. split.
    - apply signal_not_in_combat. by rewrite turnhandler_after_writes.
    - split; [by rewrite attr_write_actions, decide_True|].
      apply (write_label_frame c action_name w). }
  assert (Hnum : forall n a action_name,
     attr w c "combat_actionsleft" = VInt a ->
     exists w',
       spend_action c (Amount n) action_name w =
         (inl (AttributeError "turn_end_check"), w') /\
       attr w' c "combat_actionsleft" = VInt (Z.max (a - n) 0) /\
       handler w' = handler w).
  { intros n a action_name Ha. eexists.
    rewrite (spend_action_amount c n a) by (by apply Hal). split.
    - apply signal_not_in_combat. by rewrite turnhandler_after_writes.
    - split; [by rewrite attr_write_actions, decide_True|].
      apply (write_label_frame c action_name w). }
  split.
  { unfold is_turn. rewrite bind_get_attr.
    by destruct (attr w c "combat_turnhandler"). }
  split; [exact Hall|]. split; [exact Hnum|].
  split; [intros n action_name Ha; apply spend_action_no_number; by apply Hnl|].
  intros [|n] action_name.
  - destruct (Hall action_name) as (w' & Hrun & _ & Hh).
    eexists _, w'. split; [exact Hrun|exact Hh].
  - destruct (attr w c "combat_actionsleft") as [| a | |] eqn:E.
    2:{ destruct (Hnum n a action_name eq_refl) as (w' & Hrun & _ & Hh).
        eexists _, w'. split; [exact Hrun|exact Hh]. }
    all: exists TypeError, (write_label c action_name w);
      (split; [apply spend_action_no_number, Hnl; intros a; rewrite ?E; discriminate
              |apply (write_label_frame c action_name w)]).
Qed.

(** Object 1 of [quiet_room] is in no fight. *)
Lemma not_in_combat_raises_witness :
  is_in_combat 1%nat quiet_room = (inr false, quiet_room) /\
  is_turn 1%nat quiet_room = (inl (AttributeError "db"), quiet_room).
Proof.
  assert (H : is_in_combat 1%nat quiet_room = (inr false, quiet_room))
    by (vm_compute; reflexivity).
  split; [exact H|]. exact (proj1 (not_in_combat_raises quiet_room 1%nat H)).
Defined.

(** Out of combat, spending one action fails at the subtraction, before
    the turn handler is looked at. *)
Lemma spend_action_not_in_combat_counterexample :
  is_in_combat 1%nat quiet_room = (inr false, quiet_room) /\
  spend_action 1%nat (Amount 1) None quiet_room = (inl TypeError, quiet_room) /\
  (spend_action 1%nat (Amount 1) None quiet_room).1 <> inl (AttributeError "turn_end_check").
Proof.
  split; [vm_compute; reflexivity|].
  assert (E : spend_action 1%nat (Amount 1) None quiet_room = (inl TypeError, quiet_room))
    by (vm_compute; reflexivity).
  split; [exact E|]. rewrite E. discriminate.
Qed.

(** *** A handler that has stopped (C5) *)

(** C5. The handler has no ENDED guard and no "combat already
    ended" error: on a handler that has stopped, [join_fight] still
    returns normally, inserts into the roster and moves the cursor; a
    tick before the timeout still returns normally and counts the
    countdown down; and [spend_action] for a participant whose fields
    were cleared fails for want of those fields only, without touching
    roster, cursor or countdown: with "all", because the absent
    reference to the handler is dereferenced, after the last action and
    the actions left have been written; with a number, earlier, by a
    type error at the subtraction from the absent actions left, after
    the last action has been written and with the actions left still
    absent.  The handler stays stopped throughout. *)
Theorem ended_not_guarded (w : world) (p q : obj_id) :
  ended w ->
  0 <= cursor w < Z.of_nat (length (roster w)) ->
  attr w p "combat_turnhandler" = VNone ->
  (exists w', join_fight q w = (inr tt, w') /\
              length (roster w') = S (length (roster w)) /\
              cursor w' = cursor w + 1 /\
              ended w') /\
  (0 < timer (handler w) - interval (handler w) ->
   exists w', at_repeat w = (inr tt, w') /\
              timer (handler w') = timer (handler w) - interval (handler w) /\
              ended w') /\
  (forall action_name, exists w',
     spend_action p All action_name w = (inl (AttributeError "turn_end_check"), w') /\
     handler w' = handler w /\
     attr w' p "combat_actionsleft" = VInt 0 /\
     (forall name, action_name = Some name -> name <> EmptyString ->
                   attr w' p "combat_lastaction" = VStr name)) /\
  (forall n action_name,
     attr w p "combat_actionsleft" = VNone ->
     exists w',
       spend_action p (Amount n) action_name w = (inl TypeError, w') /\
       handler w' = handler w /\
       attr w' p "combat_actionsleft" = VNone /\
       (forall name, action_name = Some name -> name <> EmptyString ->
                     attr w' p "combat_lastaction" = VStr name)).
Proof.
  intros He Hcur Hth. split; [|split; [|split]].
  - destruct (join_fight_spec q w) as (w' & Hrun & Hh & _).
    exists w'. split; [exact Hrun|]. unfold roster, cursor, ended in *.
    rewrite Hh. simpl. rewrite py_insert_valid by lia.
    split; [|done]. rewrite length_app. simpl. rewrite length_take, length_drop. lia.
  - intros Ht. destruct (py_index_valid (roster w) (cursor w) Hcur) as (cur & Hc & _).
    rewrite (at_repeat_spec w cur Hc).
    destruct (Z.leb_spec (timer (handler w) - interval (handler w)) 0); [lia|].
    destruct (_ && _); eexists; (split; [reflexivity|]); by simpl.
  - intros action_name. eexists. rewrite spend_action_all. split.
    + apply signal_not_in_combat. rewrite turnhandler_after_writes, Hth. discriminate.
    + split; [apply (write_label_frame p action_name w)|].
      split; [by rewrite attr_write_actions, decide_True|].
      intros name -> Hne. rewrite attr_write_actions.
      rewrite decide_False by (by intros [_ ?]).
      rewrite attr_write_label. by rewrite decide_True.
  - intros n action_name Hal.
    assert (Hlab : attr (write_label p action_name w) p "combat_actionsleft" = VNone).
    { rewrite attr_write_label. destruct action_name; [|done].
      case_decide as H; [|done]. by destruct H as (_ & _ & ?). }
    exists (write_label p action_name w). split.
    + apply spend_action_no_number. intros a. rewrite Hlab. discriminate.
    + split; [apply (write_label_frame p action_name w)|].
      split; [exact Hlab|].
      intros name -> Hne. rewrite attr_write_label. by rewrite decide_True.
Qed.

(** The operations on the stopped handler of [aftermath]; 2 was one of
    its fighters. *)
Lemma ended_not_guarded_witness :
  ended aftermath /\
  (exists w', join_fight 3%nat aftermath = (inr tt, w') /\
              length (roster w') = 3%nat) /\
  (exists w', at_repeat aftermath = (inr tt, w') /\ timer (handler w') = 25) /\
  (exists w', spend_action 2%nat All (Some "pass") aftermath =
                (inl (AttributeError "turn_end_check"), w')) /\
  (exists w', spend_action 2%nat (Amount 1) (Some "attack") aftermath =
                (inl TypeError, w') /\
              attr w' 2%nat "combat_lastaction" = VStr "attack" /\
              attr w' 2%nat "combat_actionsleft" = VNone).
Proof.
  assert (H1 : ended aftermath) by reflexivity.
  assert (H2 : 0 <= cursor aftermath < Z.of_nat (length (roster aftermath)))
    by (vm_compute; split; [discriminate|reflexivity]).
  assert (H3 : attr aftermath 2%nat "combat_turnhandler" = VNone)
    by (vm_compute; reflexivity).
  assert (H4 : attr aftermath 2%nat "combat_actionsleft" = VNone)
    by (vm_compute; reflexivity).
  destruct (ended_not_guarded aftermath 2%nat 3%nat H1 H2 H3) as (Hj & Ht & Hs & Hn).
  split; [exact H1|]. split; [|split; [|split]].
  - destruct Hj as (w' & Hrun & Hl & _). exists w'. split; [exact Hrun|exact Hl].
  - destruct Ht as (w' & Hrun & Htm & _); [vm_compute; reflexivity|].
    exists w'. split; [exact Hrun|exact Htm].
  - destruct (Hs (Some "pass")) as (w' & Hrun & _). exists w'. exact Hrun.
  - destruct (Hn 1 (Some "attack") H4) as (w' & Hrun & _ & Ha & Hl).
    exists w'. split; [exact Hrun|]. split; [|exact Ha].
    apply (Hl "attack"); [reflexivity|discriminate].
Defined.

(** [join_fight] on the stopped handler of [aftermath] returns normally
    and changes roster and cursor. *)
Lemma ended_rejection_counterexample :
  ended aftermath /\
  exists w', join_fight 3%nat aftermath = (inr tt, w') /\
             roster w' = [3%nat; 2%nat; 1%nat] /\
             roster w' <> roster aftermath /\
             cursor w' <> cursor aftermath.
Proof.
  split; [reflexivity|]. eexists. split; [vm_compute; reflexivity|].
  split; [reflexivity|]. split; discriminate.
Qed.

(** *** Timeout (C8) *)

Lemma attr_timed_out (cur : obj_id) (w : world) (c : obj_id) (k : string) :
  attr (timed_out cur w) c k =
  if decide (cur = c /\ attr_key "combat_actionsleft" = attr_key k) then VInt 0
  else if decide (cur = c /\ attr_key "combat_lastaction" = attr_key k)
       then VStr "disengage"
       else attr w c k.
Proof.
  unfold timed_out. rewrite attr_write_actions, attr_write_label.
  repeat case_decide; naive_solver.
Qed.

Lemma timeout_tick (w : world) (cur : obj_id) :
  current w = Some cur ->
  attr w cur "combat_turnhandler" = VScript ->
  timer (handler w) - interval (handler w) <= 0 ->
  at_repeat w = next_turn (timed_out cur w).
Proof.
  intros Hc Hth Ht. rewrite (at_repeat_spec w cur Hc).
  rewrite (proj2 (Z.leb_le _ 0) Ht), spend_action_all.
  fold (timed_out cur w). unfold signal_end_of_turn.
  rewrite bind_get_attr. unfold timed_out at 1.
  rewrite turnhandler_after_writes. attr_simpl.
  change (attr (counted_down w) cur "combat_turnhandler")
    with (attr w cur "combat_turnhandler").
  rewrite Hth.
  rewrite (turn_end_check_actions cur _ 0); [done|].
  by rewrite attr_timed_out, decide_True.
Qed.

Lemma bind_ext {A B} (m : M A) (k k' : A -> M B) (w : world) :
  (forall x w', k x w' = k' x w') -> (m ≫= k) w = (m ≫= k') w.
Proof. intros H. unfold mbind, M_bind. destruct (m w) as [[e|x] w']; [done|apply H]. Qed.

Lemma ticks_add (n m : nat) (w : world) :
  ticks (n + m) w = (ticks n ;; ticks m) w.
Proof.
  revert w. induction n as [|n IH]; intros w.
  - simpl ticks. by rewrite bind_ret.
  - change (ticks (S n + m) w) with ((at_repeat ;; ticks (n + m)) w).
    change (ticks (S n)) with (at_repeat ;; ticks n).
    rewrite bind_assoc. apply bind_ext. intros _ w'. apply IH.
Qed.

Lemma ticks_one (w : world) : ticks 1 w = at_repeat w.
Proof.
  simpl ticks. unfold mbind, M_bind. by destruct (at_repeat w) as [[e|[]] w'].
Qed.

(** Ticks that do not exhaust the countdown only count down, and warn
    the current participant. *)
Lemma ticks_count_down (n : nat) (w : world) (cur : obj_id) :
  current w = Some cur ->
  0 <= interval (handler w) ->
  0 < timer (handler w) - Z.of_nat n * interval (handler w) ->
  exists w' new,
    ticks n w = (inr tt, w') /\
    objs w' = objs w /\ room_db w' = room_db w /\
    room_contents w' = room_contents w /\ next_repeat w' = next_repeat w /\
    fighters (handler w') = fighters (handler w) /\
    turn (handler w') = turn (handler w) /\
    interval (handler w') = interval (handler w) /\
    running (handler w') = running (handler w) /\
    timer (handler w') = timer (handler w) - Z.of_nat n * interval (handler w) /\
    sent w' = sent w ++ new /\
    (forall e, e ∈ new -> e = ToChar cur MsgTimeoutWarning).
Proof.
  revert w. induction n as [|n IH]; intros w Hc Hi Ht.
  - exists w, []. rewrite app_nil_r.
    do 9 (split; [reflexivity|]). split; [simpl; lia|]. split; [reflexivity|].
    intros e He. by apply elem_of_nil in He.
  - change (ticks (S n) w) with ((at_repeat ;; ticks n) w).
    assert (Hstep : exists w1 new1,
      at_repeat w = (inr tt, w1) /\
      objs w1 = objs w /\ room_db w1 = room_db w /\
      room_contents w1 = room_contents w /\ next_repeat w1 = next_repeat w /\
      fighters (handler w1) = fighters (handler w) /\
      turn (handler w1) = turn (handler w) /\
      interval (handler w1) = interval (handler w) /\
      running (handler w1) = running (handler w) /\
      timer (handler w1) = timer (handler w) - interval (handler w) /\
      sent w1 = sent w ++ new1 /\
      (forall e, e ∈ new1 -> e = ToChar cur MsgTimeoutWarning)).
    { rewrite (at_repeat_spec w cur Hc).
      destruct (Z.leb_spec (timer (handler w) - interval (handler w)) 0); [nia|].
      destruct (_ && _).
      - eexists _, [ToChar cur MsgTimeoutWarning].
        do 11 (split; [reflexivity|]).
        intros e He. by apply list_elem_of_singleton in He.
      - eexists _, []. rewrite app_nil_r.
        do 11 (split; [reflexivity|]).
        intros e He. by apply elem_of_nil in He. }
    destruct Hstep as (w1 & new1 & Hrun1 & Ho1 & Hr1 & Hc1 & Hn1 & Hf1 & Ht1 & Hi1
                       & Hu1 & Htm1 & Hs1 & Hw1).
    destruct (IH w1) as (w' & new & Hrun & Ho & Hr & Hc' & Hn & Hf & Ht' & Hi'
                         & Hu & Htm & Hs & Hw).
    { unfold current, roster, cursor in *. by rewrite Hf1, Ht1. }
    { by rewrite Hi1. }
    { rewrite Htm1, Hi1. nia. }
    exists w', (new1 ++ new). rewrite (bind_returns _ _ _ _ _ Hrun1).
    split; [exact Hrun|].
    rewrite Ho, Hr, Hc', Hn, Hf, Ht', Hi', Hu, Htm, Hs, Hs1, Htm1, Hi1.
    do 8 (split; [first [assumption|reflexivity]|]).
    split; [lia|]. split; [by rewrite app_assoc|].
    intros e He. apply elem_of_app in He as [He|He]; auto.
Qed.

Lemma timed_out_frame (cur : obj_id) (w : world) :
  roster (timed_out cur w) = roster w /\
  cursor (timed_out cur w) = cursor w /\
  running (handler (timed_out cur w)) = running (handler w) /\
  timer (handler (timed_out cur w)) = timer (handler w) - interval (handler w) /\
  next_repeat (timed_out cur w) = next_repeat w /\
  sent (timed_out cur w) = sent w ++ [ToRoom (MsgTimedOut cur)].
Proof. by repeat split. Qed.

Lemma attr_same_objs (w w' : world) (c : obj_id) (k : string) :
  objs w' = objs w -> attr w' c k = attr w c k.
Proof. intros H. unfold attr, obj_attrs. by rewrite H. Qed.

Lemma defeated_characters_ext (w w' : world) :
  roster w' = roster w ->
  (forall c, attr w' c "HP" = attr w c "HP") ->
  defeated_characters w' = defeated_characters w.
Proof.
  unfold defeated_characters, roster. intros -> H. do 2 f_equal.
  apply List.filter_ext. intros c. by rewrite H.
Qed.

Lemma current_bound (w : world) (cur : obj_id) :
  current w = Some cur -> 0 <= cursor w ->
  0 <= cursor w < Z.of_nat (length (roster w)).
Proof.
  unfold current. intros H H0. rewrite py_index_nonneg in H by done.
  apply lookup_lt_Some in H. lia.
Qed.

(** The timeout itself: the state in which [next_turn] runs. *)
Lemma timeout_state (v : world) (cur : obj_id) :
  current v = Some cur -> attr v cur "combat_turnhandler" = VScript ->
  timer (handler v) - interval (handler v) <= 0 ->
  at_repeat v = next_turn (timed_out cur v) /\
  sent (timed_out cur v) = sent v ++ [ToRoom (MsgTimedOut cur)] /\
  attr (timed_out cur v) cur "combat_lastaction" = VStr "disengage" /\
  attr (timed_out cur v) cur "combat_actionsleft" = VInt 0 /\
  roster (timed_out cur v) = roster v /\ cursor (timed_out cur v) = cursor v.
Proof.
  intros Hcv Hthv Htv. split; [by apply timeout_tick|].
  split; [apply timed_out_frame|].
  rewrite !attr_timed_out. split; [|split; [|split]]; try apply timed_out_frame.
  - case_decide as H; [by destruct H|]. by rewrite decide_True.
  - by rewrite decide_True.
Qed.

(** A countdown that [n] ticks do not exhaust and one more does: the
    first [n] ticks only count down, and the next is the timeout. *)
Lemma timeout_after (n : nat) (w : world) (cur : obj_id) :
  current w = Some cur ->
  attr w cur "combat_turnhandler" = VScript ->
  0 <= interval (handler w) ->
  0 < timer (handler w) - Z.of_nat n * interval (handler w) ->
  timer (handler w) - Z.of_nat (S n) * interval (handler w) <= 0 ->
  (exists wn,
     ticks n w = (inr tt, wn) /\
     (forall c k, attr wn c k = attr w c k) /\
     roster wn = roster w /\ cursor wn = cursor w /\
     running (handler wn) = running (handler w) /\
     timer (handler wn) = timer (handler w) - Z.of_nat n * interval (handler w) /\
     ~ announced w wn (MsgTimedOut cur)) /\
  (exists w',
     ticks (S n) w = next_turn w' /\
     announced w w' (MsgTimedOut cur) /\
     attr w' cur "combat_lastaction" = VStr "disengage" /\
     attr w' cur "combat_actionsleft" = VInt 0 /\
     roster w' = roster w /\ cursor w' = cursor w) /\
  (0 <= cursor w ->
   (exists f, f ∈ roster w /\ f <> cur /\
              attr w f "combat_lastaction" <> VStr "disengage") ->
   defeated_characters w <> Z.of_nat (length (roster w)) - 1 ->
   (forall f, f ∈ roster w -> exists h, attr w f "hp" = VInt h) ->
   exists w' new,
     ticks (S n) w = (inr tt, w') /\
     roster w' = roster w /\
     cursor w' = (cursor w + 1) mod Z.of_nat (length (roster w)) /\
     current w' = Some new /\
     attr w' new "combat_actionsleft" = VInt ACTIONS_PER_TURN /\
     attr w' cur "combat_lastaction" = VStr "disengage" /\
     running (handler w') = running (handler w)).
Proof.
  intros Hc Hth Hiv0 Hpos Hout.
  destruct (ticks_count_down n w cur Hc Hiv0 Hpos)
    as (w5 & new5 & Hrun5 & Ho & _ & _ & Hn5 & Hf5 & Ht5 & Hi5 & Hu5 & Htm5 & Hs5 & Hw5).
  assert (Hattr : forall c k, attr w5 c k = attr w c k)
    by (intros; by apply attr_same_objs).
  assert (Hc5 : current w5 = Some cur).
  { unfold current, roster, cursor in *. by rewrite Hf5, Ht5. }
  destruct (timeout_state w5 cur Hc5) as (Hrun6 & Hs6 & Hl6 & Ha6 & Hr6 & Hcu6).
  { by rewrite Hattr. }
  { rewrite Htm5, Hi5. lia. }
  assert (Hticks6 : ticks (S n) w = next_turn (timed_out cur w5)).
  { replace (S n) with (n + 1)%nat by lia. rewrite ticks_add.
    rewrite (bind_returns _ _ _ _ _ Hrun5), ticks_one. exact Hrun6. }
  split; [|split].
  - exists w5. split; [exact Hrun5|]. split; [exact Hattr|].
    unfold roster, cursor. do 3 (split; [assumption|]). split; [exact Htm5|].
    rewrite (announced_unique _ _ _ _ Hs5). intros Hin. by specialize (Hw5 _ Hin).
  - exists (timed_out cur w5). split; [exact Hticks6|].
    split.
    { exists (new5 ++ [ToRoom (MsgTimedOut cur)]).
      split; [by rewrite Hs6, Hs5, app_assoc|]. apply elem_of_app. right. by left. }
    split; [exact Hl6|]. split; [exact Ha6|].
    unfold roster, cursor in *. by rewrite Hr6, Hcu6, Hf5, Ht5.
  - intros H0 (f & Hfin & Hfne & Hfl) Hdef Hhp.
    set (w6 := timed_out cur w5) in *.
    assert (Hr : roster w6 = roster w) by (unfold roster in *; by rewrite Hr6, Hf5).
    assert (Hcu : cursor w6 = cursor w) by (unfold cursor in *; by rewrite Hcu6, Ht5).
    assert (Hother : forall c k, attr_key "combat_actionsleft" <> attr_key k ->
                                 attr_key "combat_lastaction" <> attr_key k ->
                                 attr w6 c k = attr w c k).
    { intros c k H1 H2. unfold w6. rewrite attr_timed_out.
      case_decide as H; [by destruct H|]. case_decide as H'; [by destruct H'|]. apply Hattr. }
    assert (Hd6 : disengage_check w6 = false).
    { destruct (disengage_check w6) eqn:E; [|done]. exfalso.
      apply Hfl. rewrite <- Hattr.
      pose proof (proj1 (disengage_check_true w6) E f) as Hall.
      rewrite Hr in Hall. specialize (Hall Hfin). unfold w6 in Hall.
      rewrite attr_timed_out in Hall.
      case_decide as H; [by destruct H|]. case_decide as H'; [by destruct H'|]. done. }
    assert (Hdef6 : defeated_characters w6 <> Z.of_nat (length (roster w6)) - 1).
    { rewrite Hr, (defeated_characters_ext w w6 Hr); [done|].
      intros c. by apply Hother. }
    assert (Hcur6 : current w6 = Some cur).
    { unfold current. rewrite Hr, Hcu. exact Hc. }
    pose proof (current_bound w cur Hc H0) as Hb.
    assert (Hb6 : 0 <= cursor w6 < Z.of_nat (length (roster w6))) by (by rewrite Hr, Hcu).
    destruct (next_cursor_valid w6 Hb6) as [Hnext Hmod].
    destruct (py_index_valid (roster w6) (next_cursor w6) Hnext) as (new & Hnew & Hin).
    destruct (Hhp new) as [h Hh]; [by rewrite <- Hr|].
    destruct (next_turn_rotates w6 cur new h Hd6 Hdef6 Hcur6 Hnew)
      as (w' & Hrun & Hh' & _ & _ & _ & _ & Ha').
    { rewrite Hother; [exact Hh|done|done]. }
    exists w', new. rewrite Hticks6. split; [exact Hrun|].
    unfold current, roster, cursor in *. rewrite Hh'. simpl.
    split; [exact Hr|]. split; [by rewrite Hmod, Hr, Hcu|]. split; [exact Hnew|].
    split; [by rewrite Ha', decide_True|].
    split.
    + rewrite Ha'. case_decide as H; [by destruct H|]. exact Hl6.
    + exact Hu5.
Qed.

(** C8. Timeout forces disengage.  In a fight where it is the turn of
    [cur], a participant in combat: a tick that drives the countdown to 0
    or below announces the timeout of [cur], spends all actions of [cur]
    with "disengage" as last action, and runs [next_turn] on that state
    at once.  With a countdown of [TURN_TIMEOUT] = 30, as creation sets
    it, and ticks of 5, the first five ticks only count down (to 5,
    warning [cur] at most), and the sixth is that timeout; when the
    timeout does not end the fight (some other roster member has not
    disengaged, and not all but one are defeated) the sixth tick rotates
    the turn to the next roster slot, [cur] being left with "disengage"
    as last action.  With a countdown of 30 + [r], as a rotation sets it
    [r] seconds before a tick, 0 < [r] <= 5, six ticks only count down,
    to [r], and it is the seventh that is the timeout and rotates the
    turn. *)
Theorem timeout_forces_disengage (w : world) (cur : obj_id) :
  current w = Some cur ->
  attr w cur "combat_turnhandler" = VScript ->
  (timer (handler w) - interval (handler w) <= 0 ->
   exists w1,
     at_repeat w = next_turn w1 /\
     sent w1 = sent w ++ [ToRoom (MsgTimedOut cur)] /\
     attr w1 cur "combat_lastaction" = VStr "disengage" /\
     attr w1 cur "combat_actionsleft" = VInt 0 /\
     roster w1 = roster w /\ cursor w1 = cursor w) /\
  (timer (handler w) = TURN_TIMEOUT -> interval (handler w) = 5 ->
   (exists w5,
      ticks 5 w = (inr tt, w5) /\
      (forall c k, attr w5 c k = attr w c k) /\
      roster w5 = roster w /\ cursor w5 = cursor w /\
      running (handler w5) = running (handler w) /\
      timer (handler w5) = 5 /\
      ~ announced w w5 (MsgTimedOut cur)) /\
   (exists w6,
      ticks 6 w = next_turn w6 /\
      announced w w6 (MsgTimedOut cur) /\
      attr w6 cur "combat_lastaction" = VStr "disengage" /\
      attr w6 cur "combat_actionsleft" = VInt 0 /\
      roster w6 = roster w /\ cursor w6 = cursor w) /\
   (0 <= cursor w ->
    (exists f, f ∈ roster w /\ f <> cur /\
               attr w f "combat_lastaction" <> VStr "disengage") ->
    defeated_characters w <> Z.of_nat (length (roster w)) - 1 ->
    (forall f, f ∈ roster w -> exists h, attr w f "hp" = VInt h) ->
    exists w' new,
      ticks 6 w = (inr tt, w') /\
      roster w' = roster w /\
      cursor w' = (cursor w + 1) mod Z.of_nat (length (roster w)) /\
      current w' = Some new /\
      attr w' new "combat_actionsleft" = VInt ACTIONS_PER_TURN /\
      attr w' cur "combat_lastaction" = VStr "disengage" /\
      running (handler w') = running (handler w))) /\
  (forall r, 0 < r <= 5 ->
   timer (handler w) = TURN_TIMEOUT + r -> interval (handler w) = 5 ->
   (exists w6,
      ticks 6 w = (inr tt, w6) /\
      (forall c k, attr w6 c k = attr w c k) /\
      roster w6 = roster w /\ cursor w6 = cursor w /\
      running (handler w6) = running (handler w) /\
      timer (handler w6) = r /\
      ~ announced w w6 (MsgTimedOut cur)) /\
   (exists w7,
      ticks 7 w = next_turn w7 /\
      announced w w7 (MsgTimedOut cur) /\
      attr w7 cur "combat_lastaction" = VStr "disengage" /\
      attr w7 cur "combat_actionsleft" = VInt 0 /\
      roster w7 = roster w /\ cursor w7 = cursor w) /\
   (0 <= cursor w ->
    (exists f, f ∈ roster w /\ f <> cur /\
               attr w f "combat_lastaction" <> VStr "disengage") ->
    defeated_characters w <> Z.of_nat (length (roster w)) - 1 ->
    (forall f, f ∈ roster w -> exists h, attr w f "hp" = VInt h) ->
    exists w' new,
      ticks 7 w = (inr tt, w') /\
      roster w' = roster w /\
      cursor w' = (cursor w + 1) mod Z.of_nat (length (roster w)) /\
      current w' = Some new /\
      attr w' new "combat_actionsleft" = VInt ACTIONS_PER_TURN /\
      attr w' cur "combat_lastaction" = VStr "disengage" /\
      running (handler w') = running (handler w))).
Proof.
  intros Hc Hth. split; [|split].
  - intros Ht. exists (timed_out cur w). by apply timeout_state.
  - intros Htm Hiv.
    destruct (timeout_after 5 w cur Hc Hth) as (H5 & H6 & Hrot).
    { rewrite Hiv. lia. }
    { rewrite Htm, Hiv. by vm_compute. }
    { rewrite Htm, Hiv. by vm_compute. }
    split; [|split; [exact H6|exact Hrot]].
    destruct H5 as (w5 & Hrun & Ha & Hr & Hcu & Hu & Ht & Hn).
    exists w5. split; [exact Hrun|]. split; [exact Ha|].
    split; [exact Hr|]. split; [exact Hcu|]. split; [exact Hu|].
    split; [|exact Hn]. rewrite Ht, Htm, Hiv. by vm_compute.
  - intros r Hr Htm Hiv.
    destruct (timeout_after 6 w cur Hc Hth) as (H6 & H7 & Hrot).
    { rewrite Hiv. lia. }
    { rewrite Htm, Hiv. unfold TURN_TIMEOUT. lia. }
    { rewrite Htm, Hiv. unfold TURN_TIMEOUT. lia. }
    split; [|split; [exact H7|exact Hrot]].
    destruct H6 as (w6 & Hrun & Ha & Hro & Hcu & Hu & Ht & Hn).
    exists w6. split; [exact Hrun|]. split; [exact Ha|].
    split; [exact Hro|]. split; [exact Hcu|]. split; [exact Hu|].
    split; [|exact Hn]. rewrite Ht, Htm, Hiv. unfold TURN_TIMEOUT. lia.
Qed.

(** *** Two fights from start to end *)

Example three_way_fight :
  exists w',
    melee_run melee = (inr tt, w') /\
    ended w' /\
    last (sent w') = Some (ToRoom (MsgOnlyRemains 1%nat)) /\
    attr w' 2%nat "hp" = VInt 0 /\ attr w' 3%nat "hp" = VInt 0 /\
    attr w' 1%nat "combat_turnhandler" = VNone.
Proof. eexists. split; [vm_compute; reflexivity|]. by vm_compute. Qed.

(** The fight of [duel]: both fighters spend all actions on "disengage",
    and the fight is over with both of them cleaned up. *)
Lemma all_disengaged_termination_witness :
  (forall f, f ∈ roster duel_truce ->
             attr duel_truce f "combat_lastaction" = VStr "disengage") /\
  exists w2 w3,
    spend_action 2%nat All (Some "disengage") duel = (inr tt, w2) /\
    spend_action 1%nat All (Some "disengage") w2 = (inr tt, w3) /\
    ended w3 /\
    transient_cleared w3 1%nat /\ transient_cleared w3 2%nat /\
    db_get (room_db w3) "combat_turnhandler" = VNone.
Proof.
  assert (H : forall f, f ∈ roster duel_truce ->
                        attr duel_truce f "combat_lastaction" = VStr "disengage").
  { intros f Hin. change (roster duel_truce) with [2%nat; 1%nat] in Hin.
    apply elem_of_cons in Hin as [->|Hin]; [vm_compute; reflexivity|].
    apply elem_of_cons in Hin as [->|Hin]; [vm_compute; reflexivity|].
    by apply elem_of_nil in Hin. }
  split; [exact H|].
  destruct (all_disengaged_termination duel_truce H)
    as (w3 & Hrun & _ & He & Hroom & Hcl & _).
  eexists _, w3. split; [vm_compute; reflexivity|].
  split.
  { transitivity (next_turn duel_truce); [vm_compute; reflexivity|exact Hrun]. }
  split; [exact He|].
  split; [apply Hcl; vm_compute; set_solver|].
  split; [apply Hcl; vm_compute; set_solver|exact Hroom].
Defined.

(** [duel] left alone for six ticks: the turn of 2 times out and passes
    to 1; [duel_second_turn] left alone for six ticks, and for seven. *)
Lemma timeout_forces_disengage_witness :
  current duel = Some 2%nat /\
  attr duel 2%nat "combat_turnhandler" = VScript /\
  (exists w1, at_repeat duel_running_out = next_turn w1 /\
              attr w1 2%nat "combat_lastaction" = VStr "disengage") /\
  (exists w', ticks 6 duel = (inr tt, w') /\ cursor w' = 1 /\
              attr w' 2%nat "combat_lastaction" = VStr "disengage") /\
  (exists w6 w7, ticks 6 duel_second_turn = (inr tt, w6) /\
                 timer (handler w6) = 3 /\ cursor w6 = 1 /\
                 ticks 7 duel_second_turn = (inr tt, w7) /\ cursor w7 = 0 /\
                 attr w7 1%nat "combat_lastaction" = VStr "disengage").
Proof.
  assert (H1 : current duel = Some 2%nat) by reflexivity.
  assert (H2 : attr duel 2%nat "combat_turnhandler" = VScript) by (vm_compute; reflexivity).
  assert (H3 : current duel_second_turn = Some 1%nat) by reflexivity.
  assert (H4 : attr duel_second_turn 1%nat "combat_turnhandler" = VScript)
    by (vm_compute; reflexivity).
  split; [exact H1|]. split; [exact H2|]. split; [|split].
  - destruct (proj1 (timeout_forces_disengage duel_running_out 2%nat H1 H2))
      as (w1 & Hrun & _ & Hl & _); [vm_compute; discriminate|].
    exists w1. split; [exact Hrun|exact Hl].
  - destruct (proj1 (proj2 (timeout_forces_disengage duel 2%nat H1 H2)))
      as (_ & _ & Hrot); [reflexivity|reflexivity|].
    destruct Hrot as (w' & new & Hrun & _ & Hc & _ & _ & Hl & _).
    + vm_compute. discriminate.
    + exists 1%nat. split; [vm_compute; set_solver|].
      split; [discriminate|vm_compute; discriminate].
    + vm_compute. discriminate.
    + intros f Hin. change (roster duel) with [2%nat; 1%nat] in Hin.
      apply elem_of_cons in Hin as [->|Hin]; [exists 100; vm_compute; reflexivity|].
      apply elem_of_cons in Hin as [->|Hin]; [exists 100; vm_compute; reflexivity|].
      by apply elem_of_nil in Hin.
    + exists w'. split; [exact Hrun|]. split; [rewrite Hc; reflexivity|exact Hl].
  - destruct (proj2 (proj2 (timeout_forces_disengage duel_second_turn 1%nat H3 H4)) 3)
      as (H6 & _ & Hrot); [lia|reflexivity|reflexivity|].
    destruct H6 as (w6 & Hrun6 & _ & _ & Hc6 & _ & Ht6 & _).
    destruct Hrot as (w7 & new & Hrun7 & _ & Hc7 & _ & _ & Hl7 & _).
    + vm_compute. discriminate.
    + exists 2%nat. split; [vm_compute; set_solver|].
      split; [discriminate|vm_compute; discriminate].
    + vm_compute. discriminate.
    + intros f Hin. change (roster duel_second_turn) with [2%nat; 1%nat] in Hin.
      apply elem_of_cons in Hin as [->|Hin]; [exists 100; vm_compute; reflexivity|].
      apply elem_of_cons in Hin as [->|Hin]; [exists 100; vm_compute; reflexivity|].
      by apply elem_of_nil in Hin.
    + exists w6, w7. split; [exact Hrun6|]. split; [exact Ht6|].
      split; [rewrite Hc6; reflexivity|]. split; [exact Hrun7|].
      split; [rewrite Hc7; reflexivity|exact Hl7].
Defined.

(** Six ticks that force no disengage: after the end of the turn of 2 in
    [duel_between_ticks], 3 seconds before a tick, the countdown of the
    turn of 1 is 33; six ticks later it is still the turn of 1, who has
    been warned and nothing more, with 3 seconds left. *)
Lemma six_ticks_counterexample :
  exists w1 w6,
    next_turn duel_between_ticks = (inr tt, w1) /\
    current w1 = Some 1%nat /\
    timer (handler w1) = 33 /\ interval (handler w1) = 5 /\
    ticks 6 w1 = (inr tt, w6) /\
    current w6 = Some 1%nat /\
    timer (handler w6) = 3 /\
    attr w6 1%nat "combat_lastaction" = VStr "null" /\
    attr w6 1%nat "combat_actionsleft" = VInt 1 /\
    sent w6 = sent w1 ++ [ToChar 1%nat MsgTimeoutWarning].
Proof.
  eexists _, _. split; [vm_compute; reflexivity|].
  do 3 (split; [vm_compute; reflexivity|]).
  split; [vm_compute; reflexivity|].
  do 4 (split; [vm_compute; reflexivity|]).
  vm_compute; reflexivity.
Qed.

(** A turn that began 3 seconds before a tick has a countdown of 33: the
    sixth tick leaves 3 seconds, and the seventh is the timeout. *)
Example later_turn_seventh_tick :
  exists w1 w6 w7,
    next_turn duel_between_ticks = (inr tt, w1) /\
    ticks 6 w1 = (inr tt, w6) /\
    timer (handler w6) = 3 /\ cursor w6 = 1 /\
    attr w6 1%nat "combat_lastaction" = VStr "null" /\
    ticks 7 w1 = (inr tt, w7) /\
    cursor w7 = 0 /\
    attr w7 1%nat "combat_lastaction" = VStr "disengage".
Proof.
  eexists _, _, _. split; [vm_compute; reflexivity|].
  split; [vm_compute; reflexivity|].
  do 3 (split; [vm_compute; reflexivity|]).
  split; [vm_compute; reflexivity|].
  split; vm_compute; reflexivity.
Qed.

(** *** Damage and attacks (X1, X2, X3) *)

Lemma apply_damage_number (defender : obj_id) (damage h : Z) (w : world) :
  attr w defender "hp" = VInt h ->
  apply_damage defender damage w =
  (inr tt, with_objs <[defender := db_set (obj_attrs w defender) "hp"
                                          (VInt (Z.max (h - damage) 0))]> w).
Proof.
  intros Hh. unfold apply_damage. rewrite bind_get_attr, Hh.
  unfold set_attr. rewrite bind_modify.
  destruct (Z.leb_spec (h - damage) 0).
  - unfold modify. rewrite obj_attrs_insert, decide_True by done.
    unfold with_objs, db_set; simpl. rewrite !insert_insert_eq.
    by rewrite Z.max_r by lia.
  - unfold mret, M_ret. by rewrite Z.max_l by lia.
Qed.

(** X1. [apply_damage] on a target whose hp is a number [h] returns
    normally and leaves the target at [max (h - damage) 0]: the hp is
    never negative afterwards, and it is 0 exactly when the damage
    reaches [h].  No other attribute, of the target or of anything else,
    changes, nothing is announced and the turn handler is untouched. *)
Theorem apply_damage_floor (w : world) (defender : obj_id) (damage h : Z) :
  attr w defender "hp" = VInt h ->
  exists w',
    apply_damage defender damage w = (inr tt, w') /\
    attr w' defender "hp" = VInt (Z.max (h - damage) 0) /\
    0 <= Z.max (h - damage) 0 /\
    (attr w' defender "hp" = VInt 0 <-> h <= damage) /\
    (forall c k, c <> defender \/ attr_key "hp" <> attr_key k ->
                 attr w' c k = attr w c k) /\
    handler w' = handler w /\ sent w' = sent w /\ room_db w' = room_db w.
Proof.
  intros Hh. eexists. split; [by apply apply_damage_number|].
  split; [by rewrite attr_set_attr, decide_True|].
  split; [lia|]. split.
  - rewrite attr_set_attr, decide_True by done. split.
    + intros [= E]. lia.
    + intros E. f_equal. lia.
  - split; [|done]. intros c k Hck. rewrite attr_set_attr.
    case_decide as H; [naive_solver|done].
Qed.

(** X2. [apply_damage] on a target that has no number for hp (an object
    without health) raises a type error and changes nothing. *)
Theorem apply_damage_no_health (w : world) (defender : obj_id) (damage : Z) :
  (forall h, attr w defender "hp" <> VInt h) ->
  apply_damage defender damage w = (inl TypeError, w).
Proof.
  intros Hh. unfold apply_damage. rewrite bind_get_attr.
  destruct (attr w defender "hp") eqn:E; try done. by destruct (Hh z).
Qed.

Lemma or_else_effective (supplied : option Z) (fallback value : Z) :
  effective supplied fallback value -> or_else supplied fallback = value.
Proof.
  unfold effective, or_else.
  intros [[-> Hv] | [[-> | ->] ->]]; simpl; try done.
  by destruct (Z.eqb_spec value 0).
Qed.

(** An attack that is not below the defense, on a defender whose hp is
    the number [h]. *)
Lemma resolve_attack_hit (w : world) (d : dice) (attacker defender : obj_id)
  (attack_value defense_value damage_value : option Z) (h : Z) :
  attr w defender "hp" = VInt h ->
  or_else defense_value 50 <= or_else attack_value (attack_roll d) ->
  exists w',
    resolve_attack d attacker defender attack_value defense_value damage_value w =
      (inr tt, w') /\
    attr w' defender "hp" =
      VInt (Z.max (h - or_else damage_value (damage_roll d)) 0) /\
    sent w' = sent w ++
      ToRoom (MsgHits attacker defender (or_else damage_value (damage_roll d))) ::
      (if h - or_else damage_value (damage_roll d) <=? 0
       then [ToRoom (MsgDefeated defender)] else []) /\
    (forall c k, c <> defender \/ attr_key "hp" <> attr_key k ->
                 attr w' c k = attr w c k) /\
    handler w' = handler w /\ room_db w' = room_db w.
Proof.
  intros Hh Hcmp. unfold resolve_attack. cbv zeta.
  unfold get_attack, get_defense, get_damage.
  set (dmg := or_else damage_value (damage_roll d)).
  rewrite (proj2 (Z.ltb_ge _ _) Hcmp).
  unfold msg_contents. rewrite bind_modify.
  rewrite (bind_returns _ _ _ _ _
    (apply_damage_number defender dmg h
       (with_sent (fun l => l ++ [ToRoom (MsgHits attacker defender dmg)]) w) Hh)).
  rewrite bind_get_attr, attr_set_attr, decide_True by done.
  assert (E : (Z.max (h - dmg) 0 <=? 0) = (h - dmg <=? 0)).
  { destruct (Z.leb_spec (h - dmg) 0), (Z.leb_spec (Z.max (h - dmg) 0) 0); lia. }
  rewrite E.
  assert (Hframe : forall g c k,
    attr (with_sent g (with_objs <[defender := db_set (obj_attrs
            (with_sent (fun l => l ++ [ToRoom (MsgHits attacker defender dmg)]) w)
            defender) "hp" (VInt (Z.max (h - dmg) 0))]>
            (with_sent (fun l => l ++ [ToRoom (MsgHits attacker defender dmg)]) w))) c k =
    if decide (defender = c /\ attr_key "hp" = attr_key k)
    then VInt (Z.max (h - dmg) 0) else attr w c k).
  { intros g c k. rewrite attr_with_sent, attr_set_attr. by rewrite attr_with_sent. }
  destruct (h - dmg <=? 0).
  + eexists. split; [reflexivity|]. unfold at_defeat, msg_contents, modify.
    split; [by rewrite Hframe, decide_True|].
    split; [cbn [sent with_sent with_objs]; by rewrite <- app_assoc|].
    split; [|done]. intros c k Hck. rewrite Hframe.
    case_decide as H; [naive_solver|done].
  + eexists. split; [reflexivity|].
    split; [by rewrite attr_set_attr, decide_True|].
    split; [done|].
    split; [|done]. intros c k Hck. rewrite attr_set_attr.
    case_decide as H; [naive_solver|done].
Qed.

(** X3. [resolve_attack] against a defender whose hp is a number [h].
    Each of the attack, defense and damage values is the one supplied by
    the caller, or the roll (50 for the defense) when none or 0 is
    supplied.  An attack below the defense only announces the miss.
    Otherwise the hit is announced with its damage, the defender is left
    at [max (h - damage) 0], and the defeat is announced exactly when
    that is 0.  Nothing else changes: not the attacker, not the turn
    handler. *)
Theorem resolve_attack_outcome (w : world) (d : dice) (attacker defender : obj_id)
  (attack_value defense_value damage_value : option Z) (a df dmg h : Z) :
  effective attack_value (attack_roll d) a ->
  effective defense_value 50 df ->
  effective damage_value (damage_roll d) dmg ->
  attr w defender "hp" = VInt h ->
  (a < df ->
   resolve_attack d attacker defender attack_value defense_value damage_value w =
   (inr tt, with_sent (fun l => l ++ [ToRoom (MsgMisses attacker defender)]) w)) /\
  (df <= a ->
   exists w',
     resolve_attack d attacker defender attack_value defense_value damage_value w =
       (inr tt, w') /\
     attr w' defender "hp" = VInt (Z.max (h - dmg) 0) /\
     sent w' = sent w ++ ToRoom (MsgHits attacker defender dmg) ::
                 (if h - dmg <=? 0 then [ToRoom (MsgDefeated defender)] else []) /\
     (forall c k, c <> defender \/ attr_key "hp" <> attr_key k ->
                  attr w' c k = attr w c k) /\
     handler w' = handler w /\ room_db w' = room_db w).
Proof.
  intros Ha Hd Hm Hh.
  pose proof (or_else_effective _ _ _ Ha) as Ea.
  pose proof (or_else_effective _ _ _ Hd) as Ed.
  pose proof (or_else_effective _ _ _ Hm) as Em.
  split; intros Hcmp.
  - unfold resolve_attack. cbv zeta. unfold get_attack, get_defense.
    rewrite Ea, Ed. by rewrite (proj2 (Z.ltb_lt a df) Hcmp).
  - destruct (resolve_attack_hit w d attacker defender attack_value defense_value
                damage_value h Hh) as (w' & Hrun & Hhp & Hs & Hfr & Hhd & Hrd).
    { by rewrite Ea, Ed. }
    rewrite Em in Hhp, Hs. by exists w'.
Qed.

(** A blow of 25 on fighter 2 of [melee], who has 20 hp left. *)
Lemma apply_damage_floor_witness :
  attr melee 2%nat "hp" = VInt 20 /\
  exists w', apply_damage 2%nat 25 melee = (inr tt, w') /\
             attr w' 2%nat "hp" = VInt 0.
Proof.
  assert (H : attr melee 2%nat "hp" = VInt 20) by (vm_compute; reflexivity).
  split; [exact H|].
  destruct (apply_damage_floor melee 2%nat 25 20 H) as (w' & Hrun & Hhp & _).
  exists w'. split; [exact Hrun|exact Hhp].
Defined.

(** Object 3 of [quiet_room] has no health. *)
Lemma apply_damage_no_health_witness :
  (forall h, attr quiet_room 3%nat "hp" <> VInt h) /\
  apply_damage 3%nat 10 quiet_room = (inl TypeError, quiet_room).
Proof.
  assert (H : forall h, attr quiet_room 3%nat "hp" <> VInt h)
    by (intros h; vm_compute; discriminate).
  split; [exact H|]. exact (apply_damage_no_health quiet_room 3%nat 10 H).
Defined.

(** Fighter 1 of [melee] rolls 70 against the defense of 50 and 20 for
    the damage: fighter 2 is struck down. *)
Lemma resolve_attack_outcome_witness :
  exists w',
    resolve_attack (Dice 70 20) 1%nat 2%nat None None None melee = (inr tt, w') /\
    attr w' 2%nat "hp" = VInt 0 /\
    sent w' = [ToRoom (MsgHits 1%nat 2%nat 20); ToRoom (MsgDefeated 2%nat)].
Proof.
  destruct (resolve_attack_outcome melee (Dice 70 20) 1%nat 2%nat None None None
              70 50 20 20) as [_ Hhit].
  - right. split; [by left|reflexivity].
  - right. split; [by left|reflexivity].
  - right. split; [by left|reflexivity].
  - vm_compute. reflexivity.
  - destruct Hhit as (w' & Hrun & Hhp & Hs & _); [lia|].
    exists w'. split; [exact Hrun|]. split; [exact Hhp|exact Hs].
Defined.

(** *** Entering and leaving combat (X4, X5) *)

Lemma is_in_combat_value (c : obj_id) (w : world) :
  is_in_combat c w = (inr (truthy (attr w c "combat_turnhandler")), w).
Proof. reflexivity. Qed.

(** The effect of one [combat_cleanup] on the attributes. *)
Lemma combat_cleanup_spec (w : world) (c : obj_id) :
  exists w',
    combat_cleanup c w = (inr tt, w') /\
    (forall k, attr w' c k =
               if is_combat_attr (attr_key k) then VNone else attr w c k) /\
    (forall c' k, c' <> c -> attr w' c' k = attr w c' k) /\
    handler w' = handler w /\ sent w' = sent w /\ room_db w' = room_db w.
Proof.
  eexists. split; [reflexivity|].
  fold (cleaned (obj_attrs w c)).
  split.
  { intros k. unfold attr. rewrite obj_attrs_insert, decide_True by done.
    apply db_get_cleaned. }
  split; [|done].
  intros c' k Hne. unfold attr. by rewrite obj_attrs_insert, decide_False.
Qed.

(** X4. [combat_cleanup] always returns; it removes from the character
    every attribute whose name begins with "combat_" and no other, leaves
    every other object, the turn handler and the messages alone; after it
    the character is not in combat, and a second cleanup changes nothing
    more. *)
Theorem combat_cleanup_effect (w : world) (c : obj_id) :
  exists w',
    combat_cleanup c w = (inr tt, w') /\
    (forall k, attr w' c k =
               if is_combat_attr (attr_key k) then VNone else attr w c k) /\
    (forall c' k, c' <> c -> attr w' c' k = attr w c' k) /\
    handler w' = handler w /\ sent w' = sent w /\ room_db w' = room_db w /\
    is_in_combat c w' = (inr false, w') /\
    combat_cleanup c w' = (inr tt, w').
Proof.
  destruct (combat_cleanup_spec w c) as (w' & Hrun & Ha & Ho & Hh & Hs & Hr).
  exists w'. do 6 (split; [assumption|]). split.
  - rewrite is_in_combat_value, Ha. reflexivity.
  - injection Hrun as <-. unfold combat_cleanup, modify. f_equal.
    rewrite obj_attrs_insert, decide_True by done.
    fold (cleaned (obj_attrs w c)). fold (cleaned (cleaned (obj_attrs w c))).
    rewrite cleaned_idemp.
    unfold with_objs; simpl. by rewrite insert_insert_eq.
Qed.

(** X5. Entering and leaving combat.  [initialize_for_combat] always
    returns and puts the character in combat ([is_in_combat] is True)
    with no actions left and "null" as last action, whatever combat
    attributes were left over from an earlier fight: every other
    "combat_" attribute is gone.  A [combat_cleanup] after it takes the
    character out of combat again, and every attribute that is not a
    combat attribute (health among them) is then as it was before. *)
Theorem enter_and_leave_combat (w : world) (c : obj_id) :
  exists w1 w2,
    initialize_for_combat c w = (inr tt, w1) /\
    is_in_combat c w1 = (inr true, w1) /\
    transient_initialized w1 c /\
    (forall k, is_combat_attr (attr_key k) = true ->
               attr_key "combat_actionsleft" <> attr_key k ->
               attr_key "combat_lastaction" <> attr_key k ->
               attr_key "combat_turnhandler" <> attr_key k ->
               attr w1 c k = VNone) /\
    combat_cleanup c w1 = (inr tt, w2) /\
    is_in_combat c w2 = (inr false, w2) /\
    transient_cleared w2 c /\
    (forall k, is_combat_attr (attr_key k) = false -> attr w2 c k = attr w c k) /\
    (forall c' k, c' <> c -> attr w2 c' k = attr w c' k) /\
    handler w2 = handler w /\ sent w2 = sent w.
Proof.
  destruct (initialize_for_combat_spec c w) as (w1 & Hrun1 & _ & _ & Hh1 & _ & Hs1 & Ha1).
  destruct (combat_cleanup_spec w1 c) as (w2 & Hrun2 & Ha2 & Ho2 & Hh2 & Hs2 & _).
  assert (Hic2 : is_in_combat c w2 = (inr false, w2))
    by (rewrite is_in_combat_value, Ha2; reflexivity).
  assert (Hi : transient_initialized w1 c).
  { unfold transient_initialized. rewrite !Ha1, !decide_True by done. by vm_compute. }
  exists w1, w2. split; [exact Hrun1|]. split.
  { rewrite is_in_combat_value. by rewrite (proj2 (proj2 Hi)). }
  split; [exact Hi|]. split.
  { intros k Hk H1 H2 H3. rewrite Ha1, decide_True by done. unfold init_attr.
    rewrite !decide_False by done. by rewrite Hk. }
  split; [exact Hrun2|]. split; [exact Hic2|]. split.
  { unfold transient_cleared. rewrite !Ha2. by vm_compute. }
  split.
  { intros k Hk. rewrite Ha2, Hk, Ha1, decide_True by done. unfold init_attr.
    assert (Hne : forall k', is_combat_attr (attr_key k') = true ->
                             attr_key k' <> attr_key k) by (intros k' Hk' E; congruence).
    rewrite !decide_False by (apply Hne; by vm_compute). by rewrite Hk. }
  split.
  { intros c' k Hne. rewrite Ho2 by done. rewrite Ha1. by rewrite decide_False. }
  split; congruence.
Qed.

(** *** Rounds of turns (X6, X7) *)

Lemma disengage_check_ext (w w' : world) :
  roster w' = roster w ->
  (forall c, attr w' c "combat_lastaction" = attr w c "combat_lastaction") ->
  disengage_check w' = disengage_check w.
Proof.
  unfold disengage_check, roster. intros -> H.
  induction (fighters (handler w)) as [|x l IH]; [done|].
  simpl. by rewrite H, IH.
Qed.

(** One rotation of a fight that goes on. *)
Lemma rotation_step (w : world) :
  goes_on w ->
  exists w',
    next_turn w = (inr tt, w') /\
    goes_on w' /\
    roster w' = roster w /\
    cursor w' = (cursor w + 1) mod Z.of_nat (length (roster w)) /\
    running (handler w') = running (handler w) /\
    (forall c k, attr_key "combat_actionsleft" <> attr_key k ->
                 attr w' c k = attr w c k).
Proof.
  intros (Hcur & Hd & Hdef & Hhp).
  destruct (py_index_valid (roster w) (cursor w) Hcur) as (cur & Hc & _).
  destruct (next_cursor_valid w Hcur) as [Hnext Hmod].
  destruct (py_index_valid (roster w) (next_cursor w) Hnext) as (new & Hn & Hin).
  destruct (Hhp new Hin) as [h Hh].
  destruct (next_turn_rotates w cur new h Hd Hdef Hc Hn Hh)
    as (w' & Hrun & Hh' & _ & _ & _ & _ & Ha).
  assert (Hr : roster w' = roster w) by (unfold roster; by rewrite Hh').
  assert (Hcu : cursor w' = next_cursor w) by (unfold cursor; by rewrite Hh').
  assert (Hother : forall c k, attr_key "combat_actionsleft" <> attr_key k ->
                               attr w' c k = attr w c k).
  { intros c k Hk. rewrite Ha. case_decide as H; [by destruct H|done]. }
  exists w'. split; [exact Hrun|]. split.
  { unfold goes_on. rewrite Hr, Hcu. split; [exact Hnext|]. split.
    - rewrite (disengage_check_ext w w' Hr); [exact Hd|]. intros c. by apply Hother.
    - split.
      + rewrite (defeated_characters_ext w w' Hr); [exact Hdef|]. intros c. by apply Hother.
      + intros f Hf. destruct (Hhp f Hf) as [hf Hhf]. exists hf. by rewrite Hother. }
  split; [exact Hr|]. split; [by rewrite Hcu|].
  split; [by rewrite Hh'|exact Hother].
Qed.

(** [k] rotations of a fight that goes on. *)
Lemma rotations_run (k : nat) (w : world) :
  goes_on w ->
  exists w',
    rotations k w = (inr tt, w') /\
    goes_on w' /\
    roster w' = roster w /\
    cursor w' = (cursor w + Z.of_nat k) mod Z.of_nat (length (roster w)) /\
    (forall c key, attr_key "combat_actionsleft" <> attr_key key ->
                   attr w' c key = attr w c key).
Proof.
  revert w. induction k as [|k IH]; intros w Hgo.
  - exists w. pose proof Hgo as (Hcur & _).
    split; [reflexivity|]. split; [exact Hgo|]. split; [reflexivity|].
    split; [|done]. rewrite Z.add_0_r. symmetry. apply Z.mod_small. lia.
  - destruct (rotation_step w Hgo) as (w1 & Hrun1 & Hgo1 & Hr1 & Hc1 & _ & Ha1).
    destruct (IH w1 Hgo1) as (w' & Hrun & Hgo' & Hr & Hc & Ha).
    exists w'. change (rotations (S k) w) with ((next_turn ;; rotations k) w).
    rewrite (bind_returns _ _ _ _ _ Hrun1).
    split; [exact Hrun|]. split; [exact Hgo'|]. split; [congruence|].
    split.
    + rewrite Hc, Hr1, Hc1, Zplus_mod_idemp_l. f_equal. lia.
    + intros c key Hk. rewrite Ha, Ha1; done.
Qed.

(** X6. Rotation.  In a fight that goes on, [k] ends of turn in a row
    all return normally and move the cursor [k] slots forward around the
    roster: the participant whose turn it is then is the one [k] slots
    after the first, cyclically, so that every fighter is given a turn in
    roster order, and after as many ends of turn as there are fighters it
    is again the turn of the participant it began with.  The roster and
    every attribute other than the actions left stay as they were. *)
Theorem rotation_round (k : nat) (w : world) :
  goes_on w ->
  exists w',
    rotations k w = (inr tt, w') /\
    goes_on w' /\
    roster w' = roster w /\
    cursor w' = (cursor w + Z.of_nat k) mod Z.of_nat (length (roster w)) /\
    current w' = py_index (roster w)
                   ((cursor w + Z.of_nat k) mod Z.of_nat (length (roster w))) /\
    (k = length (roster w) -> cursor w' = cursor w /\ current w' = current w) /\
    (forall c key, attr_key "combat_actionsleft" <> attr_key key ->
                   attr w' c key = attr w c key).
Proof.
  intros Hgo. pose proof Hgo as (Hcur & _).
  destruct (rotations_run k w Hgo) as (w' & Hrun & Hgo' & Hr & Hc & Ha).
  assert (Ecur : current w' = py_index (roster w)
            ((cursor w + Z.of_nat k) mod Z.of_nat (length (roster w)))).
  { unfold current. by rewrite Hc, Hr. }
  exists w'. do 4 (split; [assumption|]). split; [exact Ecur|].
  split; [|exact Ha].
  intros Ek. rewrite Ecur, Hc, Ek.
  assert (Em : (cursor w + Z.of_nat (length (roster w))) mod
               Z.of_nat (length (roster w)) = cursor w).
  { rewrite <- (Z.mul_1_l (Z.of_nat (length (roster w)))) at 1.
    rewrite Z_mod_plus_full. apply Z.mod_small. lia. }
  by rewrite Em.
Qed.

(** The round of [melee]: three ends of turn bring the turn back to 1. *)
Lemma rotation_round_witness :
  goes_on melee /\
  exists w', rotations 3 melee = (inr tt, w') /\ cursor w' = 0 /\
             current w' = Some 1%nat.
Proof.
  assert (H : goes_on melee).
  { split; [vm_compute; split; [discriminate|reflexivity]|].
    split; [vm_compute; reflexivity|]. split; [vm_compute; discriminate|].
    intros f Hin. change (roster melee) with [1%nat; 2%nat; 3%nat] in Hin.
    apply elem_of_cons in Hin as [->|Hin]; [exists 100; vm_compute; reflexivity|].
    apply elem_of_cons in Hin as [->|Hin]; [exists 20; vm_compute; reflexivity|].
    apply elem_of_cons in Hin as [->|Hin]; [exists 20; vm_compute; reflexivity|].
    by apply elem_of_nil in Hin. }
  split; [exact H|].
  destruct (rotation_round 3 melee H) as (w' & Hrun & _ & _ & _ & _ & Hback & _).
  destruct (Hback eq_refl) as [Hc Hcur].
  exists w'. split; [exact Hrun|]. split; [exact Hc|]. rewrite Hcur. reflexivity.
Defined.

Lemma joined_slot {A} (l : list A) (t : Z) (p : A) :
  0 <= t <= Z.of_nat (length l) ->
  py_index (take (Z.to_nat t) l ++ p :: drop (Z.to_nat t) l) t = Some p.
Proof.
  intros H. rewrite py_index_nonneg by lia.
  rewrite lookup_app_r by (rewrite length_take; lia).
  rewrite length_take.
  replace (Z.to_nat t - Z.to_nat t `min` length l)%nat with 0%nat by lia. done.
Qed.

Lemma filter_insert_length {A} (f : A -> bool) (l : list A) (n : nat) (p : A) :
  f p = false ->
  length (List.filter f (take n l ++ p :: drop n l)) = length (List.filter f l).
Proof.
  intros Hp. rewrite List.filter_app. simpl. rewrite Hp.
  rewrite <- List.filter_app. by rewrite take_drop.
Qed.

(** Joining a fight that goes on, as a character on its feet. *)
Lemma join_keeps_going (w : world) (p : obj_id) (hp : Z) :
  goes_on w ->
  attr w p "hp" = VInt hp -> hp <> 0 ->
  defeated_characters w <> Z.of_nat (length (roster w)) ->
  exists w1,
    join_fight p w = (inr tt, w1) /\
    goes_on w1 /\
    roster w1 = take (Z.to_nat (cursor w)) (roster w) ++
                p :: drop (Z.to_nat (cursor w)) (roster w) /\
    length (roster w1) = S (length (roster w)) /\
    cursor w1 = cursor w + 1.
Proof.
  intros (Hcur & Hd & Hdef & Hhp) Hp Hp0 Hall.
  destruct (join_fight_spec p w) as (w1 & Hrun & Hh & _ & _ & _ & _ & Ha).
  assert (Hr : roster w1 = take (Z.to_nat (cursor w)) (roster w) ++
                           p :: drop (Z.to_nat (cursor w)) (roster w)).
  { transitivity (py_insert (roster w) (cursor w) p);
      [unfold roster; rewrite Hh; reflexivity|]. apply py_insert_valid. lia. }
  assert (Hlen : length (roster w1) = S (length (roster w))).
  { rewrite Hr, length_app. simpl. rewrite length_take, length_drop. lia. }
  assert (Hc : cursor w1 = cursor w + 1) by (unfold cursor; rewrite Hh; reflexivity).
  assert (Hkeep : forall c k, is_combat_attr (attr_key k) = false ->
                              attr w1 c k = attr w c k).
  { intros c k Hk. rewrite Ha. case_decide; [|done]. unfold init_attr.
    assert (Hne : forall k', is_combat_attr (attr_key k') = true ->
                             attr_key k' <> attr_key k) by (intros k' Hk' E; congruence).
    rewrite !decide_False by (apply Hne; by vm_compute). by rewrite Hk. }
  exists w1. split; [exact Hrun|]. split; [|done].
  split; [rewrite Hlen, Hc; lia|]. split.
  { destruct (disengage_check w1) eqn:E; [|done]. exfalso.
    assert (Hin : p ∈ roster w1) by (rewrite Hr; set_solver).
    pose proof (proj1 (disengage_check_true w1) E p Hin) as Hl.
    rewrite Ha, decide_True in Hl by done. by vm_compute in Hl. }
  split.
  { assert (E : defeated_characters w1 = defeated_characters w).
    { unfold defeated_characters. f_equal. fold (roster w1). rewrite Hr.
      rewrite (List.filter_ext _ (fun f => py_eq (attr w f "HP") (VInt 0))).
      - apply filter_insert_length. rewrite attr_HP, Hp. unfold py_eq.
        apply bool_decide_eq_false. congruence.
      - intros c. by rewrite Hkeep. }
    rewrite E, Hlen. lia. }
  intros f Hf. rewrite Hr in Hf.
  assert (Hf' : f = p \/ f ∈ roster w).
  { apply elem_of_app in Hf as [Hf|Hf].
    - right. rewrite <- (take_drop (Z.to_nat (cursor w)) (roster w)).
      apply elem_of_app. by left.
    - apply elem_of_cons in Hf as [->|Hf]; [by left|]. right.
      rewrite <- (take_drop (Z.to_nat (cursor w)) (roster w)).
      apply elem_of_app. by right. }
  destruct Hf' as [->|Hf'].
  - exists hp. by rewrite Hkeep.
  - destruct (Hhp f Hf') as [h Hh']. exists h. by rewrite Hkeep.
Qed.

(** X7. The joiner acts last.  A character on its feet joins a fight
    that goes on and in which someone is still standing: the join
    returns normally, the turn in progress is still the same
    participant's, and the turn of the joiner comes after exactly as many
    ends of turn as the fight had fighters before, that is, after the one
    in progress and a turn of every other earlier fighter; at no earlier
    end of turn does the cursor reach the slot of the joiner. *)
Theorem joiner_acts_last (w : world) (p : obj_id) (hp : Z) :
  goes_on w ->
  attr w p "hp" = VInt hp -> hp <> 0 ->
  defeated_characters w <> Z.of_nat (length (roster w)) ->
  exists w1 w2,
    join_fight p w = (inr tt, w1) /\
    current w1 = current w /\
    rotations (length (roster w)) w1 = (inr tt, w2) /\
    current w2 = Some p /\
    (forall k, (k < length (roster w))%nat ->
       exists wk, rotations k w1 = (inr tt, wk) /\ cursor wk <> cursor w).
Proof.
  intros Hgo Hp Hp0 Hall. pose proof Hgo as (Hcur & _).
  destruct (join_keeps_going w p hp Hgo Hp Hp0 Hall)
    as (w1 & Hrun & Hgo1 & Hr & Hlen & Hc).
  set (n := length (roster w)) in *. set (t := cursor w) in *.
  assert (Hslot : py_index (roster w1) t = Some p).
  { rewrite Hr. apply joined_slot. lia. }
  destruct (rotations_run n w1 Hgo1) as (w2 & Hrun2 & _ & Hr2 & Hc2 & _).
  assert (Hcur2 : current w2 = py_index (roster w1)
            ((cursor w1 + Z.of_nat n) mod Z.of_nat (length (roster w1))))
    by (unfold current; by rewrite Hc2, Hr2).
  exists w1, w2. split; [exact Hrun|]. split.
  { unfold current. rewrite Hr, Hc. fold t.
    rewrite !py_index_nonneg by lia.
    rewrite lookup_app_r by (rewrite length_take; lia).
    rewrite length_take.
    replace (Z.to_nat (t + 1) - Z.to_nat t `min` length (roster w))%nat
      with 1%nat by lia.
    simpl. rewrite lookup_drop. f_equal. lia. }
  split; [exact Hrun2|]. split.
  { rewrite Hcur2, Hc, Hlen.
    replace (t + 1 + Z.of_nat n) with (t + 1 * Z.of_nat (S n)) by lia.
    rewrite Z_mod_plus_full, Z.mod_small by lia. exact Hslot. }
  intros k Hk.
  destruct (rotations_run k w1 Hgo1) as (wk & Hrunk & _ & _ & Hck & _).
  exists wk. split; [exact Hrunk|]. rewrite Hck, Hc, Hlen.
  destruct (Z_lt_le_dec (t + 1 + Z.of_nat k) (Z.of_nat (S n))) as [Hlt|Hge].
  - rewrite Z.mod_small by lia. lia.
  - rewrite <- (Zmod_unique (t + 1 + Z.of_nat k) (Z.of_nat (S n)) 1
               (t + 1 + Z.of_nat k - Z.of_nat (S n))) by lia. lia.
Qed.

(** Object 3, at full health, joins [duel] in the turn of 2; 3 acts
    after two ends of turn. *)
Lemma joiner_acts_last_witness :
  exists w1 w2,
    join_fight 3%nat (with_objs <[3%nat := fighter 100]> duel) = (inr tt, w1) /\
    rotations 2 w1 = (inr tt, w2) /\
    current w2 = Some 3%nat.
Proof.
  destruct (joiner_acts_last (with_objs <[3%nat := fighter 100]> duel) 3%nat 100)
    as (w1 & w2 & Hrun & _ & Hrun2 & Hcur & _).
  - split; [vm_compute; split; [discriminate|reflexivity]|].
    split; [vm_compute; reflexivity|]. split; [vm_compute; discriminate|].
    intros f Hin. change (roster (with_objs <[3%nat := fighter 100]> duel))
      with [2%nat; 1%nat] in Hin.
    apply elem_of_cons in Hin as [->|Hin]; [exists 100; vm_compute; reflexivity|].
    apply elem_of_cons in Hin as [->|Hin]; [exists 100; vm_compute; reflexivity|].
    by apply elem_of_nil in Hin.
  - vm_compute. reflexivity.
  - discriminate.
  - vm_compute. discriminate.
  - exists w1, w2. split; [exact Hrun|]. split; [exact Hrun2|exact Hcur].
Defined.

(** *** Warnings, and the cursor as an invariant (X8, X9, X10) *)

Lemma bind_eq {A B} (m : M A) (k : A -> M B) (w : world) (r : (exn + A) * world) :
  m w = r ->
  (m ≫= k) w = match r with
               | (inl e, w') => (inl e, w')
               | (inr x, w') => k x w'
               end.
Proof. intros <-. reflexivity. Qed.

(** X8. One warning per turn.  While [n] ticks in a row do not exhaust
    the countdown they all return normally and only count down; the
    current participant is warned of the timeout at most once: not at
    all if the warning of this turn has gone out already or the
    countdown is still above 10, and exactly once, with the flag set
    afterwards, if the flag was clear and the countdown has come down to
    10 or less. *)
Theorem one_warning_per_turn (n : nat) (w : world) (cur : obj_id) :
  current w = Some cur ->
  0 <= interval (handler w) ->
  0 < timer (handler w) - Z.of_nat n * interval (handler w) ->
  exists w' new,
    ticks n w = (inr tt, w') /\
    sent w' = sent w ++ new /\
    timer (handler w') = timer (handler w) - Z.of_nat n * interval (handler w) /\
    roster w' = roster w /\ cursor w' = cursor w /\
    (new = [] \/ new = [ToChar cur MsgTimeoutWarning]) /\
    (timeout_warning_given (handler w) = true ->
     new = [] /\ timeout_warning_given (handler w') = true) /\
    (timeout_warning_given (handler w) = false -> 10 < timer (handler w') ->
     new = [] /\ timeout_warning_given (handler w') = false) /\
    (timeout_warning_given (handler w) = false -> (1 <= n)%nat ->
     timer (handler w') <= 10 ->
     new = [ToChar cur MsgTimeoutWarning] /\ timeout_warning_given (handler w') = true).
Proof.
  revert w. induction n as [|n IH]; intros w Hc Hi Ht.
  - exists w, []. rewrite app_nil_r.
    split; [reflexivity|]. split; [reflexivity|]. split; [simpl; lia|].
    do 2 (split; [reflexivity|]). split; [by left|].
    split; [done|]. split; [done|]. intros _ Hn. lia.
  - change (ticks (S n) w) with ((at_repeat ;; ticks n) w).
    rewrite (bind_eq _ _ _ _ (at_repeat_spec w cur Hc)).
    destruct (Z.leb_spec (timer (handler w) - interval (handler w)) 0) as [|Hpos]; [nia|].
    destruct (Z.leb_spec (timer (handler w) - interval (handler w)) 10) as [Hle|Hgt];
      destruct (timeout_warning_given (handler w)) eqn:Hflag; simpl andb; cbv iota beta.
    + destruct (IH (counted_down w)) as (w' & new & Hrun & Hs & Htm & Hr & Hcu & _ & Hset & _);
        [exact Hc|exact Hi|simpl; nia|].
      destruct (Hset Hflag) as [-> Hf'].
      exists w', []. split; [exact Hrun|]. split; [exact Hs|].
      split; [rewrite Htm; simpl; lia|]. do 2 (split; [assumption|]).
      split; [by left|]. split; [done|]. split; [done|]. done.
    + destruct (IH (with_handler (set_timeout_warning_given true)
                     (with_sent (fun l => l ++ [ToChar cur MsgTimeoutWarning])
                        (counted_down w))))
        as (w' & new & Hrun & Hs & Htm & Hr & Hcu & _ & Hset & _);
        [exact Hc|exact Hi|simpl; nia|].
      destruct (Hset eq_refl) as [-> Hf'].
      exists w', [ToChar cur MsgTimeoutWarning]. split; [exact Hrun|].
      split; [rewrite Hs; simpl; by rewrite app_nil_r|].
      split; [rewrite Htm; simpl; lia|]. do 2 (split; [assumption|]).
      split; [by right|]. split; [done|].
      split; [|done]. intros _ Hbig. rewrite Htm in Hbig. simpl in Hbig. nia.
    + destruct (IH (counted_down w)) as (w' & new & Hrun & Hs & Htm & Hr & Hcu & _ & Hset & _);
        [exact Hc|exact Hi|simpl; nia|].
      destruct (Hset Hflag) as [-> Hf'].
      exists w', []. split; [exact Hrun|]. split; [exact Hs|].
      split; [rewrite Htm; simpl; lia|]. do 2 (split; [assumption|]).
      split; [by left|]. split; [done|]. split; [done|]. done.
    + destruct (IH (counted_down w))
        as (w' & new & Hrun & Hs & Htm & Hr & Hcu & Hone & _ & Hclear & Hwarn);
        [exact Hc|exact Hi|simpl; nia|].
      exists w', new. split; [exact Hrun|]. split; [exact Hs|].
      split; [rewrite Htm; simpl; lia|]. do 2 (split; [assumption|]).
      split; [exact Hone|]. split; [done|].
      split; [intros _ Hbig; by apply Hclear|].
      intros _ _ Hsmall. apply Hwarn; [done| |done].
      destruct n as [|n]; [|lia]. exfalso. rewrite Htm in Hsmall. simpl in Hsmall. lia.
Qed.

(** In a fight with the flag clear, five ticks bring the countdown from
    30 to 5 and the one warning has gone out. *)
Lemma one_warning_per_turn_witness :
  current duel = Some 2%nat /\
  exists w', ticks 5 duel = (inr tt, w') /\
             sent w' = sent duel ++ [ToChar 2%nat MsgTimeoutWarning] /\
             timeout_warning_given (handler w') = true.
Proof.
  assert (H : current duel = Some 2%nat) by reflexivity.
  split; [exact H|].
  destruct (one_warning_per_turn 5 duel 2%nat H)
    as (w' & new & Hrun & Hs & Htm & _ & _ & _ & _ & _ & Hwarn);
    [vm_compute; discriminate|vm_compute; reflexivity|].
  destruct Hwarn as [-> Hf]; [reflexivity|lia|rewrite Htm; vm_compute; discriminate|].
  exists w'. split; [exact Hrun|]. split; [exact Hs|exact Hf].
Defined.

Lemma live_same_handler (w w' : world) :
  handler w' = handler w -> live w -> live w'.
Proof. unfold live, roster, cursor. by intros ->. Qed.

Lemma start_turn_handler (c : obj_id) (w : world) :
  handler (start_turn c w).2 = handler w.
Proof.
  unfold start_turn, set_attr. rewrite bind_modify, bind_get_attr.
  by destruct (attr _ c "hp").
Qed.

(** The handler after a rotation, whether the message to the next
    participant can be formatted or not. *)
Lemma next_turn_rotation_handler (w : world) (cur new : obj_id) :
  disengage_check w = false ->
  defeated_characters w <> Z.of_nat (length (roster w)) - 1 ->
  current w = Some cur ->
  py_index (roster w) (next_cursor w) = Some new ->
  handler (next_turn w).2 =
  Script (roster w) (next_cursor w) (TURN_TIMEOUT + next_repeat w)
         false (interval (handler w)) (running (handler w)).
Proof.
  intros H1 H2 H3 H4. unfold next_turn.
  rewrite bind_gets, H1, bind_gets, bind_gets. fold (roster w).
  apply Z.eqb_neq in H2. rewrite H2, bind_gets. cbv beta.
  unfold current, cursor in H3. rewrite (index_Some _ _ _ H3), bind_ret, bind_modify.
  unfold next_cursor, cursor in *.
  destruct (turn (handler w) + 1 >? Z.of_nat (length (roster w)) - 1) eqn:E.
  - mstep. simpl turn. rewrite (index_Some _ _ _ H4). mstep.
    unfold time_until_next_repeat, msg_contents. mstep.
    by rewrite start_turn_handler.
  - mstep. simpl turn. rewrite (index_Some _ _ _ H4). mstep.
    unfold time_until_next_repeat, msg_contents. mstep.
    by rewrite start_turn_handler.
Qed.

Lemma next_turn_live (w : world) :
  live w ->
  live (next_turn w).2 /\ roster (next_turn w).2 = roster w.
Proof.
  intros Hl. destruct (disengage_check w) eqn:Hd.
  - destruct (announce_and_stop MsgAllDisengaged w)
      as (w' & Hrun & _ & _ & Hr & Hc & _).
    rewrite (next_turn_all_disengaged w Hd), Hrun. simpl.
    unfold live. by rewrite Hr, Hc.
  - destruct (Z.eq_dec (defeated_characters w) (Z.of_nat (length (roster w)) - 1))
      as [Hdef|Hdef].
    + destruct (sole_survivor w Hdef) as (c & _ & Hlast).
      destruct (announce_and_stop (MsgOnlyRemains c) w)
        as (w' & Hrun & _ & _ & Hr & Hc & _).
      rewrite (next_turn_last_standing w c Hd Hdef Hlast), Hrun. simpl.
      unfold live. by rewrite Hr, Hc.
    + destruct (py_index_valid (roster w) (cursor w) Hl) as (cur & Hc & _).
      destruct (next_cursor_valid w Hl) as [Hnext _].
      destruct (py_index_valid (roster w) (next_cursor w) Hnext) as (new & Hn & _).
      pose proof (next_turn_rotation_handler w cur new Hd Hdef Hc Hn) as Hh.
      unfold live, roster, cursor in *. rewrite Hh. simpl. done.
Qed.

Lemma turn_end_check_live (c : obj_id) (w : world) :
  live w ->
  live (turn_end_check c w).2 /\ roster (turn_end_check c w).2 = roster w.
Proof.
  intros Hl. unfold turn_end_check. rewrite bind_get_attr.
  destruct (truthy _); [done|]. by apply next_turn_live.
Qed.

Lemma signal_end_of_turn_live (c : obj_id) (w : world) :
  live w ->
  live (signal_end_of_turn c w).2 /\ roster (signal_end_of_turn c w).2 = roster w.
Proof.
  intros Hl. unfold signal_end_of_turn. rewrite bind_get_attr.
  destruct (attr w c "combat_turnhandler"); try done. by apply turn_end_check_live.
Qed.

Lemma spend_action_live (c : obj_id) (actions : amount) (action_name : option string)
  (w : world) :
  live w ->
  live (spend_action c actions action_name w).2 /\
  roster (spend_action c actions action_name w).2 = roster w.
Proof.
  intros Hl.
  assert (Hw : forall z, live (write_actions c z (write_label c action_name w)) /\
                         roster (write_actions c z (write_label c action_name w)) = roster w).
  { intros z. pose proof (write_label_frame c action_name w) as (Hh & _).
    split; [|unfold roster; simpl; by rewrite Hh].
    apply (live_same_handler w); [|done]. simpl. exact Hh. }
  destruct actions as [|n].
  - rewrite spend_action_all. destruct (Hw 0) as [Hl1 Hr1].
    destruct (signal_end_of_turn_live c _ Hl1) as [Hl2 Hr2]. by rewrite Hr2.
  - destruct (attr (write_label c action_name w) c "combat_actionsleft") as [|a| |] eqn:E.
    2:{ rewrite (spend_action_amount c n a) by exact E.
        destruct (Hw (spent a (Amount n))) as [Hl1 Hr1].
        destruct (signal_end_of_turn_live c _ Hl1) as [Hl2 Hr2]. by rewrite Hr2. }
    all: rewrite spend_action_no_number by (intros a; rewrite E; discriminate);
      pose proof (write_label_frame c action_name w) as (Hh & _); simpl;
      (split; [by apply (live_same_handler w)|unfold roster; by rewrite Hh]).
Qed.

(** X9. The cursor stays an index of the roster, and the roster never
    loses a member.  From a state in which the cursor is a valid roster
    index, every operation of the turn handler, however it ends
    (normally or with an exception), leaves the cursor a valid index:
    the end of a turn, the end-of-turn check, spending actions, a tick of
    the timer and a join.  All of them leave the roster as it is, except
    the join, which makes it one longer. *)
Theorem cursor_stays_valid (w : world) :
  live w ->
  (live (next_turn w).2 /\ roster (next_turn w).2 = roster w) /\
  (forall c, live (turn_end_check c w).2 /\ roster (turn_end_check c w).2 = roster w) /\
  (forall c actions action_name,
     live (spend_action c actions action_name w).2 /\
     roster (spend_action c actions action_name w).2 = roster w) /\
  (live (at_repeat w).2 /\ roster (at_repeat w).2 = roster w) /\
  (forall c, live (join_fight c w).2 /\
             length (roster (join_fight c w).2) = S (length (roster w))).
Proof.
  intros Hl. split; [by apply next_turn_live|].
  split; [intros c; by apply turn_end_check_live|].
  split; [intros c actions action_name; by apply spend_action_live|].
  split.
  - destruct (py_index_valid (roster w) (cursor w) Hl) as (cur & Hc & _).
    rewrite (at_repeat_spec w cur Hc).
    destruct (_ <=? 0).
    + apply (spend_action_live cur All (Some "disengage")
               (with_sent (fun l => l ++ [ToRoom (MsgTimedOut cur)]) (counted_down w))).
      exact Hl.
    + destruct (_ && _); simpl; split; done.
  - intros c. destruct (join_fight_spec c w) as (w' & Hrun & Hh & _).
    rewrite Hrun. simpl. unfold live, roster, cursor in *. rewrite Hh. simpl.
    fold (roster w) (cursor w). rewrite py_insert_valid by (unfold roster, cursor; lia).
    rewrite length_app. simpl. rewrite length_take, length_drop.
    unfold roster, cursor. lia.
Qed.

(** The operations on [duel]. *)
Lemma cursor_stays_valid_witness :
  live duel /\
  live (spend_action 2%nat All (Some "pass") duel).2 /\
  live (at_repeat duel).2 /\
  live (join_fight 3%nat duel).2.
Proof.
  assert (H : live duel) by (vm_compute; split; [discriminate|reflexivity]).
  destruct (cursor_stays_valid duel H) as (_ & _ & Hs & Ht & Hj).
  split; [exact H|]. split; [apply Hs|]. split; [apply Ht|apply Hj].
Defined.

(** X10. Creation with nobody to fight.  In a room in which no object
    has a truthy hp, [at_script_creation] raises an index error when it
    turns to the first fighter; by then the room already refers to the
    handler and the empty turn order has been announced.  The roster is
    empty and no object has been touched. *)
Theorem creation_without_fighters (roll : nat -> Z) (w : world) :
  (forall c, c ∈ room_contents w -> truthy (attr w c "hp") = false) ->
  exists w',
    at_script_creation roll w = (inl IndexError, w') /\
    roster w' = [] /\
    db_get (room_db w') "combat_turnhandler" = VScript /\
    sent w' = sent w ++ [ToRoom (MsgTurnOrder [])] /\
    objs w' = objs w.
Proof.
  intros Hnone.
  assert (E : List.filter (eligible w) (room_contents w) = []).
  { induction (room_contents w) as [|x l IH]; [done|]. simpl.
    unfold eligible at 1. rewrite Hnone by (by left).
    apply IH. intros c Hc. apply Hnone. by right. }
  set (w0 := with_handler (fun _ => Script [] 0 0 false 5 true) w).
  eexists. split.
  - unfold at_script_creation. rewrite bind_modify, bind_gets. fold w0.
    rewrite (bind_returns _ _ _ _ _ (collect_fighters _ w0)).
    change (List.filter (eligible w0) (room_contents w0))
      with (List.filter (eligible w) (room_contents w)).
    rewrite E, bind_gets. cbv beta. simpl fighters. simpl for_each.
    rewrite bind_ret, bind_modify, bind_modify, bind_gets. cbv beta.
    unfold msg_contents. rewrite bind_modify.
    simpl fighters. unfold sorted_by_roll, decorate. simpl.
    reflexivity.
  - simpl. split; [reflexivity|]. split; [|done].
    rewrite db_get_set. by rewrite decide_True.
Qed.

(** A room with nothing but the rock. *)
Lemma creation_without_fighters_witness :
  exists w',
    at_script_creation (fun _ => 1)
      (World {[ 3%nat := bystander ]} ∅ [3%nat] (Script [] 0 0 false 0 false) 0 []) =
    (inl IndexError, w') /\
    db_get (room_db w') "combat_turnhandler" = VScript.
Proof.
  destruct (creation_without_fighters (fun _ => 1)
              (World {[ 3%nat := bystander ]} ∅ [3%nat] (Script [] 0 0 false 0 false) 0 []))
    as (w' & Hrun & _ & Hroom & _).
  - intros c Hc. apply list_elem_of_singleton in Hc as ->. vm_compute. reflexivity.
  - exists w'. split; [exact Hrun|exact Hroom].
Defined.

(** *** The commands *)

Lemma lift_returns {A B} (m : M A) (k : A -> Cmd B) (s : session) (x : A) (w' : world) :
  m (state s) = (inr x, w') ->
  (lift m ≫= k) s = k x (Session w' (heard s)).
Proof. intros H. unfold mbind, Cmd_bind, lift. by rewrite H. Qed.

Lemma lift_raises {A B} (m : M A) (k : A -> Cmd B) (s : session) (e : exn) (w' : world) :
  m (state s) = (inl e, w') ->
  (lift m ≫= k) s = (inl (Raised e), Session w' (heard s)).
Proof. intros H. unfold mbind, Cmd_bind, lift. by rewrite H. Qed.

Lemma lift_run {A} (m : M A) (s : session) (o : exn + A) (w' : world) :
  m (state s) = (o, w') ->
  lift m s = (match o with inl e => inl (Raised e) | inr x => inr x end,
              Session w' (heard s)).
Proof. intros H. unfold lift. rewrite H. by destruct o. Qed.

Lemma lift_ok {A} (m : M A) (s : session) (x : A) (w' : world) :
  m (state s) = (inr x, w') -> lift m s = (inr x, Session w' (heard s)).
Proof. intros H. unfold lift. by rewrite H. Qed.

Lemma hear_bind {B} (what : said) (k : unit -> Cmd B) (s : session) :
  (hear what ≫= k) s =
  k tt (Session (state s) (heard s ++ [(length (sent (state s)), what)])).
Proof. reflexivity. Qed.

Lemma session_eta (s : session) : Session (state s) (heard s) = s.
Proof. by destruct s. Qed.

Lemma lift_get_attr {B} (c : obj_id) (key : string) (k : value -> Cmd B) (s : session) :
  (lift (get_attr c key) ≫= k) s = k (attr (state s) c key) s.
Proof.
  rewrite (lift_returns _ _ _ (attr (state s) c key) (state s)) by reflexivity.
  by rewrite session_eta.
Qed.

Lemma lift_is_in_combat {B} (c : obj_id) (k : bool -> Cmd B) (s : session) :
  (lift (is_in_combat c) ≫= k) s =
  k (truthy (attr (state s) c "combat_turnhandler")) s.
Proof.
  rewrite (lift_returns _ _ _ _ (state s) (is_in_combat_value c (state s))).
  by rewrite session_eta.
Qed.

Lemma is_turn_value (c cur : obj_id) (w : world) :
  attr w c "combat_turnhandler" = VScript ->
  current w = Some cur ->
  is_turn c w = (inr (bool_decide (c = cur)), w).
Proof.
  intros Hth Hcur. unfold is_turn. rewrite bind_get_attr, Hth, bind_gets.
  unfold current, roster, cursor in Hcur. by rewrite (index_Some _ _ _ Hcur), bind_ret.
Qed.

Lemma lift_is_turn {B} (c cur : obj_id) (k : bool -> Cmd B) (s : session) :
  attr (state s) c "combat_turnhandler" = VScript ->
  current (state s) = Some cur ->
  (lift (is_turn c) ≫= k) s = k (bool_decide (c = cur)) s.
Proof.
  intros Hth Hcur.
  rewrite (lift_returns _ _ _ _ (state s) (is_turn_value c cur (state s) Hth Hcur)).
  by rewrite session_eta.
Qed.

(** X11. The commands guard the turn.  [attack], [pass] and [disengage]
    of a caller who is in no fight only tell the caller that this can be
    done in combat only; of a caller who is in a fight in which it is the
    turn of another, only that it can be done on the caller's turn only.
    In both cases the command returns and the world is as before: no
    action is spent, no turn ends. *)
Theorem commands_guard_the_turn (d : dice) (defender : option obj_id)
  (caller : obj_id) (cmd : Cmd unit) (s : session) :
  cmd ∈ turn_commands d defender caller ->
  (truthy (attr (state s) caller "combat_turnhandler") = false ->
   cmd s = (inr tt, told s caller OnlyInCombat)) /\
  (forall other,
     attr (state s) caller "combat_turnhandler" = VScript ->
     current (state s) = Some other -> other <> caller ->
     cmd s = (inr tt, told s caller OnlyOnYourTurn)).
Proof.
  intros Hin. unfold turn_commands in Hin.
  apply elem_of_cons in Hin as [->|Hin]; [|apply elem_of_cons in Hin as [->|Hin];
    [|apply list_elem_of_singleton in Hin as ->]].
  - split.
    + intros Hf. unfold CmdAttack. rewrite lift_is_in_combat, Hf. reflexivity.
    + intros other Hth Hcur Hne. unfold CmdAttack.
      rewrite lift_is_in_combat, Hth. cbn [truthy negb].
      rewrite (lift_is_turn _ other) by done.
      rewrite bool_decide_false by congruence. reflexivity.
  - split.
    + intros Hf. unfold CmdPass. rewrite lift_is_in_combat, Hf. reflexivity.
    + intros other Hth Hcur Hne. unfold CmdPass.
      rewrite lift_is_in_combat, Hth. cbn [truthy negb].
      rewrite (lift_is_turn _ other) by done.
      rewrite bool_decide_false by congruence. reflexivity.
  - split.
    + intros Hf. unfold CmdDisengage. rewrite lift_is_in_combat, Hf. reflexivity.
    + intros other Hth Hcur Hne. unfold CmdDisengage.
      rewrite lift_is_in_combat, Hth. cbn [truthy negb].
      rewrite (lift_is_turn _ other) by done.
      rewrite bool_decide_false by congruence. reflexivity.
Qed.

(** In the fight of [duel] it is the turn of 2: 1 cannot pass. *)
Lemma commands_guard_the_turn_witness :
  CmdPass 1%nat (Session duel []) =
  (inr tt, told (Session duel []) 1%nat OnlyOnYourTurn).
Proof.
  refine (proj2 (commands_guard_the_turn (Dice 60 20) None 1%nat (CmdPass 1%nat)
                   (Session duel []) _) 2%nat _ _ _).
  - unfold turn_commands. set_solver.
  - reflexivity.
  - reflexivity.
  - discriminate.
Defined.

Lemma py_index_elem {A} (l : list A) (i : Z) (x : A) :
  py_index l i = Some x -> x ∈ l.
Proof.
  unfold py_index. repeat case_match; try done; apply list_elem_of_lookup_2.
Qed.

Lemma acted_frame (p : obj_id) (name : string) (w : world) :
  handler (acted p name w) = handler w /\
  sent (acted p name w) = sent w /\
  room_db (acted p name w) = room_db w /\
  room_contents (acted p name w) = room_contents w /\
  next_repeat (acted p name w) = next_repeat w.
Proof. unfold acted, write_actions, write_label. by destruct (truthy _). Qed.

Lemma attr_acted (p : obj_id) (name : string) (w : world) (c : obj_id) (k : string) :
  truthy (VStr name) = true ->
  attr (acted p name w) c k =
  if decide (p = c /\ attr_key "combat_actionsleft" = attr_key k) then VInt 0
  else if decide (p = c /\ attr_key "combat_lastaction" = attr_key k) then VStr name
  else attr w c k.
Proof.
  intros Hn. unfold acted. rewrite attr_write_actions, attr_write_label.
  assert (name <> EmptyString) by (intros ->; discriminate).
  repeat case_decide; naive_solver.
Qed.

Lemma spend_all_acted (p : obj_id) (name : string) (w : world) :
  attr w p "combat_turnhandler" = VScript ->
  spend_action p All (Some name) w = next_turn (acted p name w).
Proof.
  intros Hth. rewrite spend_action_all. fold (acted p name w).
  unfold signal_end_of_turn. rewrite bind_get_attr.
  unfold acted at 1. rewrite turnhandler_after_writes, Hth.
  rewrite (turn_end_check_actions _ _ 0); [done|].
  unfold acted. rewrite attr_write_actions. by rewrite decide_True.
Qed.

Lemma spend_last_acted (p : obj_id) (name : string) (a : Z) (w : world) :
  attr w p "combat_turnhandler" = VScript ->
  attr w p "combat_actionsleft" = VInt a -> a <= 1 ->
  spend_action p (Amount 1) (Some name) w = next_turn (acted p name w).
Proof.
  intros Hth Ha Hle.
  rewrite (spend_action_amount p 1 a).
  2:{ rewrite attr_write_label. case_decide as H; [|done]. by destruct H as (_ & _ & ?). }
  replace (spent a (Amount 1)) with 0 by (simpl; lia). fold (acted p name w).
  unfold signal_end_of_turn. rewrite bind_get_attr.
  unfold acted at 1. rewrite turnhandler_after_writes, Hth.
  rewrite (turn_end_check_actions _ _ 0); [done|].
  unfold acted. rewrite attr_write_actions. by rewrite decide_True.
Qed.

(** After an action other than "disengage" the fight does not end by
    agreement. *)
Lemma acted_not_disengaged (p : obj_id) (name : string) (w : world) :
  truthy (VStr name) = true -> name <> "disengage" ->
  p ∈ roster w ->
  disengage_check (acted p name w) = false.
Proof.
  intros Hn Hne Hin. destruct (disengage_check _) eqn:E; [|done].
  pose proof (proj1 (disengage_check_true _) E) as E'. clear E. rename E' into E.
  destruct (acted_frame p name w) as (Hh & _).
  specialize (E p). unfold roster in E at 1. rewrite Hh in E. specialize (E Hin).
  rewrite attr_acted in E by done.
  rewrite decide_False in E by (intros [_ ?]; done).
  rewrite decide_True in E by done. congruence.
Qed.

Lemma acted_defeated (p : obj_id) (name : string) (w : world) :
  truthy (VStr name) = true ->
  defeated_characters (acted p name w) = defeated_characters w.
Proof.
  intros Hn. destruct (acted_frame p name w) as (Hh & _).
  apply defeated_characters_ext; [unfold roster; by rewrite Hh|].
  intros c. rewrite attr_acted by done.
  rewrite !decide_False; [done|by intros [_ ?]|by intros [_ ?]].
Qed.

(** A turn ended on an action other than "disengage", in a fight that is
    not down to its last fighter: the next fighter is up. *)
Lemma acted_rotates (p : obj_id) (name : string) (w : world) :
  truthy (VStr name) = true -> name <> "disengage" ->
  current w = Some p -> 0 <= cursor w ->
  defeated_characters w <> Z.of_nat (length (roster w)) - 1 ->
  (forall f, f ∈ roster w -> exists h, attr w f "hp" = VInt h) ->
  exists w' new h,
    next_turn (acted p name w) = (inr tt, w') /\
    py_index (roster w) (next_cursor w) = Some new /\
    attr w new "hp" = VInt h /\
    handler w' = Script (roster w) (next_cursor w) (TURN_TIMEOUT + next_repeat w)
                        false (interval (handler w)) (running (handler w)) /\
    sent w' = sent w ++ [ToRoom (MsgTurnChange p new); ToChar new (MsgYourTurn h)] /\
    room_db w' = room_db w /\
    forall c k, attr w' c k =
                if decide (new = c /\ attr_key "combat_actionsleft" = attr_key k)
                then VInt ACTIONS_PER_TURN else attr (acted p name w) c k.
Proof.
  intros Hn Hne Hcur Hc0 Hdef Hhp.
  pose proof (py_index_elem _ _ _ Hcur) as Hin.
  pose proof (current_bound w p Hcur Hc0) as Hb.
  destruct (next_cursor_valid w Hb) as [Hnb _].
  destruct (py_index_valid (roster w) (next_cursor w) Hnb) as (new & Hnew & Hnin).
  destruct (Hhp new Hnin) as (h & Hh).
  destruct (acted_frame p name w) as (Ehd & Esent & Erdb & Erc & Enr).
  set (w1 := acted p name w) in *.
  assert (Er : roster w1 = roster w) by (unfold roster; by rewrite Ehd).
  assert (Ec : cursor w1 = cursor w) by (unfold cursor; by rewrite Ehd).
  assert (Enc : next_cursor w1 = next_cursor w) by (unfold next_cursor; by rewrite Er, Ec).
  destruct (next_turn_rotates w1 p new h) as (w' & Hrun & Hh' & Hs' & Hr' & _ & _ & Ha').
  - by apply acted_not_disengaged.
  - rewrite Er. unfold w1. rewrite acted_defeated by done. exact Hdef.
  - unfold current. by rewrite Er, Ec.
  - by rewrite Er, Enc.
  - unfold w1. rewrite attr_acted by done.
    rewrite !decide_False; [done|by intros [_ ?]|by intros [_ ?]].
  - exists w', new, h. split; [exact Hrun|]. split; [exact Hnew|]. split; [exact Hh|].
    split; [by rewrite Hh', Er, Enc, Enr, Ehd|].
    split; [by rewrite Hs', Esent|]. split; [by rewrite Hr', Erdb|]. exact Ha'.
Qed.

(** X12. Passing.  When the fighter whose turn it is passes, in a fight
    that is not down to its last fighter, the command returns, and the
    turn goes to the next fighter of the roster, around its end: the
    countdown starts anew, the room hears of the pass and of the change
    of turn, the next fighter has the actions of a turn and the caller
    has none left (unless the caller is alone in the roster and is up
    again).  The fight does not end, whatever the others did last, and
    nothing but the last action and the actions left changes on any
    character. *)
Theorem pass_hands_over (caller : obj_id) (s : session) :
  attr (state s) caller "combat_turnhandler" = VScript ->
  current (state s) = Some caller -> 0 <= cursor (state s) ->
  defeated_characters (state s) <> Z.of_nat (length (roster (state s))) - 1 ->
  (forall f, f ∈ roster (state s) -> exists h, attr (state s) f "hp" = VInt h) ->
  exists w' new h,
    CmdPass caller s =
      (inr tt, Session w' (heard s ++ [(length (sent (state s)),
                                        RoomHears (PassesTurn caller))])) /\
    roster w' = roster (state s) /\
    cursor w' = (cursor (state s) + 1) mod Z.of_nat (length (roster (state s))) /\
    current w' = Some new /\
    running (handler w') = running (handler (state s)) /\
    timer (handler w') = TURN_TIMEOUT + next_repeat (state s) /\
    sent w' = sent (state s) ++ [ToRoom (MsgTurnChange caller new);
                                 ToChar new (MsgYourTurn h)] /\
    attr w' caller "combat_lastaction" = VStr "pass" /\
    attr w' new "combat_actionsleft" = VInt ACTIONS_PER_TURN /\
    (new <> caller -> attr w' caller "combat_actionsleft" = VInt 0) /\
    (forall c k, attr_key "combat_lastaction" <> attr_key k ->
                 attr_key "combat_actionsleft" <> attr_key k ->
                 attr w' c k = attr (state s) c k).
Proof.
  intros Hth Hcur Hc0 Hdef Hhp.
  destruct (acted_rotates caller "pass" (state s)) as
    (w' & new & h & Hrun & Hnew & Hh & Hh' & Hs' & _ & Ha'); try done.
  pose proof (current_bound _ _ Hcur Hc0) as Hb.
  destruct (next_cursor_valid _ Hb) as [_ Enc].
  exists w', new, h. split.
  { unfold CmdPass. rewrite lift_is_in_combat, Hth. cbn [truthy negb].
    rewrite (lift_is_turn _ caller) by done.
    rewrite bool_decide_true by done. cbn [negb].
    unfold location_msg_contents. rewrite hear_bind.
    apply lift_ok. simpl state. rewrite spend_all_acted by done. exact Hrun. }
  split; [unfold roster; by rewrite Hh'|].
  split; [unfold cursor at 1; by rewrite Hh'|].
  split; [unfold current, roster, cursor; by rewrite Hh'|].
  split; [by rewrite Hh'|]. split; [by rewrite Hh'|]. split; [exact Hs'|].
  split.
  { rewrite Ha', decide_False by (by intros [_ ?]).
    rewrite attr_acted by done.
    rewrite decide_False by (by intros [_ ?]). by rewrite decide_True. }
  split; [by rewrite Ha', decide_True|].
  split.
  { intros Hne. rewrite Ha', decide_False by (by intros [? _]).
    rewrite attr_acted by done. by rewrite decide_True. }
  intros c k Hk1 Hk2. rewrite Ha', decide_False by (by intros [_ ?]).
  rewrite attr_acted by done.
  rewrite !decide_False; [done|by intros [_ ?]|by intros [_ ?]].
Qed.

(** In the fight of [duel] fighter 2, whose turn it is, passes: 1 is up. *)
Lemma pass_hands_over_witness :
  exists w', (CmdPass 2%nat (Session duel [])).1 = inr tt /\
             (CmdPass 2%nat (Session duel [])).2 =
               Session w' [(2%nat, RoomHears (PassesTurn 2%nat))] /\
             current w' = Some 1%nat.
Proof.
  destruct (pass_hands_over 2%nat (Session duel [])) as
    (w' & new & h & Hrun & Hr & Hc & Hcur & _).
  - reflexivity.
  - reflexivity.
  - simpl. unfold cursor. simpl. lia.
  - vm_compute. discriminate.
  - intros f Hf. change (roster (state (Session duel []))) with [2%nat; 1%nat] in Hf.
    apply elem_of_cons in Hf as [->|Hf]; [by exists 100|].
    apply list_elem_of_singleton in Hf as ->. by exists 100.
  - exists w'. rewrite Hrun. split; [reflexivity|]. split; [reflexivity|].
    assert (E : new = 1%nat).
    { unfold current in Hcur. rewrite Hr, Hc in Hcur.
      change (roster (state (Session duel []))) with [2%nat; 1%nat] in Hcur.
      vm_compute in Hcur. congruence. }
    by rewrite <- E.
Defined.

Lemma acted_disengage_check (p : obj_id) (w : world) :
  p ∈ roster w ->
  disengage_check (acted p "disengage" w) = true <->
  forall f, f ∈ roster w -> f <> p ->
            attr w f "combat_lastaction" = VStr "disengage".
Proof.
  intros Hin. destruct (acted_frame p "disengage" w) as (Hh & _).
  rewrite disengage_check_true. unfold roster at 1. rewrite Hh. fold (roster w).
  split.
  - intros H f Hf Hne. specialize (H f Hf). rewrite attr_acted in H by done.
    rewrite !decide_False in H; [done|by intros [? _]|by intros [_ ?]].
  - intros H f Hf. rewrite attr_acted by done.
    rewrite decide_False by (by intros [_ ?]).
    case_decide as E; [done|]. apply H; [done|]. intros ->. by apply E.
Qed.

(** X13. Disengaging.  When the fighter whose turn it is disengages, the
    room hears of it, and the fight ends by agreement exactly when every
    other fighter of the roster disengaged last: then the command
    returns, the room is told that all have disengaged and nothing more,
    the handler has stopped, the room no longer refers to it, and every
    fighter has lost the transient combat fields. *)
Theorem disengage_ends_by_agreement (caller : obj_id) (s : session) :
  attr (state s) caller "combat_turnhandler" = VScript ->
  current (state s) = Some caller ->
  exists o w' new,
    CmdDisengage caller s =
      (o, Session w' (heard s ++ [(length (sent (state s)),
                                   RoomHears (Disengages caller))])) /\
    sent w' = sent (state s) ++ new /\
    (ToRoom MsgAllDisengaged ∈ new <->
     forall f, f ∈ roster (state s) -> f <> caller ->
               attr (state s) f "combat_lastaction" = VStr "disengage") /\
    (ToRoom MsgAllDisengaged ∈ new ->
     o = inr tt /\ new = [ToRoom MsgAllDisengaged] /\ ended w' /\
     db_get (room_db w') "combat_turnhandler" = VNone /\
     forall f, f ∈ roster (state s) -> transient_cleared w' f).
Proof.
  intros Hth Hcur.
  pose proof (py_index_elem _ _ _ Hcur) as Hin.
  destruct (acted_frame caller "disengage" (state s)) as (Ehd & Esent & _).
  assert (Er : roster (acted caller "disengage" (state s)) = roster (state s))
    by (unfold roster; by rewrite Ehd).
  assert (Hrun : forall o w',
    next_turn (acted caller "disengage" (state s)) = (o, w') ->
    CmdDisengage caller s =
      (match o with inl e => inl (Raised e) | inr x => inr x end,
       Session w' (heard s ++ [(length (sent (state s)),
                                RoomHears (Disengages caller))]))).
  { intros o w' Hnt. unfold CmdDisengage.
    rewrite lift_is_in_combat, Hth. cbn [truthy negb].
    rewrite (lift_is_turn _ caller) by done.
    rewrite bool_decide_true by done. cbn [negb].
    unfold location_msg_contents. rewrite hear_bind.
    apply lift_run. simpl state. rewrite spend_all_acted by done. exact Hnt. }
  destruct (disengage_check (acted caller "disengage" (state s))) eqn:Hd.
  - pose proof (proj1 (acted_disengage_check caller (state s) Hin) Hd) as Hall.
    destruct (announce_and_stop MsgAllDisengaged (acted caller "disengage" (state s)))
      as (w' & Hstop & Hs & Hend & _ & _ & _ & Hroom & Hclr & _).
    rewrite <- next_turn_all_disengaged in Hstop by exact Hd.
    exists (inr tt), w', [ToRoom MsgAllDisengaged].
    split; [exact (Hrun _ _ Hstop)|].
    split; [by rewrite Hs, Esent|].
    split; [split; [intros _; exact Hall|intros _; set_solver]|].
    intros _. split; [done|]. split; [done|]. split; [exact Hend|].
    split; [exact Hroom|]. intros f Hf. apply Hclr. by rewrite Er.
  - destruct (next_turn (acted caller "disengage" (state s))) as [o w'] eqn:Hnt.
    destruct (next_turn_otherwise _ _ _ Hd Hnt) as (_ & (new & Hs & Hnot) & _).
    exists (match o with inl e => inl (Raised e) | inr x => inr x end), w', new.
    split; [exact (Hrun _ _ eq_refl)|].
    split; [by rewrite Hs, Esent|].
    split; [|done].
    split; [done|]. intros Hall.
    apply (acted_disengage_check caller (state s) Hin) in Hall. congruence.
Qed.

(** In [duel_truce] fighter 2 has disengaged and it is the turn of 1, who
    disengages too. *)
Lemma disengage_ends_by_agreement_witness :
  exists w', CmdDisengage 1%nat (Session duel_truce []) =
               (inr tt, Session w' [(4%nat, RoomHears (Disengages 1%nat))]) /\
             ended w' /\ transient_cleared w' 1%nat /\ transient_cleared w' 2%nat.
Proof.
  destruct (disengage_ends_by_agreement 1%nat (Session duel_truce []))
    as (o & w' & new & Hrun & _ & Hiff & Hall).
  - reflexivity.
  - reflexivity.
  - destruct Hall as (-> & _ & Hend & _ & Hclr).
    { apply Hiff. intros f Hf Hne.
      change (roster (state (Session duel_truce []))) with [2%nat; 1%nat] in Hf.
      apply elem_of_cons in Hf as [->|Hf]; [reflexivity|].
      apply list_elem_of_singleton in Hf. congruence. }
    exists w'. split; [exact Hrun|]. split; [exact Hend|].
    change (roster (state (Session duel_truce []))) with [2%nat; 1%nat] in Hclr.
    split; apply Hclr; set_solver.
Defined.

Lemma filter_all {A} (g : A -> bool) (l : list A) :
  (forall x, x ∈ l -> g x = true) -> List.filter g l = l.
Proof.
  induction l as [|x l IH]; intros H; [done|]. simpl.
  rewrite (H x) by set_solver. f_equal. apply IH. intros y Hy. apply H. set_solver.
Qed.

Lemma count_others (g : obj_id -> bool) (p : obj_id) (l : list obj_id) :
  NoDup l -> p ∈ l -> g p = false ->
  (forall f, f ∈ l -> f <> p -> g f = true) ->
  S (length (List.filter g l)) = length l.
Proof.
  induction l as [|x l IH]; intros Hnd Hin Hp Hall; [by apply elem_of_nil in Hin|].
  apply NoDup_cons in Hnd as [Hx Hnd]. simpl.
  destruct (decide (x = p)) as [->|Hne].
  - rewrite Hp. rewrite filter_all; [done|].
    intros y Hy. apply Hall; [set_solver|]. intros ->. done.
  - rewrite (Hall x) by set_solver. simpl. f_equal.
    apply IH; [done|set_solver|done|]. intros f Hf. apply Hall. set_solver.
Qed.

(** One fighter of the roster is standing and every other is at 0. *)
Lemma one_standing (w : world) (p : obj_id) :
  NoDup (roster w) -> p ∈ roster w ->
  attr w p "hp" <> VInt 0 ->
  (forall f, f ∈ roster w -> f <> p -> attr w f "hp" = VInt 0) ->
  defeated_characters w = Z.of_nat (length (roster w)) - 1 /\
  LastStanding w = Some p.
Proof.
  intros Hnd Hin Hp Hall.
  assert (Hdef : defeated_characters w = Z.of_nat (length (roster w)) - 1).
  { unfold defeated_characters. fold (roster w).
    rewrite <- (count_others (fun f => py_eq (attr w f "HP") (VInt 0)) p (roster w));
      [lia|done|done| |].
    - unfold py_eq. rewrite attr_HP. by apply bool_decide_eq_false.
    - intros f Hf Hne. unfold py_eq. rewrite attr_HP. apply bool_decide_eq_true.
      by apply Hall. }
  split; [exact Hdef|].
  destruct (sole_survivor w Hdef) as (c & Hflt & Hlast).
  assert (Hpc : p ∈ List.filter (fun f => negb (py_eq (attr w f "HP") (VInt 0)))
                                (roster w)).
  { apply list_elem_of_In, filter_In. split; [by apply list_elem_of_In|].
    unfold py_eq. rewrite attr_HP. apply negb_true_iff. by apply bool_decide_eq_false. }
  rewrite Hflt in Hpc. apply list_elem_of_singleton in Hpc. by rewrite Hpc.
Qed.

Lemma CmdAttack_strikes (d : dice) (caller defender : obj_id) (s : session)
  (hc hd : Z) :
  attr (state s) caller "combat_turnhandler" = VScript ->
  current (state s) = Some caller ->
  attr (state s) caller "hp" = VInt hc -> hc <> 0 ->
  attr (state s) defender "hp" = VInt hd -> hd <> 0 ->
  caller <> defender ->
  CmdAttack d caller (Some defender) s =
  (lift (resolve_attack d caller defender None None None) ;;
   lift (spend_action caller (Amount 1) (Some "attack"))) s.
Proof.
  intros Hth Hcur Hhc Hc0 Hhd Hd0 Hne. unfold CmdAttack.
  rewrite lift_is_in_combat, Hth. cbn [truthy negb].
  rewrite (lift_is_turn _ caller) by done.
  rewrite bool_decide_true by done. cbn [negb].
  rewrite lift_get_attr, Hhc. cbn [truthy].
  rewrite (proj2 (Z.eqb_neq hc 0) Hc0). cbn [negb].
  rewrite lift_get_attr, Hhd. cbn [truthy].
  rewrite (proj2 (Z.eqb_neq hd 0) Hd0). cbn [negb].
  by rewrite bool_decide_false.
Qed.

(** X14. The finishing blow.  The fighter whose turn it is attacks an
    opponent, every other fighter of the roster being at 0 hp already;
    the attack roll is not below the defense of 50 and the damage roll
    not below the hp of the opponent.  Then the command returns and the
    fight is over: the room hears of the hit, of the defeat, and that
    only the attacker remains; the opponent is at 0 hp, the attacker as
    before; the handler has stopped and every fighter has lost the
    transient combat fields. *)
Theorem finishing_blow (d : dice) (caller defender : obj_id) (s : session)
  (hc hd a : Z) :
  attr (state s) caller "combat_turnhandler" = VScript ->
  current (state s) = Some caller ->
  NoDup (roster (state s)) ->
  attr (state s) caller "hp" = VInt hc -> hc <> 0 ->
  attr (state s) defender "hp" = VInt hd -> hd <> 0 ->
  caller <> defender ->
  attr (state s) caller "combat_actionsleft" = VInt a -> a <= 1 ->
  (forall f, f ∈ roster (state s) -> f <> caller -> f <> defender ->
             attr (state s) f "hp" = VInt 0) ->
  50 <= attack_roll d -> hd <= damage_roll d ->
  exists w',
    CmdAttack d caller (Some defender) s = (inr tt, Session w' (heard s)) /\
    sent w' = sent (state s) ++
              [ToRoom (MsgHits caller defender (damage_roll d));
               ToRoom (MsgDefeated defender);
               ToRoom (MsgOnlyRemains caller)] /\
    ended w' /\
    db_get (room_db w') "combat_turnhandler" = VNone /\
    attr w' defender "hp" = VInt 0 /\
    attr w' caller "hp" = VInt hc /\
    forall f, f ∈ roster (state s) -> transient_cleared w' f.
Proof.
  intros Hth Hcur Hnd Hhc Hc0 Hhd Hd0 Hne Ha Hle Hothers Hhit Hdmg.
  pose proof (py_index_elem _ _ _ Hcur) as Hin.
  destruct (resolve_attack_hit (state s) d caller defender None None None hd Hhd)
    as (wr & Hrun & Hdhp & Hsr & Hfr & Hhr & _); [exact Hhit|].
  simpl or_else in Hdhp, Hsr.
  replace (Z.max (hd - damage_roll d) 0) with 0 in Hdhp by lia.
  rewrite (proj2 (Z.leb_le (hd - damage_roll d) 0)) in Hsr by lia.
  destruct (acted_frame caller "attack" wr) as (Ehd & Esent & _).
  set (wa := acted caller "attack" wr) in *.
  assert (Er : roster wa = roster (state s)) by (unfold roster; by rewrite Ehd, Hhr).
  assert (Ehp : forall c, attr wa c "hp" = if decide (c = defender) then VInt 0
                                         else attr (state s) c "hp").
  { intros c.
    assert (E0 : attr wa c "hp" = attr wr c "hp").
    { unfold wa. rewrite attr_acted by done.
      rewrite !decide_False; [done|by intros [_ ?]|by intros [_ ?]]. }
    rewrite E0. case_decide as E; [by rewrite E|]. apply Hfr. by left. }
  destruct (one_standing wa caller) as (Hdef & Hlast).
  { by rewrite Er. }
  { by rewrite Er. }
  { rewrite Ehp, decide_False by done. rewrite Hhc. congruence. }
  { intros f Hf Hfc. rewrite Ehp. case_decide as E; [done|].
    rewrite Er in Hf. by apply Hothers. }
  destruct (announce_and_stop (MsgOnlyRemains caller) wa)
    as (w' & Hstop & Hs & Hend & _ & _ & _ & Hroom & Hclr & _ & Hattr & _).
  rewrite <- (next_turn_last_standing wa caller) in Hstop;
    [|apply acted_not_disengaged; [done|done|unfold roster; rewrite Hhr; exact Hin]
     |exact Hdef|exact Hlast].
  exists w'. split.
  { rewrite (CmdAttack_strikes d caller defender s hc hd) by done.
    rewrite (lift_returns _ _ _ _ _ Hrun).
    apply (lift_ok _ (Session wr (heard s))). simpl state.
    rewrite (spend_last_acted caller "attack" a).
    - exact Hstop.
    - rewrite Hfr by (by right). exact Hth.
    - rewrite Hfr by (by right). exact Ha.
    - exact Hle. }
  split; [rewrite Hs, Esent, Hsr; by rewrite <- app_assoc|].
  split; [exact Hend|]. split; [exact Hroom|].
  split; [rewrite Hattr by done; rewrite Ehp; by rewrite decide_True|].
  split; [rewrite Hattr by done; rewrite Ehp; by rewrite decide_False|].
  intros f Hf. apply Hclr. by rewrite Er.
Qed.

(** In [showdown] fighter 1 rolls 60 to hit and 25 for the damage on 3. *)
Lemma finishing_blow_witness :
  exists w', CmdAttack (Dice 60 25) 1%nat (Some 3%nat) (Session showdown []) =
               (inr tt, Session w' []) /\
             ended w' /\
             sent w' = [ToRoom (MsgHits 1%nat 3%nat 25); ToRoom (MsgDefeated 3%nat);
                        ToRoom (MsgOnlyRemains 1%nat)].
Proof.
  destruct (finishing_blow (Dice 60 25) 1%nat 3%nat (Session showdown []) 100 20 1)
    as (w' & Hrun & Hs & Hend & _).
  - reflexivity.
  - reflexivity.
  - change (roster (state (Session showdown []))) with [1%nat; 2%nat; 3%nat].
    repeat (apply NoDup_cons; split; [set_solver|]). apply NoDup_nil_2.
  - reflexivity.
  - lia.
  - reflexivity.
  - lia.
  - lia.
  - reflexivity.
  - lia.
  - intros f Hf H1 H3.
    change (roster (state (Session showdown []))) with [1%nat; 2%nat; 3%nat] in Hf.
    apply elem_of_cons in Hf as [->|Hf]; [done|].
    apply elem_of_cons in Hf as [->|Hf]; [reflexivity|].
    apply list_elem_of_singleton in Hf. done.
  - simpl. lia.
  - simpl. lia.
  - exists w'. split; [exact Hrun|]. split; [exact Hend|exact Hs].
Defined.

Lemma resolve_attack_miss (w : world) (d : dice) (attacker defender : obj_id) :
  attack_roll d < 50 ->
  resolve_attack d attacker defender None None None w =
  (inr tt, with_sent (fun l => l ++ [ToRoom (MsgMisses attacker defender)]) w).
Proof.
  intros H. unfold resolve_attack. cbv zeta. unfold get_attack, get_defense.
  unfold or_else. by rewrite (proj2 (Z.ltb_lt _ _) H).
Qed.

(** X15. A miss costs the turn.  The fighter whose turn it is, with no
    more than one action left, attacks an opponent and rolls below the
    defense of 50, in a fight that is not down to its last fighter.  The
    command returns; the room hears of the miss and of the change of
    turn, nobody's hp changes, and the turn goes to the next fighter of
    the roster, the attacker being left without actions (unless alone in
    the roster and up again). *)
Theorem missed_attack_costs_the_turn (d : dice) (caller defender : obj_id)
  (s : session) (hc hd a : Z) :
  attr (state s) caller "combat_turnhandler" = VScript ->
  current (state s) = Some caller -> 0 <= cursor (state s) ->
  attr (state s) caller "hp" = VInt hc -> hc <> 0 ->
  attr (state s) defender "hp" = VInt hd -> hd <> 0 ->
  caller <> defender ->
  attr (state s) caller "combat_actionsleft" = VInt a -> a <= 1 ->
  defeated_characters (state s) <> Z.of_nat (length (roster (state s))) - 1 ->
  (forall f, f ∈ roster (state s) -> exists h, attr (state s) f "hp" = VInt h) ->
  attack_roll d < 50 ->
  exists w' new h,
    CmdAttack d caller (Some defender) s = (inr tt, Session w' (heard s)) /\
    sent w' = sent (state s) ++ [ToRoom (MsgMisses caller defender);
                                 ToRoom (MsgTurnChange caller new);
                                 ToChar new (MsgYourTurn h)] /\
    roster w' = roster (state s) /\
    cursor w' = (cursor (state s) + 1) mod Z.of_nat (length (roster (state s))) /\
    current w' = Some new /\
    (forall c, attr w' c "hp" = attr (state s) c "hp") /\
    attr w' caller "combat_lastaction" = VStr "attack" /\
    attr w' new "combat_actionsleft" = VInt ACTIONS_PER_TURN /\
    (new <> caller -> attr w' caller "combat_actionsleft" = VInt 0).
Proof.
  intros Hth Hcur Hc0 Hhc Hhc0 Hhd Hhd0 Hne Ha Hle Hdef Hhp Hmiss.
  set (wr := with_sent (fun l => l ++ [ToRoom (MsgMisses caller defender)]) (state s)).
  destruct (acted_rotates caller "attack" wr) as
    (w' & new & h & Hrun & Hnew & Hh & Hh' & Hs' & _ & Ha'); try done.
  pose proof (current_bound _ _ Hcur Hc0) as Hb.
  destruct (next_cursor_valid _ Hb) as [_ Enc].
  change (roster wr) with (roster (state s)) in *.
  change (next_cursor wr) with (next_cursor (state s)) in *.
  exists w', new, h. split.
  { rewrite (CmdAttack_strikes d caller defender s hc hd) by done.
    rewrite (lift_returns _ _ _ _ _ (resolve_attack_miss (state s) d caller defender Hmiss)).
    apply (lift_ok _ (Session wr (heard s))). simpl state.
    rewrite (spend_last_acted caller "attack" a); done. }
  split; [rewrite Hs'; unfold wr; simpl; by rewrite <- app_assoc|].
  split; [unfold roster at 1; by rewrite Hh'|].
  split; [unfold cursor at 1; by rewrite Hh'|].
  split; [unfold current, roster, cursor; by rewrite Hh'|].
  split.
  { intros c. rewrite Ha', decide_False by (by intros [_ ?]).
    rewrite attr_acted by done.
    rewrite !decide_False; [done|by intros [_ ?]|by intros [_ ?]]. }
  split.
  { rewrite Ha', decide_False by (by intros [_ ?]).
    rewrite attr_acted by done.
    rewrite decide_False by (by intros [_ ?]). by rewrite decide_True. }
  split; [by rewrite Ha', decide_True|].
  intros Hnc. rewrite Ha', decide_False by (by intros [? _]).
  rewrite attr_acted by done. by rewrite decide_True.
Qed.

(** In the fight of [duel] fighter 2 rolls 30 to hit 1. *)
Lemma missed_attack_costs_the_turn_witness :
  exists w', CmdAttack (Dice 30 20) 2%nat (Some 1%nat) (Session duel []) =
               (inr tt, Session w' []) /\
             current w' = Some 1%nat /\
             attr w' 1%nat "hp" = VInt 100.
Proof.
  destruct (missed_attack_costs_the_turn (Dice 30 20) 2%nat 1%nat (Session duel [])
              100 100 1)
    as (w' & new & h & Hrun & _ & Hr & Hc & Hcur & Hhp & _).
  - reflexivity.
  - reflexivity.
  - unfold cursor. simpl. lia.
  - reflexivity.
  - lia.
  - reflexivity.
  - lia.
  - lia.
  - reflexivity.
  - lia.
  - vm_compute. discriminate.
  - intros f Hf. change (roster (state (Session duel []))) with [2%nat; 1%nat] in Hf.
    apply elem_of_cons in Hf as [->|Hf]; [by exists 100|].
    apply list_elem_of_singleton in Hf as ->. by exists 100.
  - simpl. lia.
  - exists w'. split; [exact Hrun|].
    assert (E : new = 1%nat).
    { unfold current in Hcur. rewrite Hr, Hc in Hcur.
      change (roster (state (Session duel []))) with [2%nat; 1%nat] in Hcur.
      vm_compute in Hcur. congruence. }
    split; [by rewrite <- E|]. by rewrite Hhp.
Defined.

Lemma lift_gets {A B} (f : world -> A) (k : A -> Cmd B) (s : session) :
  (lift (gets f) ≫= k) s = k (f (state s)) s.
Proof.
  rewrite (lift_returns _ _ _ (f (state s)) (state s)) by reflexivity.
  by rewrite session_eta.
Qed.

Lemma able_eligible (w : world) (l : list obj_id) :
  List.filter (fun thing => truthy (attr w thing "HP")) l = List.filter (eligible w) l.
Proof. apply filter_ext. intros c. unfold eligible. by rewrite attr_HP. Qed.

Lemma CmdFight_refused (roll : nat -> Z) (caller : obj_id) (s : session) (n : notice) :
  fight_refusal (state s) caller = Some n ->
  CmdFight roll caller s = (inr tt, told s caller n).
Proof.
  unfold fight_refusal, CmdFight. rewrite lift_get_attr.
  destruct (truthy (attr (state s) caller "hp")); cbn [negb];
    [|intros [= <-]; reflexivity].
  rewrite lift_is_in_combat.
  destruct (truthy (attr (state s) caller "combat_turnhandler"));
    [intros [= <-]; reflexivity|].
  rewrite lift_gets, able_eligible.
  destruct (Nat.leb_spec (length (List.filter (eligible (state s))
                                              (room_contents (state s)))) 1) as [H|H].
  - intros [= <-]. by rewrite (proj2 (Z.leb_le _ 1)) by lia.
  - discriminate.
Qed.

Lemma CmdFight_accepted (roll : nat -> Z) (caller : obj_id) (s : session) :
  fight_refusal (state s) caller = None ->
  CmdFight roll caller s =
  (th ← lift (gets (fun w => db_get (room_db w) "combat_turnhandler"));
   if truthy th then
     location_msg_contents (JoinsFight caller) ;;
     match th with
     | VScript => lift (join_fight caller)
     | _ => throw (Raised (AttributeError "join_fight"))
     end
   else
     location_msg_contents (StartsFight caller) ;;
     lift (scripts_add roll)) s /\
  truthy (attr (state s) caller "hp") = true /\
  truthy (attr (state s) caller "combat_turnhandler") = false /\
  (2 <= length (List.filter (eligible (state s)) (room_contents (state s))))%nat.
Proof.
  unfold fight_refusal, CmdFight. rewrite lift_get_attr.
  destruct (truthy (attr (state s) caller "hp")); cbn [negb]; [|discriminate].
  rewrite lift_is_in_combat.
  destruct (truthy (attr (state s) caller "combat_turnhandler")); [discriminate|].
  rewrite lift_gets, able_eligible.
  destruct (Nat.leb_spec (length (List.filter (eligible (state s))
                                              (room_contents (state s)))) 1) as [H|H];
    [discriminate|].
  intros _. rewrite (proj2 (Z.leb_gt _ 1)) by lia. split; [reflexivity|].
  split; [done|]. split; [done|lia].
Qed.

(** X16. No fight without two able fighters.  [fight] of a caller whose
    hp is absent or 0, of a caller who is in a fight, or in a room with
    fewer than two objects of nonzero hp only tells the caller so, in
    this order of precedence: the command returns, no turn handler is
    created, and the world is as before. *)
Theorem fight_refused (roll : nat -> Z) (caller : obj_id) (s : session) :
  truthy (attr (state s) caller "hp") = false \/
  truthy (attr (state s) caller "combat_turnhandler") = true \/
  (length (List.filter (eligible (state s)) (room_contents (state s))) <= 1)%nat ->
  exists n,
    fight_refusal (state s) caller = Some n /\
    CmdFight roll caller s = (inr tt, told s caller n) /\
    (truthy (attr (state s) caller "hp") = false -> n = CantStartDefeated) /\
    (truthy (attr (state s) caller "hp") = true ->
     truthy (attr (state s) caller "combat_turnhandler") = true ->
     n = AlreadyInFight) /\
    (truthy (attr (state s) caller "hp") = true ->
     truthy (attr (state s) caller "combat_turnhandler") = false ->
     n = NobodyToFight).
Proof.
  intros H.
  assert (exists n, fight_refusal (state s) caller = Some n) as [n Hn].
  { unfold fight_refusal.
    destruct (truthy (attr (state s) caller "hp")); cbn [negb]; [|by eexists].
    destruct (truthy (attr (state s) caller "combat_turnhandler")); [by eexists|].
    destruct H as [H|[H|H]]; [done|done|].
    rewrite (proj2 (Nat.leb_le _ 1) H). by eexists. }
  exists n. split; [exact Hn|]. split; [by apply CmdFight_refused|].
  unfold fight_refusal in Hn.
  destruct (truthy (attr (state s) caller "hp")); cbn [negb] in Hn.
  - destruct (truthy (attr (state s) caller "combat_turnhandler")).
    + injection Hn as <-. by repeat split.
    + destruct (_ <=? _)%nat; [|done]. injection Hn as <-. by repeat split.
  - injection Hn as <-. by repeat split.
Qed.

(** Object 3 of [quiet_room] has no health: it cannot start a fight. *)
Lemma fight_refused_witness :
  CmdFight (fun _ => 1) 3%nat (Session quiet_room []) =
  (inr tt, told (Session quiet_room []) 3%nat CantStartDefeated).
Proof.
  destruct (fight_refused (fun _ => 1) 3%nat (Session quiet_room []))
    as (n & _ & Hrun & Hn & _).
  - left. reflexivity.
  - rewrite Hrun, Hn; reflexivity.
Defined.

(** X17. Starting a fight.  [fight] of an able caller who is in no fight,
    in a room without a fight and with at least two objects of nonzero
    hp (each hp a number), returns and creates the turn handler: the room
    hears that the caller starts a fight, then the turn order, and the
    first fighter is told of the turn; the roster is made of exactly
    the able objects of the room, at least two, in the order of their
    initiative rolls, each of them referring to the handler; the cursor
    is on the first, and the room refers to the handler.  The countdown
    is at 25 and no warning has gone out: creation sets it to 30, and
    the tick that fires as the script starts has taken its 5 seconds
    off.  The caller, being in the room, is in the roster. *)
Theorem fight_starts (roll : nat -> Z) (caller : obj_id) (s : session) :
  fight_refusal (state s) caller = None ->
  truthy (db_get (room_db (state s)) "combat_turnhandler") = false ->
  (forall c, c ∈ List.filter (eligible (state s)) (room_contents (state s)) ->
             exists h, attr (state s) c "hp" = VInt h) ->
  exists w' first h,
    CmdFight roll caller s =
      (inr tt, Session w' (heard s ++ [(length (sent (state s)),
                                        RoomHears (StartsFight caller))])) /\
    handler w' =
      Script (sorted_by_roll roll
                (List.filter (eligible (state s)) (room_contents (state s))))
             0 (TURN_TIMEOUT - 5) false 5 true /\
    timer (handler w') = 25 /\
    sent w' = sent (state s) ++
              [ToRoom (MsgTurnOrder (roster w')); ToChar first (MsgYourTurn h)] /\
    roster w' ≡ₚ List.filter (eligible (state s)) (room_contents (state s)) /\
    (2 <= length (roster w'))%nat /\
    current w' = Some first /\
    attr w' first "combat_actionsleft" = VInt ACTIONS_PER_TURN /\
    db_get (room_db w') "combat_turnhandler" = VScript /\
    (forall f, f ∈ roster w' -> attr w' f "combat_turnhandler" = VScript) /\
    (caller ∈ room_contents (state s) -> caller ∈ roster w').
Proof.
  intros Hok Hroom Hnum.
  destruct (CmdFight_accepted roll caller s Hok) as (Hcmd & Hhp & Hth & Htwo).
  set (fs := List.filter (eligible (state s)) (room_contents (state s))) in *.
  destruct (at_script_creation_spec roll (state s)) as
    (w0 & first & h & Hrun & Hfirst & _ & Hh & Hs & Hrdb & _ & _ & Ha).
  { fold fs. intros E. rewrite E in Htwo. simpl in Htwo. lia. }
  { exact Hnum. }
  fold fs in Hfirst, Hh, Hs, Ha.
  assert (Hcur0 : current w0 = Some first).
  { unfold current, roster, cursor. rewrite Hh. simpl.
    rewrite py_index_nonneg by lia. simpl.
    by destruct (sorted_by_roll roll fs). }
  assert (Htick : at_repeat w0 = (inr tt, counted_down w0)).
  { rewrite (at_repeat_spec w0 first Hcur0). by rewrite Hh. }
  assert (Hh' : handler (counted_down w0) =
                Script (sorted_by_roll roll fs) 0 (TURN_TIMEOUT - 5) false 5 true).
  { unfold counted_down. cbn [handler with_handler]. by rewrite Hh. }
  assert (Ha' : forall c k, attr (counted_down w0) c k = attr w0 c k)
    by (intros; apply attr_with_handler).
  assert (Hperm : roster (counted_down w0) ≡ₚ fs).
  { unfold roster. rewrite Hh'. apply sorted_by_roll_Permutation. }
  exists (counted_down w0), first, h. split.
  { rewrite Hcmd, lift_gets, Hroom.
    unfold location_msg_contents. rewrite hear_bind.
    apply lift_ok. unfold scripts_add. cbn [state].
    rewrite (bind_returns _ _ _ _ _ Hrun). exact Htick. }
  split; [exact Hh'|]. split; [by rewrite Hh'|].
  split.
  { unfold roster. rewrite Hh'. cbn [fighters].
    change (sent (counted_down w0)) with (sent w0). exact Hs. }
  split; [exact Hperm|].
  split; [by rewrite Hperm|].
  split; [unfold current, roster, cursor in *; by rewrite Hh', <- Hcur0, Hh|].
  split; [by rewrite Ha', Ha, decide_True|].
  split.
  { change (room_db (counted_down w0)) with (room_db w0).
    rewrite Hrdb; unfold db_get, db_set; by rewrite lookup_insert_eq. }
  split.
  { intros f Hf. rewrite Hperm in Hf. rewrite Ha', Ha.
    rewrite decide_False by (by intros [_ ?]).
    rewrite decide_True by done. unfold init_attr.
    rewrite decide_False by done. by rewrite decide_True. }
  intros Hin. rewrite Hperm. apply list_elem_of_In, filter_In.
  split; [by apply list_elem_of_In|exact Hhp].
Qed.

(** Object 1 starts the fight in [quiet_room]; both roll the same. *)
Lemma fight_starts_witness :
  exists w', CmdFight (fun _ => 1) 1%nat (Session quiet_room []) =
               (inr tt, Session w' [(0%nat, RoomHears (StartsFight 1%nat))]) /\
             roster w' ≡ₚ [1%nat; 2%nat] /\
             timer (handler w') = 25 /\
             db_get (room_db w') "combat_turnhandler" = VScript.
Proof.
  destruct (fight_starts (fun _ => 1) 1%nat (Session quiet_room []))
    as (w' & first & h & Hrun & _ & Htm & _ & Hperm & _ & _ & _ & Hroom & _).
  - reflexivity.
  - reflexivity.
  - intros c Hc.
    change (List.filter (eligible (state (Session quiet_room [])))
              (room_contents (state (Session quiet_room [])))) with [1%nat; 2%nat] in Hc.
    apply elem_of_cons in Hc as [->|Hc]; [by exists 100|].
    apply list_elem_of_singleton in Hc as ->. by exists 100.
  - exists w'. split; [exact Hrun|]. split; [exact Hperm|].
    split; [exact Htm|exact Hroom].
Defined.

Lemma py_insert_Permutation {A} (l : list A) (i : Z) (x : A) :
  py_insert l i x ≡ₚ x :: l.
Proof.
  unfold py_insert. rewrite <- Permutation_middle. by rewrite take_drop.
Qed.

(** X18. Joining a fight.  [fight] of an able caller who is in no fight,
    in a room that refers to its turn handler and has at least two
    objects of nonzero hp, returns: the room hears that the caller joins,
    and the caller enters the roster, once.  If the roster was without
    repetition and each of its fighters referred to the handler, this is
    so afterwards too; the other fighters, the countdown and the
    messages of the handler are untouched, and with the cursor on a
    fighter the turn stays with that fighter. *)
Theorem fight_joins (roll : nat -> Z) (caller : obj_id) (s : session) :
  fight_refusal (state s) caller = None ->
  db_get (room_db (state s)) "combat_turnhandler" = VScript ->
  enrolled (state s) ->
  exists w',
    CmdFight roll caller s =
      (inr tt, Session w' (heard s ++ [(length (sent (state s)),
                                        RoomHears (JoinsFight caller))])) /\
    roster w' = py_insert (roster (state s)) (cursor (state s)) caller /\
    roster w' ≡ₚ caller :: roster (state s) /\
    enrolled w' /\
    transient_initialized w' caller /\
    (0 <= cursor (state s) < Z.of_nat (length (roster (state s))) ->
     current w' = current (state s)) /\
    timer (handler w') = timer (handler (state s)) /\
    sent w' = sent (state s) /\
    (forall c k, c <> caller -> attr w' c k = attr (state s) c k).
Proof.
  intros Hok Hroom [Hnd Hall].
  destruct (CmdFight_accepted roll caller s Hok) as (Hcmd & Hhp & Hth & Htwo).
  destruct (join_fight_spec caller (state s)) as
    (w' & Hrun & Hh & _ & _ & _ & Hs & Ha).
  assert (Hr : roster w' = py_insert (roster (state s)) (cursor (state s)) caller)
    by (unfold roster at 1; by rewrite Hh).
  assert (Hnotin : caller ∉ roster (state s)).
  { intros Hin. apply Hall in Hin. rewrite Hin in Hth. discriminate. }
  exists w'. split.
  { rewrite Hcmd, lift_gets, Hroom. cbn [truthy].
    unfold location_msg_contents. rewrite hear_bind.
    apply lift_ok. exact Hrun. }
  split; [exact Hr|]. split; [rewrite Hr; apply py_insert_Permutation|].
  split.
  { split.
    - rewrite Hr, py_insert_Permutation. by apply NoDup_cons.
    - intros f Hf. rewrite Hr, py_insert_Permutation in Hf. rewrite Ha.
      case_decide as E.
      + unfold init_attr. rewrite decide_False by done. by rewrite decide_True.
      + apply Hall. apply elem_of_cons in Hf as [->|Hf]; done. }
  split.
  { unfold transient_initialized. rewrite !Ha, !decide_True by done.
    split; [|split]; reflexivity. }
  split.
  { intros Hb.
    assert (Hc : cursor w' = cursor (state s) + 1)
      by (unfold cursor at 1; by rewrite Hh).
    unfold current. rewrite Hr, Hc.
    rewrite py_insert_valid by lia.
    rewrite !py_index_nonneg by lia.
    rewrite lookup_app_r by (rewrite length_take; lia).
    rewrite length_take.
    replace (Z.to_nat (cursor (state s) + 1) -
             Z.to_nat (cursor (state s)) `min` length (roster (state s)))%nat
      with 1%nat by lia.
    simpl. rewrite lookup_drop. f_equal. lia. }
  split; [by rewrite Hh|]. split; [exact Hs|].
  intros c k Hne. rewrite Ha. by rewrite decide_False.
Qed.

(** Object 3 joins the fight of 2 and 1 in [duel_watched]. *)
Lemma fight_joins_witness :
  exists w', CmdFight (fun _ => 1) 3%nat (Session duel_watched []) =
               (inr tt, Session w' [(0%nat, RoomHears (JoinsFight 3%nat))]) /\
             roster w' = [3%nat; 2%nat; 1%nat] /\
             current w' = Some 2%nat.
Proof.
  destruct (fight_joins (fun _ => 1) 3%nat (Session duel_watched []))
    as (w' & Hrun & Hr & _ & _ & _ & Hcur & _).
  - reflexivity.
  - reflexivity.
  - split.
    + change (roster (state (Session duel_watched []))) with [2%nat; 1%nat].
      repeat (apply NoDup_cons; split; [set_solver|]). apply NoDup_nil_2.
    + intros f Hf.
      change (roster (state (Session duel_watched []))) with [2%nat; 1%nat] in Hf.
      apply elem_of_cons in Hf as [->|Hf]; [reflexivity|].
      apply list_elem_of_singleton in Hf as ->. reflexivity.
  - exists w'. split; [exact Hrun|]. split; [rewrite Hr; reflexivity|].
    rewrite Hcur; [reflexivity|]. unfold cursor, roster. simpl. lia.
Defined.

(** *** Resting, and the uses of an item *)

Lemma lift_modify {B} (f : world -> world) (k : unit -> Cmd B) (s : session) :
  (lift (modify f) ≫= k) s = k tt (Session (f (state s)) (heard s)).
Proof. reflexivity. Qed.

Lemma throw_bind {A B} (e : error) (k : A -> Cmd B) (s : session) :
  (throw e ≫= k) s = (inl e, s).
Proof. reflexivity. Qed.

(** X19. Resting.  A fighter of a fight in progress cannot rest: the
    command only tells the caller so.  Once the fight is over, each of
    its fighters can: the command returns, the room hears of it, and
    the hp of the caller is what its [max_hp] was, nothing else having
    changed since the end of the fight. *)
Theorem rest_after_the_fight (m : message) (f : obj_id) (s : session) :
  f ∈ roster (state s) ->
  truthy (attr (state s) f "combat_turnhandler") = true ->
  CmdRest f s = (inr tt, told s f CantRestInCombat) /\
  exists w1 w2,
    (msg_contents m ;; stop) (state s) = (inr tt, w1) /\
    CmdRest f (Session w1 (heard s)) =
      (inr tt, Session w2 (heard s ++ [(length (sent w1), RoomHears (Rests f))])) /\
    attr w2 f "hp" = attr (state s) f "max_hp" /\
    (forall c k, c <> f \/ attr_key "hp" <> attr_key k ->
                 attr w2 c k = attr w1 c k) /\
    handler w2 = handler w1 /\ sent w2 = sent w1 /\ room_db w2 = room_db w1.
Proof.
  intros Hin Hth. split.
  { unfold CmdRest. by rewrite lift_is_in_combat, Hth. }
  destruct (announce_and_stop m (state s))
    as (w1 & Hrun & _ & _ & _ & _ & _ & _ & Hclr & _ & Hkeep & _).
  destruct (Hclr f Hin) as (_ & _ & Hth1).
  exists w1, (with_objs <[f := db_set (obj_attrs w1 f) "hp" (attr w1 f "max_hp")]> w1).
  split; [exact Hrun|]. split.
  { unfold CmdRest. rewrite lift_is_in_combat. cbn [state]. rewrite Hth1.
    cbn [truthy]. rewrite lift_get_attr. cbn [state].
    unfold set_attr. rewrite lift_modify. reflexivity. }
  split; [rewrite attr_set_attr, decide_True by done; by apply Hkeep|].
  split; [|done].
  intros c k Hck. rewrite attr_set_attr. case_decide as E; [naive_solver|done].
Qed.

(** Fighter 1 of [duel], during the fight and after it. *)
Lemma rest_after_the_fight_witness :
  CmdRest 1%nat (Session duel []) =
    (inr tt, told (Session duel []) 1%nat CantRestInCombat) /\
  exists w1 w2,
    (msg_contents MsgAllDisengaged ;; stop) duel = (inr tt, w1) /\
    (CmdRest 1%nat (Session w1 [])).1 = inr tt /\
    (CmdRest 1%nat (Session w1 [])).2.(state) = w2 /\
    attr w2 1%nat "hp" = VInt 100.
Proof.
  destruct (rest_after_the_fight MsgAllDisengaged 1%nat (Session duel []))
    as (Hno & w1 & w2 & Hstop & Hrest & Hhp & _).
  - change (roster (state (Session duel []))) with [2%nat; 1%nat]. set_solver.
  - reflexivity.
  - split; [exact Hno|]. exists w1, w2. split; [exact Hstop|].
    cbn [heard state] in Hrest. rewrite Hrest. split; [reflexivity|]. split; [reflexivity|].
    rewrite Hhp. reflexivity.
Defined.

(** X20. Spending a use of an item never completes.  When the item has
    a number of uses other than 0, [spend_item_use] writes the number
    less one and then raises an exception: it does not return.  With
    uses remaining, or with the item not consumable, or consumable
    without residue, the exception is the [NameError] of [self]: nobody
    is told anything, the item is not deleted, and but for the number of
    uses the world is as before.  With no uses, or none recorded, the
    call returns and changes nothing. *)
Theorem spend_item_use_never_completes `{Framework} (item : obj_id) (s : session) :
  (truthy (attr (state s) item "item_uses") = false ->
   spend_item_use item s = (inr tt, s)) /\
  (forall n, attr (state s) item "item_uses" = VInt n -> n <> 0 ->
     (exists e s', spend_item_use item s = (inl e, s')) /\
     (1 < n \/ truthy (attr (state s) item "item_consumable") = false \/
      attr (state s) item "item_consumable" = VInt 1 ->
      spend_item_use item s =
      (inl (NameError "self"),
       Session (with_objs <[item := db_set (obj_attrs (state s) item) "item_uses"
                                           (VInt (n - 1))]> (state s))
               (heard s)))).
Proof.
  split.
  { intros Hf. unfold spend_item_use. by rewrite lift_get_attr, Hf. }
  intros n Hn Hn0.
  set (s1 := Session (with_objs <[item := db_set (obj_attrs (state s) item) "item_uses"
                                                 (VInt (n - 1))]> (state s)) (heard s)).
  assert (Hstart : spend_item_use item s =
    (if n - 1 >? 0 then self_caller_msg
     else
       consumable ← lift (get_attr item "item_consumable");
       if negb (truthy consumable) then self_caller_msg
       else if py_eq consumable (VInt 1) then
         self_caller_msg ;; delete_object item
       else
         residue ← spawn_first consumable;
         move_to_location_of residue item ;;
         self_caller_msg ;; delete_object item) s1).
  { unfold spend_item_use. rewrite lift_get_attr, Hn. cbn [truthy].
    rewrite (proj2 (Z.eqb_neq n 0) Hn0). cbn [negb].
    unfold set_attr. by rewrite lift_modify. }
  assert (Hc : attr (state s1) item "item_consumable" =
               attr (state s) item "item_consumable").
  { unfold s1. simpl state. rewrite attr_set_attr.
    by rewrite decide_False by (by intros [_ ?]). }
  rewrite Hstart. split.
  - destruct (n - 1 >? 0); [by eexists _, _|].
    rewrite lift_get_attr, Hc.
    destruct (truthy (attr (state s) item "item_consumable")); cbn [negb];
      [|by eexists _, _].
    destruct (py_eq _ _); [by eexists _, _|].
    unfold mbind, Cmd_bind.
    destruct (spawn_first _ s1) as [[e|residue] s2]; [by eexists _, _|].
    destruct (move_to_location_of residue item s2) as [[e|[]] s3]; by eexists _, _.
  - intros [Hgt|[Hf|Ht]].
    + by rewrite (proj2 (Z.gtb_gt (n - 1) 0)) by lia.
    + destruct (n - 1 >? 0); [done|]. by rewrite lift_get_attr, Hc, Hf.
    + destruct (n - 1 >? 0); [done|]. by rewrite lift_get_attr, Hc, Ht.
Qed.

(** The medical kit of [with_medkit] has three uses and is consumable. *)
Lemma spend_item_use_never_completes_witness :
  exists s', @spend_item_use plain_framework 7%nat (Session with_medkit []) =
               (inl (NameError "self"), s') /\
             attr (state s') 7%nat "item_uses" = VInt 2.
Proof.
  destruct (@spend_item_use_never_completes plain_framework 7%nat
              (Session with_medkit [])) as [_ H].
  destruct (H 3) as [_ Hrun].
  - reflexivity.
  - lia.
  - rewrite Hrun by (left; lia). eexists. split; [reflexivity|].
    vm_compute. reflexivity.
Defined.

(** *** Actions left *)

(** X21. The turn goes on while actions remain.  A fighter who spends
    fewer actions than are left keeps the turn: [spend_action] returns,
    the actions left are less by the number spent and the last action is
    the label given, and nothing else changes: the roster, the cursor and
    the countdown are as before, and no message is sent. *)
Theorem turn_goes_on_while_actions_remain (p : obj_id) (n a : Z)
  (label : option string) (w : world) :
  attr w p "combat_turnhandler" = VScript ->
  attr w p "combat_actionsleft" = VInt a ->
  n < a ->
  exists w',
    spend_action p (Amount n) label w = (inr tt, w') /\
    handler w' = handler w /\ sent w' = sent w /\ room_db w' = room_db w /\
    current w' = current w /\
    attr w' p "combat_actionsleft" = VInt (a - n) /\
    (forall name, label = Some name -> name <> EmptyString ->
                  attr w' p "combat_lastaction" = VStr name) /\
    (forall c k, c <> p \/ (attr_key "combat_lastaction" <> attr_key k /\
                            attr_key "combat_actionsleft" <> attr_key k) ->
                 attr w' c k = attr w c k).
Proof.
  intros Hth Ha Hlt.
  destruct (write_label_frame p label w) as (Hh & Hs & Hr).
  exists (write_actions p (a - n) (write_label p label w)).
  split.
  { rewrite (spend_action_amount p n a).
    2:{ rewrite attr_write_label. destruct label; [|done].
        case_decide as H; [|done]. by destruct H as (_ & _ & ?). }
    replace (spent a (Amount n)) with (a - n) by (simpl; lia).
    unfold signal_end_of_turn. rewrite bind_get_attr, turnhandler_after_writes, Hth.
    rewrite (turn_end_check_actions _ _ (a - n)).
    - by rewrite (proj2 (Z.eqb_neq (a - n) 0)) by lia.
    - rewrite attr_write_actions. by rewrite decide_True. }
  split; [exact Hh|]. split; [exact Hs|]. split; [exact Hr|].
  split; [unfold current, roster, cursor; cbn [handler write_actions with_objs]; by rewrite Hh|].
  split; [rewrite attr_write_actions; by rewrite decide_True|].
  split.
  { intros name -> Hne. rewrite attr_write_actions.
    rewrite decide_False by (by intros [_ ?]).
    rewrite attr_write_label. by rewrite decide_True. }
  intros c k Hck. rewrite attr_write_actions, attr_write_label.
  case_decide as E1; [naive_solver|].
  destruct label; [|done]. case_decide as E2; [naive_solver|done].
Qed.

(** Fighter 1 of [flurry] attacks once, with three actions in hand. *)
Lemma turn_goes_on_while_actions_remain_witness :
  exists w', spend_action 1%nat (Amount 1) (Some "attack") flurry = (inr tt, w') /\
             current w' = Some 1%nat /\
             attr w' 1%nat "combat_actionsleft" = VInt 2.
Proof.
  destruct (turn_goes_on_while_actions_remain 1%nat 1 3 (Some "attack") flurry)
    as (w' & Hrun & _ & _ & _ & Hcur & Ha & _).
  - reflexivity.
  - reflexivity.
  - lia.
  - exists w'. split; [exact Hrun|]. split; [by rewrite Hcur|exact Ha].
Defined.
